(** * flaskcon-demo: the observability demo service of [app.py]

    A shallow embedding of the Flask application in [app.py], in two
    layers.

    The application layer is [app.py] by itself: its four Prometheus
    instruments, the module-level active-user count, the eight routes, the
    two registered error handlers, and the dispatch that ties them
    together ([World], the views, [dispatch_request],
    [full_dispatch_request], [serve]).

    The process layer is what [python app.py] serves (lines 205 to 207):
    the application behind Flask's whole URL map, the request hooks and
    instruments of [PrometheusMetrics(app)], the collectors of
    [prometheus_client], and werkzeug's debugger, which [debug=True] puts
    in front ([Process], [wsgi_app], [debugged_application], [run]).  It
    runs the views and the handlers of the application layer, and
    [run_agrees] shows that both layers leave the same instruments behind.

    Conventions of the embedding.
    - Python values that travel through JSON bodies and log attributes are
      the inductive [value].
    - The handlers mutate process-wide objects and may raise; they are
      written in the monad [M], a state monad over [World] whose
      computations end by returning or by raising, the state being kept in
      both cases (an increment made before a raise stays made).
    - The [random] module is deterministic in an entropy tape carried by
      the world: each call consumes one raw number and maps it onto the
      documented range of the call.  Every result the library can give is
      the image of some tape.
    - Wall-clock time is a rational number of seconds.  Each call of
      [time.time] and [time.sleep] costs a non-negative overrun read from a
      second tape.
    - Floating point numbers are idealised as rationals.  The one
      comparison of the program, [random.random() > 0.1], is between two
      exactly representable doubles and is modelled exactly.
    - [generate_latest] is the text of the four instruments [app.py]
      creates; [registry_text] is the whole text of the registry, in which
      the collectors of the library and the instruments of the exporter
      come first.  A line of the text is its metric name, its labels and
      its value.
    - The log holds the records [app.py] writes through [logger]; what
      Flask and werkzeug log by themselves is left out.
    - A request is its method, its PATH_INFO, its User-Agent header and
      its body.  It has no query string: Flask does not route on it and
      the views do not read it; only werkzeug's debugger does, for the
      requests of its own pages, which are not modelled.  Requests are
      served one after another.
    - The libraries behave as their current releases do: Flask 2.2 and
      werkzeug 2.2 or later, and prometheus_flask_exporter with its
      default instruments. *)

From Stdlib Require Import ZArith QArith Qround List String Ascii Bool Lia Lqa.
Import ListNotations.
Open Scope string_scope.
Open Scope list_scope.
Open Scope Z_scope.
Set Warnings "-register-all".

(** ** Python values *)

Inductive value : Type :=
| VNone
| VBool (b : bool)
| VInt (n : Z)
| VFloat (q : Q)
| VStr (s : string)
| VList (l : list value)
| VDict (d : list (string * value))
| VIsoTime (t : Q).
(* [VIsoTime t] is the string [datetime.isoformat()] gives for the instant
   [t]; its characters are not modelled. *)

Inductive exn : Type :=
| HTTPException (code : Z)
| AttributeError
| TypeError
| ValueError
| OverflowError
| IndexError.

Inductive level : Type := INFO | WARNING | ERROR.

Record LogRecord : Type := mkLog {
  levelname : level;
  message : string;
  extra : list (string * value)
}.

(** ** Association lists, as insertion-ordered Python dicts *)

Fixpoint assoc_get {A : Type} (k : string) (d : list (string * A)) : option A :=
  match d with
  | [] => None
  | (k', v) :: rest => if String.eqb k k' then Some v else assoc_get k rest
  end.

Fixpoint assoc_set {A : Type} (k : string) (v : A) (d : list (string * A))
  : list (string * A) :=
  match d with
  | [] => [(k, v)]
  | (k', v') :: rest =>
      if String.eqb k k' then (k, v) :: rest else (k', v') :: assoc_set k v rest
  end.

(** ** prometheus_client instruments *)

Module Prom.

(* A labelled instrument keeps one child per tuple of label values, created
   by the first [labels(...)] call for that tuple.  All labelled
   instruments of the program have a single label, so the tuple is one
   string. *)

Record Counter : Type := mkCounter {
  c_name : string;
  c_labelnames : list string;
  c_children : list (string * Z)
}.

(* A histogram child is kept as the sequence of observed values, oldest
   first; the sum, the count and the cumulative buckets of the exposition
   are computed from it. *)
Record Histogram : Type := mkHistogram {
  h_name : string;
  h_labelnames : list string;
  h_children : list (string * list Q)
}.

Record Gauge : Type := mkGauge {
  g_name : string;
  g_value : Z
}.

Definition counter_child (c : Counter) (lv : string) : option Z :=
  assoc_get lv (c_children c).

Definition counter_value (c : Counter) (lv : string) : Z :=
  match counter_child c lv with Some v => v | None => 0 end.

(* [Counter.labels(lv).inc(amount)]: raises [ValueError] on a negative
   amount, after the child has been created. *)
Definition counter_labels (c : Counter) (lv : string) : Counter :=
  match counter_child c lv with
  | Some _ => c
  | None => mkCounter (c_name c) (c_labelnames c) (c_children c ++ [(lv, 0)])
  end.

Definition counter_inc (c : Counter) (lv : string) (amount : Z)
  : Counter * option exn :=
  let c1 := counter_labels c lv in
  if amount <? 0 then (c1, Some ValueError)
  else (mkCounter (c_name c1) (c_labelnames c1)
          (assoc_set lv (counter_value c1 lv + amount) (c_children c1)), None).

Definition histogram_obs (h : Histogram) (lv : string) : list Q :=
  match assoc_get lv (h_children h) with Some l => l | None => [] end.

Definition histogram_labels (h : Histogram) (lv : string) : Histogram :=
  match assoc_get lv (h_children h) with
  | Some _ => h
  | None => mkHistogram (h_name h) (h_labelnames h) (h_children h ++ [(lv, [])])
  end.

Definition histogram_observe (h : Histogram) (lv : string) (x : Q) : Histogram :=
  let h1 := histogram_labels h lv in
  mkHistogram (h_name h1) (h_labelnames h1)
    (assoc_set lv (histogram_obs h1 lv ++ [x]) (h_children h1)).

Definition gauge_set (g : Gauge) (v : Z) : Gauge := mkGauge (g_name g) v.

Definition gauge_inc (g : Gauge) (amount : Z) : Gauge :=
  mkGauge (g_name g) (g_value g + amount).

(* What [observe] and [inc] do with a Python value: they add it to a
   float, which works for numbers (bool included) and raises otherwise. *)
Definition float_max_int : Z := 2 ^ 1024 - 2 ^ 970.

Definition to_float (v : value) : Q + exn :=
  match v with
  | VBool b => inl (if b then 1%Q else 0%Q)
  | VInt n => if Z.abs n <? float_max_int then inl (inject_Z n) else inr OverflowError
  | VFloat q => inl q
  | _ => inr TypeError
  end.

(** *** Exposition *)

Inductive line : Type :=
| TypeLine (name : string) (kind : string)
| Sample (name : string) (labels : list (string * string)) (v : Q).

Definition default_buckets : list (string * Q) :=
  [ ("0.005", 5 # 1000); ("0.01", 1 # 100); ("0.025", 25 # 1000);
    ("0.05", 5 # 100); ("0.075", 75 # 1000); ("0.1", 1 # 10);
    ("0.25", 25 # 100); ("0.5", 5 # 10); ("0.75", 75 # 100);
    ("1.0", 1 # 1); ("2.5", 25 # 10); ("5.0", 5 # 1); ("7.5", 75 # 10);
    ("10.0", 10 # 1) ]%Q.

Definition count_le (bound : Q) (obs : list Q) : Z :=
  Z.of_nat (List.length (filter (fun x => Qle_bool x bound) obs)).

Definition Qsum (obs : list Q) : Q := fold_left Qplus obs 0%Q.

Definition label_pairs (names : list string) (lv : string)
  : list (string * string) :=
  match names with
  | [] => []
  | n :: _ => [(n, lv)]
  end.

Definition collect_counter (c : Counter) : list line :=
  TypeLine (c_name c) "counter"
  :: map (fun ch => Sample (c_name c) (label_pairs (c_labelnames c) (fst ch))
                      (inject_Z (snd ch)))
       (c_children c).

Definition collect_gauge (g : Gauge) : list line :=
  [ TypeLine (g_name g) "gauge"; Sample (g_name g) [] (inject_Z (g_value g)) ].

Definition collect_child (name : string) (names : list string)
  (ch : string * list Q) : list line :=
  let lbl := label_pairs names (fst ch) in
  map (fun b => Sample (name ++ "_bucket")%string (lbl ++ [("le", fst b)])
                  (inject_Z (count_le (snd b) (snd ch))))
      default_buckets
  ++ [ Sample (name ++ "_bucket")%string (lbl ++ [("le", "+Inf")])
         (inject_Z (Z.of_nat (List.length (snd ch))));
       Sample (name ++ "_count")%string lbl (inject_Z (Z.of_nat (List.length (snd ch))));
       Sample (name ++ "_sum")%string lbl (Qsum (snd ch)) ].

Definition collect_histogram (h : Histogram) : list line :=
  TypeLine (h_name h) "histogram"
  :: flat_map (collect_child (h_name h) (h_labelnames h)) (h_children h).

Fixpoint labels_eqb (a b : list (string * string)) : bool :=
  match a, b with
  | [], [] => true
  | (k, v) :: a', (k', v') :: b' =>
      String.eqb k k' && String.eqb v v' && labels_eqb a' b'
  | _, _ => false
  end.

Fixpoint sample_value (name : string) (labels : list (string * string))
  (ls : list line) : option Q :=
  match ls with
  | [] => None
  | Sample n l v :: rest =>
      if String.eqb n name && labels_eqb l labels then Some v
      else sample_value name labels rest
  | TypeLine _ _ :: rest => sample_value name labels rest
  end.

End Prom.

(** ** The process state *)

Record World : Type := mkWorld {
  order_counter : Prom.Counter;
  order_value : Prom.Histogram;
  active_users : Prom.Gauge;
  database_query_duration : Prom.Histogram;
  _active_users_count : Z;
  log : list LogRecord;
  clock : Q;
  entropy : nat -> N;
  entropy_pos : nat;
  overrun : nat -> N;
  overrun_pos : nat
}.

Definition set_order_counter (c : Prom.Counter) (w : World) : World :=
  mkWorld c (order_value w) (active_users w) (database_query_duration w)
    (_active_users_count w) (log w) (clock w) (entropy w) (entropy_pos w)
    (overrun w) (overrun_pos w).

Definition set_order_value (h : Prom.Histogram) (w : World) : World :=
  mkWorld (order_counter w) h (active_users w) (database_query_duration w)
    (_active_users_count w) (log w) (clock w) (entropy w) (entropy_pos w)
    (overrun w) (overrun_pos w).

Definition set_active_users (g : Prom.Gauge) (w : World) : World :=
  mkWorld (order_counter w) (order_value w) g (database_query_duration w)
    (_active_users_count w) (log w) (clock w) (entropy w) (entropy_pos w)
    (overrun w) (overrun_pos w).

Definition set_database_query_duration (h : Prom.Histogram) (w : World) : World :=
  mkWorld (order_counter w) (order_value w) (active_users w) h
    (_active_users_count w) (log w) (clock w) (entropy w) (entropy_pos w)
    (overrun w) (overrun_pos w).

Definition set_active_users_count (n : Z) (w : World) : World :=
  mkWorld (order_counter w) (order_value w) (active_users w)
    (database_query_duration w) n (log w) (clock w) (entropy w) (entropy_pos w)
    (overrun w) (overrun_pos w).

Definition set_log (l : list LogRecord) (w : World) : World :=
  mkWorld (order_counter w) (order_value w) (active_users w)
    (database_query_duration w) (_active_users_count w) l (clock w) (entropy w)
    (entropy_pos w) (overrun w) (overrun_pos w).

Definition next_entropy (w : World) : World :=
  mkWorld (order_counter w) (order_value w) (active_users w)
    (database_query_duration w) (_active_users_count w) (log w) (clock w)
    (entropy w) (S (entropy_pos w)) (overrun w) (overrun_pos w).

(** ** The monad of handlers *)

Inductive outcome (A : Type) : Type :=
| Returned (a : A)
| Raised (e : exn).
Arguments Returned {A} a.
Arguments Raised {A} e.

Definition M (A : Type) : Type := World -> outcome A * World.

Definition ret {A : Type} (a : A) : M A := fun w => (Returned a, w).

Definition raise {A : Type} (e : exn) : M A := fun w => (Raised e, w).

Definition bind {A B : Type} (m : M A) (k : A -> M B) : M B :=
  fun w =>
    match m w with
    | (Returned a, w') => k a w'
    | (Raised e, w') => (Raised e, w')
    end.

Definition modify (f : World -> World) : M unit := fun w => (Returned tt, f w).

Definition gets {A : Type} (f : World -> A) : M A := fun w => (Returned (f w), w).

Declare Scope py_scope.
Delimit Scope py_scope with py.
Notation "x <- m ;; k" := (bind m (fun x => k))
  (at level 61, m at next level, right associativity) : py_scope.
Notation "m ;; k" := (bind m (fun _ => k))
  (at level 61, right associativity) : py_scope.
Open Scope py_scope.

(** ** The standard library calls the handlers make *)

(** *** random *)

Definition getrandraw : M N :=
  fun w => (Returned (entropy w (entropy_pos w)), next_entropy w).

(* [random.random()]: a multiple of 2^-53 in [0, 1). *)
Definition unit_draw (r : N) : Q := Z.of_N r mod 2 ^ 53 # 9007199254740992.

Definition random_random : M Q :=
  r <- getrandraw ;;
  ret (unit_draw r).

(* [random.uniform(a, b)] is [a + (b - a) * random()]. *)
Definition random_uniform (a b : Q) : M Q :=
  u <- random_random ;;
  ret (a + (b - a) * u)%Q.

(* [random.randint(a, b)] is [a + randbelow(b - a + 1)]. *)
Definition random_randint (a b : Z) : M Z :=
  if b <? a then raise ValueError
  else r <- getrandraw ;; ret (a + Z.of_N r mod (b - a + 1)).

(* [random.choice(seq)] is [seq[randbelow(len(seq))]]. *)
Definition random_choice {A : Type} (seq : list A) : M A :=
  match seq with
  | [] => raise IndexError
  | x :: _ =>
      r <- getrandraw ;;
      ret (nth (Z.to_nat (Z.of_N r mod Z.of_nat (List.length seq))) seq x)
  end.

(* The double nearest to the literal [0.1]: 0x1.999999999999ap-4. *)
Definition float_0_1 : Q := 3602879701896397 # 36028797018963968.

Definition Qgt_bool (x y : Q) : bool := negb (Qle_bool x y).

(** *** time and datetime *)

Definition nanoseconds (n : N) : Q := Z.of_N n # 1000000000.

Definition advance_clock (d : Q) (w : World) : World :=
  mkWorld (order_counter w) (order_value w) (active_users w)
    (database_query_duration w) (_active_users_count w) (log w)
    (clock w + d + nanoseconds (overrun w (overrun_pos w)))%Q
    (entropy w) (entropy_pos w) (overrun w) (S (overrun_pos w)).

Definition time_time : M Q :=
  modify (advance_clock 0) ;; gets clock.

Definition time_sleep (secs : Q) : M unit :=
  if Qle_bool 0 secs then modify (advance_clock secs) else raise ValueError.

Definition datetime_utcnow : M Q := time_time.

(** *** logging *)

Definition logger_log (lv : level) (msg : string) (ex : list (string * value))
  : M unit :=
  modify (fun w => set_log (log w ++ [mkLog lv msg ex]) w).

Definition logger_info := logger_log INFO.
Definition logger_warning := logger_log WARNING.
Definition logger_error := logger_log ERROR.

(** *** Rendering a number with two decimals, as [f"{x:.2f}"] *)

Definition round_half_even (q : Q) : Z :=
  let f := Qfloor q in
  match Qcompare (q - inject_Z f) (1 # 2) with
  | Lt => f
  | Gt => f + 1
  | Eq => if Z.even f then f else f + 1
  end.

Definition digit (n : Z) : string :=
  String (ascii_of_nat (48 + Z.to_nat n)) EmptyString.

Fixpoint digits (fuel : nat) (n : Z) : string :=
  match fuel with
  | O => digit (n mod 10)
  | S fuel' =>
      if n <? 10 then digit n
      else String.append (digits fuel' (n / 10)) (digit (n mod 10))
  end.

Definition format_2f (q : Q) : string :=
  let h := round_half_even (q * 100) in
  let a := Z.abs h in
  let sign := if h <? 0 then "-" else "" in
  String.concat ""
    [ sign; digits (Z.to_nat (Z.log2 a)) (a / 100); ".";
      digit (a / 10 mod 10); digit (a mod 10) ].

(** *** dict.get *)

Definition dict_get (o : value) (k : string) (default : value) : M value :=
  match o with
  | VDict d =>
      ret (match assoc_get k d with Some v => v | None => default end)
  | _ => raise AttributeError
  end.

(** ** Instrument operations on the process-wide objects *)

(* [order_counter.labels(status=lv).inc()] *)
Definition order_counter_inc (lv : string) : M unit :=
  fun w =>
    let (c, e) := Prom.counter_inc (order_counter w) lv 1 in
    match e with
    | Some x => (Raised x, set_order_counter c w)
    | None => (Returned tt, set_order_counter c w)
    end.

(* [order_value.observe(v)] *)
Definition order_value_observe (v : value) : M unit :=
  match Prom.to_float v with
  | inl x =>
      modify (fun w =>
        set_order_value (Prom.histogram_observe (order_value w) "" x) w)
  | inr e => raise e
  end.

(* [database_query_duration.labels(query_type=lv).observe(x)] *)
Definition database_query_duration_observe (lv : string) (x : Q) : M unit :=
  modify (fun w =>
    set_database_query_duration
      (Prom.histogram_observe (database_query_duration w) lv x) w).

(* [active_users.set(v)] and [active_users.inc(amount)] *)
Definition active_users_set (v : Z) : M unit :=
  modify (fun w => set_active_users (Prom.gauge_set (active_users w) v) w).

Definition active_users_inc (amount : Z) : M unit :=
  modify (fun w => set_active_users (Prom.gauge_inc (active_users w) amount) w).

(* What the four instruments of [app.py] contribute to
   [prometheus_client.generate_latest()], in registration order.  The
   registry holds more: [registry_text] is the whole text. *)
Definition generate_latest (w : World) : list Prom.line :=
  Prom.collect_counter (order_counter w)
  ++ Prom.collect_histogram (order_value w)
  ++ Prom.collect_gauge (active_users w)
  ++ Prom.collect_histogram (database_query_duration w).

Definition histogram_named (name : string) (w : World) : option Prom.Histogram :=
  find (fun h => String.eqb (Prom.h_name h) name)
    [order_value w; database_query_duration w].

(** ** Requests and responses *)

Inductive http_method : Type :=
| GET | HEAD | POST | PUT | DELETE | PATCH | OPTIONS.

Definition method_name (m : http_method) : string :=
  match m with
  | GET => "GET" | HEAD => "HEAD" | POST => "POST" | PUT => "PUT"
  | DELETE => "DELETE" | PATCH => "PATCH" | OPTIONS => "OPTIONS"
  end.

Definition method_eqb (a b : http_method) : bool :=
  String.eqb (method_name a) (method_name b).

(* What [request.get_json()] finds: a body that is not declared as JSON, a
   JSON body that does not parse, or the parsed document. *)
Inductive payload : Type :=
| NotJson
| Malformed
| Json (v : value).

Record Request : Type := mkRequest {
  method : http_method;
  path : string;
  user_agent : option string;
  data : payload
}.

Inductive body : Type :=
| JsonBody (v : value)
| Exposition (ls : list Prom.line)
| DefaultPage
| NoBody.

Record Response : Type := mkResponse {
  status_code : Z;
  response_body : body
}.

Definition jsonify (d : list (string * value)) (status : Z) : Response :=
  mkResponse status (JsonBody (VDict d)).

(* Flask 2.1 and later: 415 when the body is not JSON, 400 when it does
   not parse. *)
Definition get_json (request : Request) : M value :=
  match data request with
  | NotJson => raise (HTTPException 415)
  | Malformed => raise (HTTPException 400)
  | Json v => ret v
  end.

Definition opt_str (o : option string) : value :=
  match o with Some s => VStr s | None => VNone end.

Fixpoint for_range (n : nat) (body : M unit) : M unit :=
  match n with
  | O => ret tt
  | S n' => body ;; for_range n' body
  end.

(** ** The handlers of app.py *)

Definition home (request : Request) : M Response :=
  logger_info "Home endpoint accessed"
    [ ("endpoint", VStr "/"); ("user_agent", opt_str (user_agent request)) ] ;;
  now <- datetime_utcnow ;;
  ret (jsonify [ ("service", VStr "Flask Observability Demo");
                 ("status", VStr "running");
                 ("timestamp", VIsoTime now) ] 200).

Definition health (request : Request) : M Response :=
  ret (jsonify [ ("status", VStr "healthy") ] 200).

Definition metrics_endpoint (request : Request) : M Response :=
  ls <- gets generate_latest ;;
  ret (mkResponse 200 (Exposition ls)).

Definition create_order (request : Request) : M Response :=
  order_data <- get_json request ;;
  query_start <- time_time ;;
  secs <- random_uniform (1 # 100) (1 # 10) ;;
  time_sleep secs ;;
  t <- time_time ;;
  database_query_duration_observe "insert" (t - query_start)%Q ;;
  r <- random_random ;;
  if Qgt_bool r float_0_1 then
    order_counter_inc "success" ;;
    amount <- dict_get order_data "amount" (VInt 0) ;;
    order_value_observe amount ;;
    logged_id <- random_randint 1000 9999 ;;
    amount' <- dict_get order_data "amount" (VInt 0) ;;
    customer <- dict_get order_data "customer" (VStr "unknown") ;;
    logger_info "Order created successfully"
      [ ("order_id", VInt logged_id); ("amount", amount');
        ("customer", customer) ] ;;
    order_id <- random_randint 1000 9999 ;;
    ret (jsonify [ ("status", VStr "success"); ("order_id", VInt order_id) ] 201)
  else
    order_counter_inc "failed" ;;
    amount <- dict_get order_data "amount" (VInt 0) ;;
    logger_error "Order creation failed"
      [ ("reason", VStr "payment_declined"); ("amount", amount) ] ;;
    ret (jsonify [ ("status", VStr "error");
                   ("message", VStr "Payment declined") ] 400).

Definition get_user (user_id : string) (request : Request) : M Response :=
  query_start <- time_time ;;
  secs <- random_uniform (5 # 100) (3 # 10) ;;
  time_sleep secs ;;
  t <- time_time ;;
  database_query_duration_observe "select" (t - query_start)%Q ;;
  t' <- time_time ;;
  logger_info "User lookup"
    [ ("user_id", VStr user_id); ("query_duration", VFloat (t' - query_start)) ] ;;
  ret (jsonify [ ("user_id", VStr user_id);
                 ("username", VStr (String.append "user_" user_id));
                 ("active", VBool true) ] 200).

Definition slow_endpoint (request : Request) : M Response :=
  duration <- random_uniform 1 3 ;;
  logger_warning
    (String.concat ""
       [ "Slow endpoint accessed - will take "; format_2f duration; "s" ])
    [ ("endpoint", VStr "/api/slow"); ("expected_duration", VFloat duration) ] ;;
  time_sleep duration ;;
  ret (jsonify [ ("message", VStr "This was intentionally slow");
                 ("duration", VFloat duration) ] 200).

Definition error_types : list (Z * string * string) :=
  [ (500, "Internal Server Error", "database_connection_failed");
    (503, "Service Unavailable", "downstream_service_timeout");
    (429, "Too Many Requests", "rate_limit_exceeded") ].

Definition error_endpoint (request : Request) : M Response :=
  chosen <- random_choice error_types ;;
  let '(status, msg, reason) := chosen in
  logger_error "Error endpoint triggered"
    [ ("status_code", VInt status); ("reason", VStr reason) ] ;;
  ret (jsonify [ ("error", VStr msg); ("reason", VStr reason) ] status).

(* The body of the loop at lines 176 and 177. *)
Definition metrics_demo_iteration : M unit :=
  order_counter_inc "success" ;;
  v <- random_uniform 10 1000 ;;
  order_value_observe (VFloat v).

Definition metrics_demo (request : Request) : M Response :=
  increment <- random_randint (-5) 10 ;;
  active_users_inc increment ;;
  modify (fun w => set_active_users_count (_active_users_count w + increment) w) ;;
  n <- random_randint 1 5 ;;
  for_range (Z.to_nat n) metrics_demo_iteration ;;
  total <- gets _active_users_count ;;
  ret (jsonify [ ("message", VStr "Metrics generated");
                 ("active_users", VInt total) ] 200).

Definition not_found (request : Request) : M Response :=
  logger_warning "404 Not Found"
    [ ("path", VStr (path request));
      ("method", VStr (method_name (method request))) ] ;;
  ret (jsonify [ ("error", VStr "Not found") ] 404).

(* The handler receives werkzeug's [InternalServerError]; [str(error)] is
   its fixed description. *)
Definition str_of_error (e : exn) : string :=
  "500 Internal Server Error: The server encountered an internal error and was unable to complete your request. Either the server is overloaded or there is an error in the application.".

Definition internal_error (e : exn) (request : Request) : M Response :=
  logger_error "500 Internal Server Error"
    [ ("path", VStr (path request)); ("error", VStr (str_of_error e)) ] ;;
  ret (jsonify [ ("error", VStr "Internal server error") ] 500).

(** ** Module start-up (lines 27 to 35)

    The state when the module has been loaded.  Run as a script, the
    module goes on to log one record and to serve: [script_start]. *)

Definition boot (e o : nat -> N) (t0 : Q) : World :=
  mkWorld
    (Prom.mkCounter "orders_total" ["status"] [])
    (Prom.mkHistogram "order_value_dollars" [] [("", [])])
    (Prom.mkGauge "active_users" 0)
    (Prom.mkHistogram "database_query_duration_seconds" ["query_type"] [])
    0 [] t0 e 0%nat o 0%nat.

Definition module_init : M unit :=
  n <- random_randint 10 50 ;;
  modify (set_active_users_count n) ;;
  c <- gets _active_users_count ;;
  active_users_set c.

Definition startup (e o : nat -> N) (t0 : Q) : World :=
  snd (module_init (boot e o t0)).

(** ** Routing *)

(* A URL rule of [app.py]: a static prefix, optionally followed by one
   variable of the default converter (a non-empty segment without a
   slash).  [url_map] holds the eight rules the decorators declare; the
   rule Flask adds for static files, and the second matching attempt of
   werkzeug, are in [lookup] and [route_request]. *)
Record Rule : Type := mkRule {
  rule_prefix : string;
  rule_variable : bool;
  rule_methods : list http_method;
  rule_endpoint : string;
  rule_view : string -> Request -> M Response
}.

Definition url_map : list Rule :=
  [ mkRule "/" false [GET] "home" (fun _ => home);
    mkRule "/health" false [GET] "health" (fun _ => health);
    mkRule "/metrics" false [GET] "metrics_endpoint" (fun _ => metrics_endpoint);
    mkRule "/api/orders" false [POST] "create_order" (fun _ => create_order);
    mkRule "/api/users/" true [GET] "get_user" get_user;
    mkRule "/api/slow" false [GET] "slow_endpoint" (fun _ => slow_endpoint);
    mkRule "/api/error" false [GET] "error_endpoint" (fun _ => error_endpoint);
    mkRule "/api/metrics-demo" false [GET] "metrics_demo" (fun _ => metrics_demo) ].

Fixpoint strip_prefix (p s : string) : option string :=
  match p, s with
  | EmptyString, _ => Some s
  | String a p', String b s' =>
      if Ascii.eqb a b then strip_prefix p' s' else None
  | String _ _, EmptyString => None
  end.

Fixpoint has_slash (s : string) : bool :=
  match s with
  | EmptyString => false
  | String a s' => Ascii.eqb a "/" || has_slash s'
  end.

Definition match_rule (r : Rule) (p : string) : option string :=
  match strip_prefix (rule_prefix r) p with
  | None => None
  | Some rest =>
      if rule_variable r then
        if String.eqb rest "" || has_slash rest then None else Some rest
      else if String.eqb rest "" then Some "" else None
  end.

Fixpoint match_path (rules : list Rule) (p : string) : option (Rule * string) :=
  match rules with
  | [] => None
  | r :: rest =>
      match match_rule r p with
      | Some arg => Some (r, arg)
      | None => match_path rest p
      end
  end.

Definition mem_method (m : http_method) (ms : list http_method) : bool :=
  existsb (method_eqb m) ms.

(* Flask adds HEAD to every rule that has GET, and answers OPTIONS on
   every rule by itself.  The response to HEAD is the one the view has
   made, without its body. *)
Definition dispatch_request (request : Request) : M Response :=
  match match_path url_map (path request) with
  | None => raise (HTTPException 404)
  | Some (r, arg) =>
      let m := method request in
      if mem_method m (rule_methods r) then rule_view r arg request
      else if method_eqb m HEAD && mem_method GET (rule_methods r) then
        resp <- rule_view r arg request ;;
        ret (mkResponse (status_code resp) NoBody)
      else if method_eqb m OPTIONS then ret (mkResponse 200 NoBody)
      else raise (HTTPException 405)
  end.

(* Registered handlers: 404 and 500.  Other HTTP exceptions become the
   framework's own page.  An exception that is not an HTTP exception is
   given to [errorhandler(500)], as Flask does when exceptions are not
   propagated; with [debug=True] they are: [debug_dispatch]. *)
Definition handle_user_exception (e : exn) (request : Request) : M Response :=
  match e with
  | HTTPException code =>
      if code =? 404 then not_found request
      else if code =? 500 then internal_error e request
      else ret (mkResponse code DefaultPage)
  | _ => internal_error e request
  end.

(* The application by itself: Flask's [full_dispatch_request] with nothing
   installed around it and exceptions not propagated.  What
   [python app.py] serves is [wsgi_app] below; the two agree on what a
   request does to the instruments ([run_agrees]). *)
Definition full_dispatch_request (request : Request) (w : World)
  : Response * World :=
  match dispatch_request request w with
  | (Returned resp, w1) => (resp, w1)
  | (Raised e, w1) =>
      match handle_user_exception e request w1 with
      | (Returned resp, w2) => (resp, w2)
      | (Raised _, w2) => (mkResponse 500 DefaultPage, w2)
      end
  end.

Fixpoint serve (requests : list Request) (w : World) : list Response * World :=
  match requests with
  | [] => ([], w)
  | request :: rest =>
      let (resp, w1) := full_dispatch_request request w in
      let (resps, w2) := serve rest w1 in
      (resp :: resps, w2)
  end.

(** ** Quantities the statements refer to *)

(* The raw number the [k]-th next call of [random] will consume. *)
Definition next_raw (k : nat) (w : World) : N := entropy w (k + entropy_pos w)%nat.

(* In [create_order] the first draw is the sleep, the second the outcome,
   the third the logged order id and the fourth the returned one. *)
Definition insert_secs (w : World) : Q :=
  ((1 # 100) + ((1 # 10) - (1 # 100)) * unit_draw (next_raw 0 w))%Q.

Definition order_draw (w : World) : Q := unit_draw (next_raw 1 w).

Definition order_succeeds (w : World) : bool := Qgt_bool (order_draw w) float_0_1.

Definition logged_order_id (w : World) : Z := 1000 + Z.of_N (next_raw 2 w) mod 9000.

Definition returned_order_id (w : World) : Z := 1000 + Z.of_N (next_raw 3 w) mod 9000.

Definition select_secs (w : World) : Q :=
  ((5 # 100) + ((3 # 10) - (5 # 100)) * unit_draw (next_raw 0 w))%Q.

(* In [metrics_demo] the first draw is the delta, the second the number of
   loop iterations. *)
Definition demo_delta (w : World) : Z := -5 + Z.of_N (next_raw 0 w) mod 16.

Definition demo_iterations (w : World) : Z := 1 + Z.of_N (next_raw 1 w) mod 5.

(* The view function a request reaches, if any. *)
Definition endpoint_run (request : Request) : option string :=
  match match_path url_map (path request) with
  | None => None
  | Some (r, _) =>
      let m := method request in
      if mem_method m (rule_methods r)
         || (method_eqb m HEAD && mem_method GET (rule_methods r))
      then Some (rule_endpoint r) else None
  end.

(* The label values whose [orders_total] child a request increments, in
   order: one per [inc()] call executed. *)
Definition counter_incs (request : Request) (w : World) : list string :=
  match endpoint_run request with
  | Some ep =>
      if String.eqb ep "create_order" then
        match data request with
        | Json _ => if order_succeeds w then ["success"] else ["failed"]
        | _ => []
        end
      else if String.eqb ep "metrics_demo" then
        repeat "success" (Z.to_nat (demo_iterations w))
      else []
  | None => []
  end.

Definition successes (incs : list string) : Z :=
  Z.of_nat (List.length (filter (String.eqb "success") incs)).

Definition success_increments (request : Request) (w : World) : Z :=
  successes (counter_incs request w).

Fixpoint total_success_increments (requests : list Request) (w : World) : Z :=
  match requests with
  | [] => 0
  | request :: rest =>
      success_increments request w
      + total_success_increments rest (snd (full_dispatch_request request w))
  end.

Definition apply_incs (lvs : list string) (c : Prom.Counter) : Prom.Counter :=
  fold_left (fun c lv => fst (Prom.counter_inc c lv 1)) lvs c.

Fixpoint demo_deltas (request : Request) (n : nat) (w : World) : list Z :=
  match n with
  | O => []
  | S n' =>
      demo_delta w :: demo_deltas request n' (snd (full_dispatch_request request w))
  end.

Definition Zsum (l : list Z) : Z := fold_right Z.add 0 l.

(* The totals after each of a run of deltas, starting from [start]. *)
Fixpoint running_totals (start : Z) (ds : list Z) : list Z :=
  match ds with
  | [] => []
  | d :: rest => (start + d) :: running_totals (start + d) rest
  end.

Definition instruments_declared (w : World) : Prop :=
  Prom.c_name (order_counter w) = "orders_total"
  /\ Prom.c_labelnames (order_counter w) = ["status"]
  /\ Prom.h_name (order_value w) = "order_value_dollars"
  /\ Prom.h_labelnames (order_value w) = []
  /\ Prom.g_name (active_users w) = "active_users"
  /\ Prom.h_name (database_query_duration w) = "database_query_duration_seconds"
  /\ Prom.h_labelnames (database_query_duration w) = ["query_type"].

Definition is_number (v : value) : bool :=
  match v with
  | VInt _ | VFloat _ => true
  | _ => false
  end.

Definition alice_order : value :=
  VDict [ ("amount", VInt 100); ("customer", VStr "alice") ].

Definition payment_declined : Response :=
  jsonify [ ("status", VStr "error"); ("message", VStr "Payment declined") ] 400.

Definition order_created (order_id : Z) : Response :=
  jsonify [ ("status", VStr "success"); ("order_id", VInt order_id) ] 201.

(* What [create_order] and [get_user] measure around a sleep of [secs]:
   the difference of the two [time.time()] readings. *)
Definition elapsed_over_sleep (secs : Q) (w : World) : Q :=
  (clock w + 0 + nanoseconds (overrun w (overrun_pos w)) + secs
   + nanoseconds (overrun w (S (overrun_pos w))) + 0
   + nanoseconds (overrun w (S (S (overrun_pos w))))
   - (clock w + 0 + nanoseconds (overrun w (overrun_pos w))))%Q.

(* What a request may do to the instruments, whatever else it does:
   [orders_total] receives the increments [incs], no instrument is renamed,
   and the gauge moves together with the module-level count. *)
Definition frame_step (incs : list string) (w w' : World) : Prop :=
  order_counter w' = apply_incs incs (order_counter w)
  /\ Prom.h_name (order_value w') = Prom.h_name (order_value w)
  /\ Prom.h_labelnames (order_value w') = Prom.h_labelnames (order_value w)
  /\ Prom.h_name (database_query_duration w')
     = Prom.h_name (database_query_duration w)
  /\ Prom.h_labelnames (database_query_duration w')
     = Prom.h_labelnames (database_query_duration w)
  /\ Prom.g_name (active_users w') = Prom.g_name (active_users w)
  /\ Prom.g_value (active_users w') - _active_users_count w'
     = Prom.g_value (active_users w) - _active_users_count w.

(* [order_data.get('amount', 0)] and [order_data.get('customer', 'unknown')]
   on a parsed JSON object. *)
Definition order_amount (d : list (string * value)) : value :=
  match assoc_get "amount" d with Some v => v | None => VInt 0 end.

Definition order_customer (d : list (string * value)) : value :=
  match assoc_get "customer" d with Some v => v | None => VStr "unknown" end.

Definition order_created_record (w : World) (d : list (string * value))
  : LogRecord :=
  mkLog INFO "Order created successfully"
    [ ("order_id", VInt (logged_order_id w)); ("amount", order_amount d);
      ("customer", order_customer d) ].

Definition order_failed_record (d : list (string * value)) : LogRecord :=
  mkLog ERROR "Order creation failed"
    [ ("reason", VStr "payment_declined"); ("amount", order_amount d) ].

(** ** Concrete inputs *)

Definition steady_tape (r : N) : nat -> N := fun _ => r.

(* A tape given by its first cells. *)
Definition tape_of (cells : list N) (default : N) : nat -> N :=
  fun n => nth n cells default.

(* Start-up reads the first cell.  The next four are the draws of one
   order: the sleep, an outcome above the threshold, and two order ids. *)
Definition counting_tape : nat -> N :=
  tape_of [7; 3; 4503599627370496; 5; 77]%N 4503599627370496%N.

Definition tape_with_ids (a b : Z) : nat -> N :=
  tape_of [0%N; 4503599627370496%N; Z.to_N (a - 1000); Z.to_N (b - 1000)] 0%N.

Definition accepting_world : World :=
  startup counting_tape (steady_tape 1000) 0.

Definition declining_world : World :=
  startup (steady_tape 0) (steady_tape 1000) 0.

Definition post_orders (ua : option string) (p : payload) : Request :=
  mkRequest POST "/api/orders" ua p.

Definition get_path (p : string) : Request := mkRequest GET p None NotJson.

Definition not_found_response : Response :=
  jsonify [ ("error", VStr "Not found") ] 404.

Definition not_found_record (request : Request) : LogRecord :=
  mkLog WARNING "404 Not Found"
    [ ("path", VStr (path request));
      ("method", VStr (method_name (method request))) ].

Definition metrics_generated (total : Z) : Response :=
  jsonify [ ("message", VStr "Metrics generated");
            ("active_users", VInt total) ] 200.

Definition error_response (status : Z) (msg reason : string) : Response :=
  jsonify [ ("error", VStr msg); ("reason", VStr reason) ] status.

(** ** Further quantities *)

(* The change a request makes to the module-level active-user count. *)
Definition gauge_delta (request : Request) (w : World) : Z :=
  match endpoint_run request with
  | Some ep => if String.eqb ep "metrics_demo" then demo_delta w else 0
  | None => 0
  end.

Fixpoint total_gauge_delta (requests : list Request) (w : World) : Z :=
  match requests with
  | [] => 0
  | request :: rest =>
      gauge_delta request w
      + total_gauge_delta rest (snd (full_dispatch_request request w))
  end.

(* The values the loop of [metrics_demo] observes: its [k]-th iteration
   uses the draw that follows the delta, the iteration count and the
   [k] earlier iterations. *)
Definition demo_value (w : World) (k : nat) : Q :=
  (10 + (1000 - 10) * unit_draw (next_raw (2 + k) w))%Q.

Definition demo_values (w : World) : list Q :=
  map (demo_value w) (seq 0 (Z.to_nat (demo_iterations w))).

(* What a request observes into [order_value_dollars]. *)
Definition value_observations (request : Request) (w : World) : list Q :=
  match endpoint_run request with
  | Some ep =>
      if String.eqb ep "create_order" then
        match data request with
        | Json (VDict d) =>
            if order_succeeds w then
              match Prom.to_float (order_amount d) with
              | inl x => [x]
              | inr _ => []
              end
            else []
        | _ => []
        end
      else if String.eqb ep "metrics_demo" then demo_values w
      else []
  | None => []
  end.

(* What a request observes into the query-duration histogram: the series
   and the value. *)
Definition query_observation (request : Request) (w : World)
  : option (string * Q) :=
  match endpoint_run request with
  | Some ep =>
      if String.eqb ep "create_order" then
        match data request with
        | Json _ => Some ("insert", elapsed_over_sleep (insert_secs w) w)
        | _ => None
        end
      else if String.eqb ep "get_user" then
        Some ("select", elapsed_over_sleep (select_secs w) w)
      else None
  | None => None
  end.

Definition observe_query (qobs : option (string * Q)) (h : Prom.Histogram)
  : Prom.Histogram :=
  match qobs with
  | Some (lv, x) => Prom.histogram_observe h lv x
  | None => h
  end.

Definition registry_step (delta : Z) (vals : list Q)
  (qobs : option (string * Q)) (w w' : World) : Prop :=
  _active_users_count w' = _active_users_count w + delta
  /\ Prom.histogram_obs (order_value w') ""
     = Prom.histogram_obs (order_value w) "" ++ vals
  /\ database_query_duration w' = observe_query qobs (database_query_duration w)
  /\ entropy w' = entropy w.

(* How often a request increments the child [lv] of [orders_total]. *)
Definition label_increments (lv : string) (incs : list string) : Z :=
  Z.of_nat (List.length (filter (String.eqb lv) incs)).

Fixpoint total_label_increments (lv : string) (requests : list Request)
  (w : World) : Z :=
  match requests with
  | [] => 0
  | request :: rest =>
      label_increments lv (counter_incs request w)
      + total_label_increments lv rest (snd (full_dispatch_request request w))
  end.

Fixpoint total_value_observations (requests : list Request) (w : World)
  : list Q :=
  match requests with
  | [] => []
  | request :: rest =>
      value_observations request w
      ++ total_value_observations rest (snd (full_dispatch_request request w))
  end.

(* The series of the query-duration histogram a sequence of requests
   feeds, restricted to one label value. *)
Definition query_series (lv : string) (qobs : option (string * Q)) : list Q :=
  match qobs with
  | Some (lv', x) => if String.eqb lv lv' then [x] else []
  | None => []
  end.

Fixpoint total_query_series (lv : string) (requests : list Request)
  (w : World) : list Q :=
  match requests with
  | [] => []
  | request :: rest =>
      query_series lv (query_observation request w)
      ++ total_query_series lv rest (snd (full_dispatch_request request w))
  end.

(* What the log and the response of a dispatched view look like: a view
   that returns has written at most one record; a view that raises has
   written none. *)
Definition view_outcome (w : World) (r : outcome Response * World) : Prop :=
  match fst r with
  | Returned resp =>
      (exists l, log (snd r) = log w ++ l /\ (List.length l <= 1)%nat)
      /\ In (status_code resp) [200; 201; 400; 429; 500; 503]
  | Raised e =>
      log (snd r) = log w
      /\ In e [ HTTPException 404; HTTPException 405; HTTPException 415;
                HTTPException 400; AttributeError; TypeError; OverflowError ]
  end.

Definition possible_statuses : list Z :=
  [200; 201; 400; 404; 405; 415; 429; 500; 503].

Definition internal_error_response : Response :=
  jsonify [ ("error", VStr "Internal server error") ] 500.

Definition internal_error_record (e : exn) (request : Request) : LogRecord :=
  mkLog ERROR "500 Internal Server Error"
    [ ("path", VStr (path request)); ("error", VStr (str_of_error e)) ].

Definition user_response (user_id : string) : Response :=
  jsonify [ ("user_id", VStr user_id);
            ("username", VStr (String.append "user_" user_id));
            ("active", VBool true) ] 200.

Definition slow_duration (w : World) : Q :=
  (1 + (3 - 1) * unit_draw (next_raw 0 w))%Q.

Definition is_http (e : exn) : bool :=
  match e with HTTPException _ => true | _ => false end.

(** ** The serving process of [python app.py]

    What precedes is the application by itself: the four instruments, the
    views, the two error handlers and the dispatch among the eight rules
    of [app.py].  The process that [python app.py] starts puts more around
    it, and this part adds it: the record of line 206; the rule
    [/static/<path:filename>] that [Flask(__name__)] installs; werkzeug's
    second matching attempt with doubled slashes merged; the empty body of
    every answer to HEAD; the instruments and the request hooks of
    [PrometheusMetrics(app)] and [metrics.info] (lines 23 and 24); the
    collectors [prometheus_client] registers by itself; and, since line
    207 runs with [debug=True], the propagation of an exception that no
    handler takes to werkzeug's debugger, past [errorhandler(500)].
    Under the reloader of debug mode the exporter does not install its own
    /metrics endpoint, so the view of [app.py] serves that path and is
    tracked like any other. *)

(** *** Instruments with several labels *)

Fixpoint tuple_eqb (a b : list string) : bool :=
  match a, b with
  | [], [] => true
  | x :: a', y :: b' => String.eqb x y && tuple_eqb a' b'
  | _, _ => false
  end.

Fixpoint tuple_get {A : Type} (k : list string) (d : list (list string * A))
  : option A :=
  match d with
  | [] => None
  | (k', v) :: rest => if tuple_eqb k k' then Some v else tuple_get k rest
  end.

Fixpoint tuple_set {A : Type} (k : list string) (v : A)
  (d : list (list string * A)) : list (list string * A) :=
  match d with
  | [] => [(k, v)]
  | (k', v') :: rest =>
      if tuple_eqb k k' then (k, v) :: rest else (k', v') :: tuple_set k v rest
  end.

(* [str(n)] for a status code. *)
Definition str_of_int (n : Z) : string := digits (Z.to_nat (Z.log2 n)) n.

Module Exporter.

(* The default instruments of prometheus_flask_exporter, prefix [flask]:
   the request duration histogram with labels method, path, status; the
   request counter and the exception counter with labels method, status.
   [version] is that of the installed exporter, which
   [flask_exporter_info] shows. *)
Record State : Type := mkState {
  version : string;
  request_duration_metric : list (list string * list Q);
  request_total_metric : list (list string * Z);
  request_exceptions_metric : list (list string * Z)
}.

Definition initial (v : string) : State := mkState v [] [] [].

Definition count (k : list string) (d : list (list string * Z)) : Z :=
  match tuple_get k d with Some v => v | None => 0 end.

Definition inc (k : list string) (d : list (list string * Z))
  : list (list string * Z) :=
  tuple_set k (count k d + 1) d.

Definition observe (k : list string) (x : Q) (d : list (list string * list Q))
  : list (list string * list Q) :=
  tuple_set k (match tuple_get k d with Some l => l ++ [x] | None => [x] end) d.

(* [after_request]: the duration, then the request counter. *)
Definition after_request (m p status : string) (total_time : Q) (s : State)
  : State :=
  mkState (version s)
    (observe [m; p; status] total_time (request_duration_metric s))
    (inc [m; status] (request_total_metric s))
    (request_exceptions_metric s).

(* [teardown_request] with an exception: the exception counter, the
   duration and the request counter, all under status 500. *)
Definition teardown_request (m p : string) (total_time : Q) (s : State) : State :=
  mkState (version s)
    (observe [m; p; "500"] total_time (request_duration_metric s))
    (inc [m; "500"] (request_total_metric s))
    (inc [m; "500"] (request_exceptions_metric s)).

Definition collect_counter (name : string) (names : list string)
  (d : list (list string * Z)) : list Prom.line :=
  Prom.TypeLine name "counter"
  :: map (fun ch => Prom.Sample name (combine names (fst ch))
                      (inject_Z (snd ch))) d.

Definition collect_child (name : string) (names : list string)
  (ch : list string * list Q) : list Prom.line :=
  let lbl := combine names (fst ch) in
  map (fun b => Prom.Sample (String.append name "_bucket")
                  (lbl ++ [("le", fst b)])
                  (inject_Z (Prom.count_le (snd b) (snd ch))))
      Prom.default_buckets
  ++ [ Prom.Sample (String.append name "_bucket") (lbl ++ [("le", "+Inf")])
         (inject_Z (Z.of_nat (List.length (snd ch))));
       Prom.Sample (String.append name "_count") lbl
         (inject_Z (Z.of_nat (List.length (snd ch))));
       Prom.Sample (String.append name "_sum") lbl (Prom.Qsum (snd ch)) ].

Definition collect_histogram (name : string) (names : list string)
  (d : list (list string * list Q)) : list Prom.line :=
  Prom.TypeLine name "histogram" :: flat_map (collect_child name names) d.

(* The exporter's part of the registry in registration order, followed by
   [flask_app_info] of line 24. *)
Definition collect (s : State) : list Prom.line :=
  [ Prom.TypeLine "flask_exporter_info" "gauge";
    Prom.Sample "flask_exporter_info" [("version", version s)] 1%Q ]
  ++ collect_histogram "flask_http_request_duration_seconds"
       ["method"; "path"; "status"] (request_duration_metric s)
  ++ collect_counter "flask_http_request_total" ["method"; "status"]
       (request_total_metric s)
  ++ collect_counter "flask_http_request_exceptions_total" ["method"; "status"]
       (request_exceptions_metric s)
  ++ [ Prom.TypeLine "flask_app_info" "gauge";
       Prom.Sample "flask_app_info" [("version", "1.0.0")] 1%Q ].

End Exporter.

(** *** The process *)

(* [timer] gives the successive readings of the exporter's
   [default_timer]; [platform] gives, for the [n]-th request served, what
   the process, platform and GC collectors report when the registry is
   collected during it. *)
Record Process : Type := mkProcess {
  world : World;
  exporter : Exporter.State;
  timer : nat -> Q;
  timer_pos : nat;
  platform : nat -> list Prom.line;
  served : nat
}.

Definition set_world (w : World) (P : Process) : Process :=
  mkProcess w (exporter P) (timer P) (timer_pos P) (platform P) (served P).

Definition set_exporter (s : Exporter.State) (P : Process) : Process :=
  mkProcess (world P) s (timer P) (timer_pos P) (platform P) (served P).

Definition next_request (P : Process) : Process :=
  mkProcess (world P) (exporter P) (timer P) (timer_pos P) (platform P)
    (S (served P)).

Definition default_timer (P : Process) : Q * Process :=
  (timer P (timer_pos P),
   mkProcess (world P) (exporter P) (timer P) (S (timer_pos P)) (platform P)
     (served P)).

(* The text [generate_latest()] returns on the default registry, in
   registration order: the collectors the library registers by itself,
   the exporter's instruments, the instruments of [app.py]. *)
Definition registry_text (P : Process) : list Prom.line :=
  platform P (served P) ++ Exporter.collect (exporter P)
  ++ generate_latest (world P).


Definition script_start (e o : nat -> N) (t0 : Q) (exporter_version : string)
  (tm : nat -> Q) (pf : nat -> list Prom.line) : Process :=
  mkProcess (snd (logger_info "Starting Flask Observability Demo App" []
                    (startup e o t0)))
    (Exporter.initial exporter_version) tm 0%nat pf 0%nat.

(** *** The request object *)

Fixpoint lstrip_slashes (s : string) : string :=
  match s with
  | String a s' => if Ascii.eqb a "/" then lstrip_slashes s' else s
  | EmptyString => EmptyString
  end.

(* [request.path], on which werkzeug also routes: PATH_INFO with its
   leading slashes replaced by one.  (An empty PATH_INFO, which no request
   line in origin form gives, is read as [/].) *)
Definition request_path (path_info : string) : string :=
  String "/" (lstrip_slashes path_info).

(* The request as the server hands it over carries PATH_INFO in [path];
   Flask's [request] carries [request.path]. *)
Definition make_request (environ : Request) : Request :=
  mkRequest (method environ) (request_path (path environ)) (user_agent environ)
    (data environ).

(** *** Routing on the whole URL map *)

(* The path converter of the static rule takes the rest of the path when
   it is not empty and does not begin with a slash. *)
Definition static_filename (p : string) : option string :=
  match strip_prefix "/static/" p with
  | Some (String a f) => if Ascii.eqb a "/" then None else Some (String a f)
  | _ => None
  end.

(* [re.sub("/{2,}?", "/", path)]: every pair of slashes, from the left,
   becomes one slash. *)
Fixpoint merge_slashes (s : string) : string :=
  match s with
  | EmptyString => EmptyString
  | String a s1 =>
      match s1 with
      | String b s2 =>
          if Ascii.eqb a "/" && Ascii.eqb b "/"
          then String "/" (merge_slashes s2)
          else String a (merge_slashes s1)
      | EmptyString => s
      end
  end.

Inductive target : Type :=
| AppRule
| StaticFile (filename : string).

(* The methods of a rule: its own, HEAD when it has GET, and OPTIONS. *)
Definition rule_allows (r : Rule) (m : http_method) : bool :=
  mem_method m (rule_methods r)
  || (method_eqb m HEAD && mem_method GET (rule_methods r))
  || method_eqb m OPTIONS.

Definition static_allows (m : http_method) : bool :=
  method_eqb m GET || method_eqb m HEAD || method_eqb m OPTIONS.

(* One matching attempt: no rule for the path, a rule for the path that
   does not allow the method, or a rule that does. *)
Definition lookup (m : http_method) (p : string) : option (option target) :=
  match static_filename p with
  | Some f => if static_allows m then Some (Some (StaticFile f)) else Some None
  | None =>
      match match_path url_map p with
      | Some (r, _) => if rule_allows r m then Some (Some AppRule) else Some None
      | None => None
      end
  end.

Inductive routing : Type :=
| Dispatch (t : target)
| RedirectTo (location : string)
| Abort (code : Z).

(* werkzeug's matcher: when the first attempt finds nothing it tries again
   with the slashes merged, and a hit then is a redirect to the merged
   path; otherwise 405 if either attempt met a rule for the path, else
   404. *)
Definition route_request (request : Request) : routing :=
  let m := method request in
  let p := path request in
  match lookup m p with
  | Some (Some t) => Dispatch t
  | first =>
      match lookup m (merge_slashes p) with
      | Some (Some _) => RedirectTo (merge_slashes p)
      | second =>
          match first, second with
          | None, None => Abort 404
          | _, _ => Abort 405
          end
      end
  end.

(* [app.py] comes without a static folder: no file is ever found. *)
Definition send_static_file (filename : string) : M Response :=
  raise (HTTPException 404).

Definition flask_dispatch (request : Request) : M Response :=
  match route_request request with
  | Dispatch AppRule => dispatch_request request
  | Dispatch (StaticFile f) =>
      if method_eqb (method request) OPTIONS then ret (mkResponse 200 NoBody)
      else send_static_file f
  | RedirectTo _ => raise (HTTPException 308)
  | Abort code => raise (HTTPException code)
  end.

(** *** One request through the process *)

(* What the client receives: a response of the application, or the
   traceback page of werkzeug's debugger for the exception [e]. *)
Inductive reply : Type :=
| Answer (resp : Response)
| Debugger (e : exn).

Definition reply_status (r : reply) : Z :=
  match r with
  | Answer resp => status_code resp
  | Debugger _ => 500
  end.

(* Flask's [full_dispatch_request] under [debug=True]: an HTTP exception
   goes to the registered handler or becomes its own page; any other
   exception is propagated, and no handler runs for it. *)
Definition debug_dispatch (request : Request) (w : World) : reply * World :=
  match flask_dispatch request w with
  | (Returned resp, w1) => (Answer resp, w1)
  | (Raised e, w1) =>
      if is_http e then
        match handle_user_exception e request w1 with
        | (Returned resp, w2) => (Answer resp, w2)
        | (Raised e', w2) => (Debugger e', w2)
        end
      else (Debugger e, w1)
  end.

Definition total_time (t0 t1 : Q) : Q :=
  if Qle_bool 0 (t1 - t0) then (t1 - t0)%Q else 0%Q.

(* The view of /metrics collects the whole registry: the text of the
   instruments of [app.py] comes last. *)
Definition whole_registry (P : Process) (resp : Response) : Response :=
  match response_body resp with
  | Exposition ls =>
      mkResponse (status_code resp)
        (Exposition
           (platform P (served P) ++ Exporter.collect (exporter P) ++ ls))
  | _ => resp
  end.

(* No body is sent in answer to HEAD. *)
Definition sent (request : Request) (resp : Response) : Response :=
  if method_eqb (method request) HEAD
  then mkResponse (status_code resp) NoBody else resp.

(* The exporter reads its timer before the request is dispatched and
   after it; a response goes through [after_request], a propagated
   exception through [teardown_request]. *)
Definition wsgi_app (environ : Request) (P : Process) : reply * Process :=
  let request := make_request environ in
  let (t0, P0) := default_timer P in
  let (r, w1) := debug_dispatch request (world P0) in
  let (t1, P1) := default_timer (set_world w1 P0) in
  let m := method_name (method request) in
  match r with
  | Answer resp =>
      (Answer (sent request (whole_registry P0 resp)),
       next_request
         (set_exporter
            (Exporter.after_request m (path request)
               (str_of_int (status_code resp)) (total_time t0 t1) (exporter P1))
            P1))
  | Debugger e =>
      (Debugger e,
       next_request
         (set_exporter
            (Exporter.teardown_request m (path request) (total_time t0 t1)
               (exporter P1))
            P1))
  end.

(* [app.run(debug=True)] wraps the application in werkzeug's
   [DebuggedApplication].  Besides showing the traceback of a propagated
   exception, it answers its console path by itself: that request does
   not reach Flask, and there is no reply of the application. *)
Definition console_path : string := "/console".

Definition debugged_application (environ : Request) (P : Process)
  : option reply * Process :=
  if String.eqb (request_path (path environ)) console_path then (None, P)
  else let (r, P1) := wsgi_app environ P in (Some r, P1).

Fixpoint run (environs : list Request) (P : Process)
  : list (option reply) * Process :=
  match environs with
  | [] => ([], P)
  | environ :: rest =>
      let (r, P1) := debugged_application environ P in
      let (rs, P2) := run rest P1 in
      (r :: rs, P2)
  end.

(** *** Inputs and quantities of the statements about the process *)

Definition served_statuses : list Z :=
  [200; 201; 308; 400; 404; 405; 415; 429; 500; 503].

Definition path_has_rule (p : string) : bool :=
  match static_filename p, match_path url_map p with
  | None, None => false
  | _, _ => true
  end.

(* A path that is not the debugger's and that no rule takes, neither as
   it is nor with its doubled slashes merged. *)
Definition unrouted (p : string) : bool :=
  negb (String.eqb p console_path)
  && negb (path_has_rule p)
  && negb (path_has_rule (merge_slashes p)).

Definition not_found_body (request : Request) : body :=
  if method_eqb (method request) HEAD then NoBody
  else JsonBody (VDict [ ("error", VStr "Not found") ]).

(* The instruments [app.py] creates, and the count behind the gauge. *)
Definition same_instruments (w w' : World) : Prop :=
  order_counter w' = order_counter w
  /\ order_value w' = order_value w
  /\ active_users w' = active_users w
  /\ database_query_duration w' = database_query_duration w
  /\ _active_users_count w' = _active_users_count w.

(* The answers by which the framework refuses a request. *)
Definition refused (r : reply) : bool :=
  existsb (Z.eqb (reply_status r)) [308; 405; 415].

(* The exporter's reading of the duration of the next request. *)
Definition measured (P : Process) : Q :=
  total_time (timer P (timer_pos P)) (timer P (S (timer_pos P))).

Definition reached (r : option reply) : bool :=
  match r with Some _ => true | None => false end.

Definition faulted (r : option reply) : bool :=
  match r with Some (Debugger _) => true | _ => false end.

Definition Ztotal {A : Type} (d : list (A * Z)) : Z := Zsum (map snd d).

(* A world without its log, and a computation that does not read the
   log: it returns the same and leaves the same state, the log apart,
   whatever the log was. *)
Definition forget_log (w : World) : World := set_log [] w.

Definition blind {A : Type} (m : M A) : Prop :=
  forall w l,
    fst (m (set_log l w)) = fst (m w)
    /\ forget_log (snd (m (set_log l w))) = forget_log (snd (m w)).

(* The requests that reach the application. *)
Definition reaches (environ : Request) : bool :=
  negb (String.eqb (request_path (path environ)) console_path).

Definition no_collectors : nat -> list Prom.line := fun _ => [].

Definition zero_timer : nat -> Q := fun _ => 0%Q.

Definition accepting_process : Process :=
  script_start counting_tape (steady_tape 1000) 0 "0.23.1" zero_timer
    no_collectors.

Definition get_metrics : Request := mkRequest GET "/metrics" None NotJson.

Definition exposition_of (r : option reply) : list Prom.line :=
  match r with
  | Some (Answer (mkResponse _ (Exposition ls))) => ls
  | _ => []
  end.

(** * Properties *)

(** ** Numbers *)

Lemma unit_draw_range (r : N) : (0 <= unit_draw r)%Q /\ (unit_draw r < 1)%Q.
Proof.
  assert (H := Z.mod_pos_bound (Z.of_N r) (2 ^ 53) eq_refl).
  unfold unit_draw, Qle, Qlt; cbn [Qnum Qden].
  change (2 ^ 53) with 9007199254740992 in *. lia.
Qed.

Lemma uniform_range (a b : Q) (r : N) :
  (a <= b)%Q ->
  (a <= a + (b - a) * unit_draw r)%Q /\ (a + (b - a) * unit_draw r <= b)%Q.
Proof.
  intros Hab. destruct (unit_draw_range r) as [H0 H1].
  split; nra.
Qed.

Lemma sleep_allowed (a b : Q) (r : N) :
  (0 <= a)%Q -> (a <= b)%Q -> Qle_bool 0 (a + (b - a) * unit_draw r) = true.
Proof.
  intros Ha Hab. apply Qle_bool_iff.
  destruct (uniform_range a b r Hab). lra.
Qed.

Lemma order_threshold (r : N) :
  Qgt_bool (unit_draw r) float_0_1 = (900719925474100 <=? Z.of_N r mod 2 ^ 53).
Proof.
  unfold Qgt_bool, unit_draw, float_0_1.
  assert (H := Z.mod_pos_bound (Z.of_N r) (2 ^ 53) eq_refl).
  set (k := Z.of_N r mod 2 ^ 53) in *.
  destruct (Z.leb_spec 900719925474100 k) as [Hk | Hk].
  - apply negb_true_iff. apply not_true_is_false. intro Hc.
    apply Qle_bool_iff in Hc. unfold Qle in Hc; cbn [Qnum Qden] in Hc.
    change (2 ^ 53) with 9007199254740992 in *. lia.
  - apply negb_false_iff. apply Qle_bool_iff. unfold Qle; cbn [Qnum Qden].
    change (2 ^ 53) with 9007199254740992 in *. lia.
Qed.



Ltac ground_tests :=
  repeat match goal with
  | |- context [Z.ltb ?a ?b] =>
      let v := eval vm_compute in (Z.ltb a b) in
      lazymatch v with
      | true => change (Z.ltb a b) with true
      | false => change (Z.ltb a b) with false
      end
  end.

Ltac exec :=
  cbv [bind ret raise modify gets time_time time_sleep datetime_utcnow
       random_uniform random_random random_randint random_choice getrandraw
       database_query_duration_observe order_counter_inc order_value_observe
       active_users_inc active_users_set dict_get
       logger_info logger_warning logger_error logger_log];
  ground_tests;
  cbn [order_counter order_value active_users database_query_duration
       _active_users_count log clock entropy entropy_pos overrun overrun_pos
       set_order_counter set_order_value set_active_users
       set_database_query_duration set_active_users_count set_log
       next_entropy advance_clock fst snd].


Lemma nanoseconds_nonneg (n : N) : (0 <= nanoseconds n)%Q.
Proof. unfold nanoseconds, Qle; cbn [Qnum Qden]. lia. Qed.

Lemma elapsed_covers_sleep (secs : Q) (w : World) :
  (secs <= elapsed_over_sleep secs w)%Q.
Proof.
  unfold elapsed_over_sleep.
  pose proof (nanoseconds_nonneg (overrun w (S (overrun_pos w)))).
  pose proof (nanoseconds_nonneg (overrun w (S (S (overrun_pos w))))).
  lra.
Qed.

(** ** Association lists *)

Lemma assoc_get_set_same {A : Type} (k : string) (v : A) (d : list (string * A)) :
  assoc_get k (assoc_set k v d) = Some v.
Proof.
  induction d as [| [k' v'] d IH]; cbn.
  - now rewrite String.eqb_refl.
  - destruct (String.eqb k k') eqn:E; cbn; rewrite ?E, ?String.eqb_refl; auto.
Qed.

Lemma assoc_get_set_other {A : Type} (k k0 : string) (v : A) (d : list (string * A)) :
  k0 <> k -> assoc_get k0 (assoc_set k v d) = assoc_get k0 d.
Proof.
  intros Hne. induction d as [| [k' v'] d IH]; cbn.
  - destruct (String.eqb_spec k0 k); congruence.
  - destruct (String.eqb_spec k k') as [-> | Hk]; cbn.
    + destruct (String.eqb_spec k0 k'); congruence.
    + destruct (String.eqb_spec k0 k'); auto.
Qed.

Lemma assoc_get_app {A : Type} (k : string) (d1 d2 : list (string * A)) :
  assoc_get k (d1 ++ d2)
  = match assoc_get k d1 with Some v => Some v | None => assoc_get k d2 end.
Proof.
  induction d1 as [| [k' v'] d1 IH]; cbn; auto.
  destruct (String.eqb k k'); auto.
Qed.

(** ** Counters *)

Lemma counter_inc_one (c : Prom.Counter) (lv : string) :
  Prom.counter_inc c lv 1 = (fst (Prom.counter_inc c lv 1), None).
Proof. reflexivity. Qed.

Lemma counter_child_inc_same (c : Prom.Counter) (lv : string) :
  Prom.counter_child (fst (Prom.counter_inc c lv 1)) lv
  = Some (Prom.counter_value c lv + 1).
Proof.
  unfold Prom.counter_inc; cbn.
  rewrite assoc_get_set_same. f_equal. f_equal.
  unfold Prom.counter_labels, Prom.counter_value.
  destruct (Prom.counter_child c lv) eqn:E; [now rewrite E |].
  unfold Prom.counter_child in *; cbn. rewrite assoc_get_app, E. cbn.
  now rewrite String.eqb_refl.
Qed.

Lemma counter_child_inc_other (c : Prom.Counter) (lv lv0 : string) :
  lv0 <> lv ->
  Prom.counter_child (fst (Prom.counter_inc c lv 1)) lv0 = Prom.counter_child c lv0.
Proof.
  intros Hne. unfold Prom.counter_inc; cbn.
  rewrite assoc_get_set_other by assumption.
  unfold Prom.counter_labels.
  destruct (Prom.counter_child c lv) eqn:E; [reflexivity |].
  unfold Prom.counter_child; cbn. rewrite assoc_get_app.
  destruct (assoc_get lv0 (Prom.c_children c)); [reflexivity |].
  cbn. destruct (String.eqb_spec lv0 lv); congruence.
Qed.

Lemma counter_inc_names (c : Prom.Counter) (lv : string) :
  Prom.c_name (fst (Prom.counter_inc c lv 1)) = Prom.c_name c
  /\ Prom.c_labelnames (fst (Prom.counter_inc c lv 1)) = Prom.c_labelnames c.
Proof.
  unfold Prom.counter_inc, Prom.counter_labels; cbn.
  destruct (Prom.counter_child c lv); auto.
Qed.

Lemma histogram_observe_names (h : Prom.Histogram) (lv : string) (x : Q) :
  Prom.h_name (Prom.histogram_observe h lv x) = Prom.h_name h
  /\ Prom.h_labelnames (Prom.histogram_observe h lv x) = Prom.h_labelnames h.
Proof.
  unfold Prom.histogram_observe, Prom.histogram_labels; cbn.
  destruct (assoc_get lv (Prom.h_children h)); auto.
Qed.

Lemma histogram_obs_observe_same (h : Prom.Histogram) (lv : string) (x : Q) :
  Prom.histogram_obs (Prom.histogram_observe h lv x) lv
  = Prom.histogram_obs h lv ++ [x].
Proof.
  unfold Prom.histogram_observe. unfold Prom.histogram_obs at 1; cbn.
  rewrite assoc_get_set_same. f_equal.
  unfold Prom.histogram_labels, Prom.histogram_obs.
  destruct (assoc_get lv (Prom.h_children h)) eqn:E; [now rewrite E |].
  cbn. rewrite assoc_get_app, E. cbn. now rewrite String.eqb_refl.
Qed.

Lemma histogram_obs_observe_other (h : Prom.Histogram) (lv lv0 : string) (x : Q) :
  lv0 <> lv ->
  Prom.histogram_obs (Prom.histogram_observe h lv x) lv0 = Prom.histogram_obs h lv0.
Proof.
  intros Hne. unfold Prom.histogram_observe. unfold Prom.histogram_obs at 1; cbn.
  rewrite assoc_get_set_other by assumption.
  unfold Prom.histogram_labels, Prom.histogram_obs.
  destruct (assoc_get lv (Prom.h_children h)) eqn:E; [reflexivity |].
  cbn. rewrite assoc_get_app.
  destruct (assoc_get lv0 (Prom.h_children h)); [reflexivity |].
  cbn. destruct (String.eqb_spec lv0 lv); congruence.
Qed.

(** ** The frame of each handler *)

Ltac frame :=
  unfold frame_step;
  cbn [order_counter order_value active_users database_query_duration
       _active_users_count log clock entropy entropy_pos overrun overrun_pos
       set_order_counter set_order_value set_active_users
       set_database_query_duration set_active_users_count set_log
       next_entropy advance_clock fst snd apply_incs fold_left
       Prom.g_name Prom.g_value Prom.gauge_inc Prom.gauge_set];
  repeat match goal with
  | |- _ /\ _ => split
  | |- context [Prom.h_name (Prom.histogram_observe ?h ?lv ?x)] =>
      rewrite (proj1 (histogram_observe_names h lv x))
  | |- context [Prom.h_labelnames (Prom.histogram_observe ?h ?lv ?x)] =>
      rewrite (proj2 (histogram_observe_names h lv x))
  end;
  try reflexivity; try lia.

Lemma frame_step_trans (i1 i2 : list string) (w w1 w2 : World) :
  frame_step i1 w w1 -> frame_step i2 w1 w2 -> frame_step (i1 ++ i2) w w2.
Proof.
  unfold frame_step, apply_incs.
  intros (A1 & A2 & A3 & A4 & A5 & A6 & A7) (B1 & B2 & B3 & B4 & B5 & B6 & B7).
  rewrite fold_left_app, <- A1.
  repeat split; congruence.
Qed.

Lemma home_frame (request : Request) (w : World) :
  frame_step [] w (snd (home request w)).
Proof. unfold home. exec. frame. Qed.

Lemma health_frame (request : Request) (w : World) :
  frame_step [] w (snd (health request w)).
Proof. unfold health. exec. frame. Qed.

Lemma metrics_endpoint_frame (request : Request) (w : World) :
  frame_step [] w (snd (metrics_endpoint request w)).
Proof. unfold metrics_endpoint. exec. frame. Qed.

Lemma get_user_frame (user_id : string) (request : Request) (w : World) :
  frame_step [] w (snd (get_user user_id request w)).
Proof.
  unfold get_user. exec.
  rewrite sleep_allowed by (unfold Qle; simpl; lia). exec. frame.
Qed.

Lemma slow_endpoint_frame (request : Request) (w : World) :
  frame_step [] w (snd (slow_endpoint request w)).
Proof.
  unfold slow_endpoint. exec.
  rewrite sleep_allowed by (unfold Qle; simpl; lia). exec. frame.
Qed.

Lemma error_endpoint_frame (request : Request) (w : World) :
  frame_step [] w (snd (error_endpoint request w)).
Proof.
  unfold error_endpoint, error_types. exec.
  match goal with |- context [nth ?i ?l ?d] => destruct (nth i l d) as [[s m] r] end.
  frame.
Qed.

Lemma not_found_frame (request : Request) (w : World) :
  frame_step [] w (snd (not_found request w)).
Proof. unfold not_found. exec. frame. Qed.

Lemma internal_error_frame (e : exn) (request : Request) (w : World) :
  frame_step [] w (snd (internal_error e request w)).
Proof. unfold internal_error. exec. frame. Qed.

Lemma create_order_frame (request : Request) (w : World) :
  frame_step
    match data request with
    | Json _ => if order_succeeds w then ["success"] else ["failed"]
    | _ => []
    end w (snd (create_order request w)).
Proof.
  unfold create_order, get_json.
  destruct (data request) as [| | v]; exec; try (frame; fail).
  rewrite sleep_allowed by (unfold Qle; simpl; lia). exec.
  change (Qgt_bool (unit_draw (entropy w (S (entropy_pos w)))) float_0_1)
    with (order_succeeds w).
  destruct (order_succeeds w); exec; rewrite counter_inc_one.
  - destruct v; exec; try (frame; fail).
    destruct (Prom.to_float _); exec; frame.
  - destruct v; exec; frame.
Qed.

(* The loop of [metrics_demo]: it returns, performs one increment per
   iteration and touches nothing but the two order instruments and the
   entropy cursor. *)
Lemma demo_loop (n : nat) (w : World) :
  exists w',
    for_range n metrics_demo_iteration w = (Returned tt, w')
    /\ frame_step (repeat "success" n) w w'
    /\ _active_users_count w' = _active_users_count w
    /\ active_users w' = active_users w
    /\ log w' = log w
    /\ database_query_duration w' = database_query_duration w.
Proof.
  revert w. induction n as [| n IH]; intros w.
  - exists w. cbn. repeat split; frame.
  - cbn [for_range]. unfold bind at 1.
    assert (Hbody : exists w1, metrics_demo_iteration w = (Returned tt, w1)
              /\ frame_step ["success"] w w1
              /\ _active_users_count w1 = _active_users_count w
              /\ active_users w1 = active_users w
              /\ log w1 = log w
              /\ database_query_duration w1 = database_query_duration w).
    { unfold metrics_demo_iteration. exec. rewrite counter_inc_one. exec.
      eexists; split; [reflexivity |]. repeat split; frame. }
    destruct Hbody as (w1 & E1 & F1 & C1 & G1 & L1 & D1). rewrite E1.
    destruct (IH w1) as (w' & E' & F' & C' & G' & L' & D').
    exists w'. split; [exact E' |].
    split; [exact (frame_step_trans ["success"] (repeat "success" n) w w1 w' F1 F') |].
    repeat split; congruence.
Qed.

Lemma metrics_demo_run (request : Request) (w : World) :
  exists w',
    metrics_demo request w
    = (Returned (jsonify [ ("message", VStr "Metrics generated");
                           ("active_users",
                            VInt (_active_users_count w + demo_delta w)) ] 200),
       w')
    /\ frame_step (repeat "success" (Z.to_nat (demo_iterations w))) w w'
    /\ _active_users_count w' = _active_users_count w + demo_delta w
    /\ Prom.g_value (active_users w')
       = Prom.g_value (active_users w) + demo_delta w
    /\ log w' = log w
    /\ database_query_duration w' = database_query_duration w.
Proof.
  unfold metrics_demo. exec.
  match goal with
  | |- context [for_range ?n ?b ?w0] =>
      destruct (demo_loop n w0) as (w' & E & F & C & G & L & D)
  end.
  rewrite E. exec. exists w'. rewrite C. cbn in C, G, L, D.
  split; [reflexivity |].
  split.
  { change (repeat "success" (Z.to_nat (demo_iterations w)))
      with ([] ++ repeat "success" (Z.to_nat (demo_iterations w))).
    eapply frame_step_trans; [| exact F]. frame. }
  rewrite G, L, D. repeat split; reflexivity.
Qed.

Lemma metrics_demo_frame (request : Request) (w : World) :
  frame_step (repeat "success" (Z.to_nat (demo_iterations w))) w
    (snd (metrics_demo request w)).
Proof.
  destruct (metrics_demo_run request w) as (w' & E & F & _). now rewrite E.
Qed.

(** ** The frame of a dispatched request *)

Lemma match_path_in (rules : list Rule) (p : string) (r : Rule) (arg : string) :
  match_path rules p = Some (r, arg) -> In r rules /\ match_rule r p = Some arg.
Proof.
  induction rules as [| r0 rules IH]; cbn; [discriminate |].
  destruct (match_rule r0 p) eqn:E.
  - intros [= <- <-]. auto.
  - intros H. destruct (IH H). auto.
Qed.

Lemma handle_user_exception_frame (e : exn) (request : Request) (w : World) :
  frame_step [] w (snd (handle_user_exception e request w)).
Proof.
  unfold handle_user_exception.
  destruct e as [code | | | | |]; try apply internal_error_frame.
  destruct (code =? 404); [apply not_found_frame |].
  destruct (code =? 500); [apply internal_error_frame |].
  exec. frame.
Qed.

Lemma full_dispatch_frame (incs : list string) (request : Request) (w : World) :
  frame_step incs w (snd (dispatch_request request w)) ->
  frame_step incs w (snd (full_dispatch_request request w)).
Proof.
  unfold full_dispatch_request.
  destruct (dispatch_request request w) as [[resp | e] w1]; cbn [snd]; auto.
  intros F. pose proof (handle_user_exception_frame e request w1) as F'.
  destruct (handle_user_exception e request w1) as [[resp | e'] w2];
    cbn [snd] in *; rewrite <- (app_nil_r incs);
    exact (frame_step_trans _ _ _ _ _ F F').
Qed.

Lemma head_frame (incs : list string) (m : M Response) (w : World) :
  frame_step incs w (snd (m w)) ->
  frame_step incs w
    (snd ((resp <- m ;; ret (mkResponse (status_code resp) NoBody)) w)).
Proof.
  unfold bind, ret. destruct (m w) as [[resp | e] w1]; auto.
Qed.

Ltac handler_frame :=
  lazymatch goal with
  | |- frame_step _ _ (snd (bind _ _ _)) => apply head_frame; handler_frame
  | |- frame_step _ _ (snd (home _ _)) => apply home_frame
  | |- frame_step _ _ (snd (health _ _)) => apply health_frame
  | |- frame_step _ _ (snd (metrics_endpoint _ _)) => apply metrics_endpoint_frame
  | |- frame_step _ _ (snd (create_order _ _)) => apply create_order_frame
  | |- frame_step _ _ (snd (get_user _ _ _)) => apply get_user_frame
  | |- frame_step _ _ (snd (slow_endpoint _ _)) => apply slow_endpoint_frame
  | |- frame_step _ _ (snd (error_endpoint _ _)) => apply error_endpoint_frame
  | |- frame_step _ _ (snd (metrics_demo _ _)) => apply metrics_demo_frame
  | |- frame_step _ _ (snd (ret _ _)) => unfold ret; frame
  | |- frame_step _ _ (snd (raise _ _)) => unfold raise; frame
  end.

Ltac route_tests :=
  cbn [rule_methods rule_endpoint rule_view mem_method existsb method_eqb
       method_name String.eqb Ascii.eqb Bool.eqb orb andb].

Lemma dispatch_request_frame (request : Request) (w : World) :
  frame_step (counter_incs request w) w (snd (dispatch_request request w)).
Proof.
  unfold dispatch_request, counter_incs, endpoint_run.
  destruct (match_path url_map (path request)) as [[r arg] |] eqn:E.
  2: { handler_frame. }
  apply match_path_in in E. destruct E as [Hin _].
  unfold url_map in Hin. cbn [In] in Hin.
  repeat (destruct Hin as [<- | Hin]); try contradiction;
    destruct (method request); route_tests; handler_frame.
Qed.

Lemma request_frame (request : Request) (w : World) :
  frame_step (counter_incs request w) w (snd (full_dispatch_request request w)).
Proof. apply full_dispatch_frame, dispatch_request_frame. Qed.

(** ** What [create_order] does, case by case *)

Ltac create_order_prefix H :=
  unfold create_order, get_json; rewrite H; exec;
  rewrite sleep_allowed by (unfold Qle; simpl; lia); exec;
  match goal with
  | |- context [Qgt_bool (unit_draw (entropy ?w (S (entropy_pos ?w)))) float_0_1] =>
      change (Qgt_bool (unit_draw (entropy w (S (entropy_pos w)))) float_0_1)
        with (order_succeeds w)
  end.

Lemma create_order_accepted (request : Request) (d : list (string * value))
  (x : Q) (w : World) :
  data request = Json (VDict d) ->
  order_succeeds w = true ->
  Prom.to_float (order_amount d) = inl x ->
  exists w',
    create_order request w = (Returned (order_created (returned_order_id w)), w')
    /\ order_value w' = Prom.histogram_observe (order_value w) "" x
    /\ log w' = log w ++ [order_created_record w d]
    /\ database_query_duration w'
       = Prom.histogram_observe (database_query_duration w) "insert"
           (elapsed_over_sleep (insert_secs w) w).
Proof.
  intros H Hs Hx. create_order_prefix H. rewrite Hs. exec.
  rewrite counter_inc_one. exec.
  fold (order_amount d). rewrite Hx. exec.
  eexists; split; [reflexivity |]. cbn. repeat split; reflexivity.
Qed.

Lemma create_order_bad_amount (request : Request) (d : list (string * value))
  (e : exn) (w : World) :
  data request = Json (VDict d) ->
  order_succeeds w = true ->
  Prom.to_float (order_amount d) = inr e ->
  fst (create_order request w) = Raised e.
Proof.
  intros H Hs Hx. create_order_prefix H. rewrite Hs. exec.
  rewrite counter_inc_one. exec.
  fold (order_amount d). rewrite Hx. reflexivity.
Qed.

Lemma create_order_declined (request : Request) (d : list (string * value))
  (w : World) :
  data request = Json (VDict d) ->
  order_succeeds w = false ->
  exists w',
    create_order request w = (Returned payment_declined, w')
    /\ order_value w' = order_value w
    /\ log w' = log w ++ [order_failed_record d]
    /\ database_query_duration w'
       = Prom.histogram_observe (database_query_duration w) "insert"
           (elapsed_over_sleep (insert_secs w) w).
Proof.
  intros H Hs. create_order_prefix H. rewrite Hs. exec.
  rewrite counter_inc_one. exec.
  eexists; split; [reflexivity |]. cbn. repeat split; reflexivity.
Qed.

Lemma create_order_observes_insert (request : Request) (v : value) (w : World) :
  data request = Json v ->
  database_query_duration (snd (create_order request w))
  = Prom.histogram_observe (database_query_duration w) "insert"
      (elapsed_over_sleep (insert_secs w) w).
Proof.
  intros H. create_order_prefix H.
  destruct (order_succeeds w); exec; rewrite counter_inc_one; exec.
  - destruct v; exec; try reflexivity.
    destruct (Prom.to_float _); reflexivity.
  - destruct v; reflexivity.
Qed.

Lemma order_id_range (r : N) : 1000 <= 1000 + Z.of_N r mod 9000 <= 9999.
Proof. pose proof (Z.mod_pos_bound (Z.of_N r) 9000 eq_refl). lia. Qed.

(** ** Routes *)

Lemma dispatch_create_order (ua : option string) (d : payload) (w : World) :
  dispatch_request (mkRequest POST "/api/orders" ua d) w
  = create_order (mkRequest POST "/api/orders" ua d) w.
Proof. reflexivity. Qed.

Lemma dispatch_get_user (ua : option string) (d : payload) (w : World) :
  dispatch_request (mkRequest GET "/api/users/42" ua d) w
  = get_user "42" (mkRequest GET "/api/users/42" ua d) w.
Proof. reflexivity. Qed.

Lemma dispatch_metrics_demo (ua : option string) (d : payload) (w : World) :
  dispatch_request (mkRequest GET "/api/metrics-demo" ua d) w
  = metrics_demo (mkRequest GET "/api/metrics-demo" ua d) w.
Proof. reflexivity. Qed.

Lemma dispatch_error_endpoint (ua : option string) (d : payload) (w : World) :
  dispatch_request (mkRequest GET "/api/error" ua d) w
  = error_endpoint (mkRequest GET "/api/error" ua d) w.
Proof. reflexivity. Qed.

Lemma dispatch_metrics_endpoint (ua : option string) (d : payload) (w : World) :
  dispatch_request (mkRequest GET "/metrics" ua d) w
  = metrics_endpoint (mkRequest GET "/metrics" ua d) w.
Proof. reflexivity. Qed.

(** ** Reading a sample out of the exposition *)

Lemma sample_value_app (n : string) (l : list (string * string))
  (a b : list Prom.line) :
  Prom.sample_value n l (a ++ b)
  = match Prom.sample_value n l a with
    | Some v => Some v
    | None => Prom.sample_value n l b
    end.
Proof.
  induction a as [| [nm kd | nm lb v] a IH]; cbn; auto.
  destruct (String.eqb nm n && Prom.labels_eqb lb l); auto.
Qed.

Lemma sample_value_absent (n : string) (l : list (string * string))
  (ls : list Prom.line) :
  (forall nm lb v, In (Prom.Sample nm lb v) ls -> String.eqb nm n = false) ->
  Prom.sample_value n l ls = None.
Proof.
  induction ls as [| [nm kd | nm lb v] ls IH]; cbn; intros H; auto.
  - apply IH. intros nm' lb' v' Hin. apply (H nm' lb' v'). auto.
  - rewrite (H nm lb v) by auto. cbn. apply IH.
    intros nm' lb' v' Hin. apply (H nm' lb' v'). auto.
Qed.

Lemma sample_value_counter (c : Prom.Counter) (ln lv : string) :
  Prom.c_labelnames c = [ln] ->
  Prom.sample_value (Prom.c_name c) [(ln, lv)] (Prom.collect_counter c)
  = option_map inject_Z (Prom.counter_child c lv).
Proof.
  intros Hl. unfold Prom.collect_counter, Prom.counter_child. rewrite Hl.
  cbn [Prom.sample_value Prom.label_pairs].
  induction (Prom.c_children c) as [| [k v] d IH]; cbn; auto.
  rewrite !String.eqb_refl. cbn. rewrite andb_true_r, (String.eqb_sym k lv).
  destruct (String.eqb lv k); auto.
Qed.

Lemma histogram_sample_names (h : Prom.Histogram) (nm : string)
  (lb : list (string * string)) (v : Q) :
  In (Prom.Sample nm lb v) (Prom.collect_histogram h) ->
  nm = String.append (Prom.h_name h) "_bucket"
  \/ nm = String.append (Prom.h_name h) "_count"
  \/ nm = String.append (Prom.h_name h) "_sum".
Proof.
  unfold Prom.collect_histogram. intros [H | H]; [discriminate |].
  apply in_flat_map in H. destruct H as (ch & _ & H).
  unfold Prom.collect_child in H. apply in_app_or in H. destruct H as [H | H].
  - apply in_map_iff in H. destruct H as (b & [= <- _ _] & _). auto.
  - cbn in H. destruct H as [[= <- _ _] | [[= <- _ _] | [[= <- _ _] | []]]]; auto.
Qed.

Lemma success_sample (w : World) :
  instruments_declared w ->
  Prom.sample_value "orders_total" [("status", "success")] (generate_latest w)
  = option_map inject_Z (Prom.counter_child (order_counter w) "success").
Proof.
  intros (N1 & L1 & N2 & _ & N3 & N4 & _).
  unfold generate_latest. rewrite sample_value_app.
  rewrite <- N1 at 1. rewrite (sample_value_counter _ "status" "success" L1).
  destruct (Prom.counter_child (order_counter w) "success"); [reflexivity |].
  cbn [option_map]. apply sample_value_absent. intros nm lb v H.
  apply in_app_or in H. destruct H as [H | H].
  { apply histogram_sample_names in H. rewrite N2 in H.
    destruct H as [-> | [-> | ->]]; reflexivity. }
  apply in_app_or in H. destruct H as [H | H].
  { unfold Prom.collect_gauge in H. rewrite N3 in H. cbn in H.
    destruct H as [H | [[= <- _ _] | []]]; [discriminate | reflexivity]. }
  apply histogram_sample_names in H. rewrite N4 in H.
  destruct H as [-> | [-> | ->]]; reflexivity.
Qed.

(** ** Counting increments *)

Lemma successes_nonneg (incs : list string) : 0 <= successes incs.
Proof. unfold successes. lia. Qed.


Lemma successes_cons (lv : string) (incs : list string) :
  successes (lv :: incs)
  = (if String.eqb "success" lv then 1 else 0) + successes incs.
Proof.
  unfold successes. cbn [filter].
  destruct (String.eqb "success" lv); cbn [List.length]; lia.
Qed.

Lemma counter_value_inc_same (c : Prom.Counter) (lv : string) :
  Prom.counter_value (fst (Prom.counter_inc c lv 1)) lv
  = Prom.counter_value c lv + 1.
Proof.
  unfold Prom.counter_value at 1. now rewrite counter_child_inc_same.
Qed.

Lemma counter_value_inc_other (c : Prom.Counter) (lv lv0 : string) :
  lv0 <> lv ->
  Prom.counter_value (fst (Prom.counter_inc c lv 1)) lv0
  = Prom.counter_value c lv0.
Proof.
  intros H. unfold Prom.counter_value. now rewrite counter_child_inc_other.
Qed.

Lemma apply_incs_child (incs : list string) (c : Prom.Counter) :
  Prom.counter_child (apply_incs incs c) "success"
  = if successes incs =? 0 then Prom.counter_child c "success"
    else Some (Prom.counter_value c "success" + successes incs).
Proof.
  revert c. induction incs as [| lv incs IH]; intros c; [reflexivity |].
  change (apply_incs (lv :: incs) c)
    with (apply_incs incs (fst (Prom.counter_inc c lv 1))).
  rewrite IH, successes_cons. pose proof (successes_nonneg incs) as Hn.
  clear IH. set (s := successes incs) in *.
  destruct (String.eqb_spec "success" lv) as [<- | Hne].
  - rewrite counter_child_inc_same, counter_value_inc_same.
    destruct (Z.eqb_spec s 0); destruct (Z.eqb_spec (1 + s) 0);
      try lia; f_equal; lia.
  - rewrite counter_child_inc_other, counter_value_inc_other by assumption.
    reflexivity.
Qed.

Lemma apply_incs_names (incs : list string) (c : Prom.Counter) :
  Prom.c_name (apply_incs incs c) = Prom.c_name c
  /\ Prom.c_labelnames (apply_incs incs c) = Prom.c_labelnames c.
Proof.
  revert c. induction incs as [| lv incs IH]; intros c; [auto |].
  change (apply_incs (lv :: incs) c)
    with (apply_incs incs (fst (Prom.counter_inc c lv 1))).
  destruct (IH (fst (Prom.counter_inc c lv 1))) as [-> ->].
  apply counter_inc_names.
Qed.

Lemma apply_incs_monotone (incs : list string) (c : Prom.Counter) (lv : string) :
  Prom.counter_value c lv <= Prom.counter_value (apply_incs incs c) lv.
Proof.
  revert c. induction incs as [| lv0 incs IH]; intros c; [reflexivity |].
  change (apply_incs (lv0 :: incs) c)
    with (apply_incs incs (fst (Prom.counter_inc c lv0 1))).
  etransitivity; [| apply IH].
  destruct (string_dec lv lv0) as [-> | Hne].
  - rewrite counter_value_inc_same. lia.
  - rewrite counter_value_inc_other by assumption. reflexivity.
Qed.

(* The library itself: whatever the amount, [inc] never lowers a child. *)
Lemma counter_inc_monotone (c : Prom.Counter) (lv lv0 : string) (amount : Z) :
  Prom.counter_value c lv0
  <= Prom.counter_value (fst (Prom.counter_inc c lv amount)) lv0.
Proof.
  assert (Hl : Prom.counter_value (Prom.counter_labels c lv) lv0
               = Prom.counter_value c lv0).
  { unfold Prom.counter_labels, Prom.counter_value.
    destruct (Prom.counter_child c lv) eqn:E; [reflexivity |].
    unfold Prom.counter_child in *; cbn. rewrite assoc_get_app.
    destruct (assoc_get lv0 (Prom.c_children c)) eqn:E0; [reflexivity |].
    cbn. destruct (String.eqb lv0 lv); reflexivity. }
  unfold Prom.counter_inc. cbn zeta.
  destruct (Z.ltb_spec amount 0) as [Hneg | Hpos]; cbn [fst].
  - rewrite Hl. reflexivity.
  - rewrite <- Hl. unfold Prom.counter_value at 2, Prom.counter_child; cbn.
    destruct (string_dec lv0 lv) as [-> | Hne].
    + rewrite assoc_get_set_same. lia.
    + rewrite assoc_get_set_other by assumption.
      unfold Prom.counter_value, Prom.counter_child. reflexivity.
Qed.

(** ** Invariants of the running service *)

Lemma declared_step (incs : list string) (w w' : World) :
  instruments_declared w -> frame_step incs w w' -> instruments_declared w'.
Proof.
  unfold instruments_declared, frame_step.
  intros (N1 & L1 & N2 & L2 & N3 & N4 & L4) (F1 & F2 & F3 & F4 & F5 & F6 & _).
  rewrite F1. destruct (apply_incs_names incs (order_counter w)) as [-> ->].
  repeat split; congruence.
Qed.

Lemma startup_run (e o : nat -> N) (t0 : Q) :
  startup e o t0
  = set_active_users (Prom.mkGauge "active_users" (10 + Z.of_N (e 0%nat) mod 41))
      (set_active_users_count (10 + Z.of_N (e 0%nat) mod 41)
         (next_entropy (boot e o t0))).
Proof. reflexivity. Qed.

Lemma declared_startup (e o : nat -> N) (t0 : Q) :
  instruments_declared (startup e o t0).
Proof. rewrite startup_run. unfold instruments_declared. cbn. intuition. Qed.

Lemma declared_serve (requests : list Request) (w : World) :
  instruments_declared w -> instruments_declared (snd (serve requests w)).
Proof.
  revert w. induction requests as [| request rest IH]; intros w Hw; [exact Hw |].
  cbn [serve].
  pose proof (request_frame request w) as F.
  destruct (full_dispatch_request request w) as [resp w1]. cbn [snd] in F.
  specialize (IH w1 (declared_step _ _ _ Hw F)).
  destruct (serve rest w1) as [resps w2]. exact IH.
Qed.

Lemma serve_cons (request : Request) (rest : list Request) (w : World) :
  snd (serve (request :: rest) w)
  = snd (serve rest (snd (full_dispatch_request request w))).
Proof.
  cbn [serve]. destruct (full_dispatch_request request w) as [resp w1].
  cbn [snd]. destruct (serve rest w1); reflexivity.
Qed.

Lemma serve_app (r1 r2 : list Request) (w : World) :
  snd (serve (r1 ++ r2) w) = snd (serve r2 (snd (serve r1 w))).
Proof.
  revert w. induction r1 as [| request r1 IH]; intros w; [reflexivity |].
  rewrite <- app_comm_cons, !serve_cons. apply IH.
Qed.

Lemma gauge_tracks_count (requests : list Request) (e o : nat -> N) (t0 : Q) :
  Prom.g_value (active_users (snd (serve requests (startup e o t0))))
  = _active_users_count (snd (serve requests (startup e o t0))).
Proof.
  assert (H0 : Prom.g_value (active_users (startup e o t0))
               = _active_users_count (startup e o t0)) by reflexivity.
  revert H0. generalize (startup e o t0).
  induction requests as [| request rest IH]; intros w Hw; [exact Hw |].
  rewrite serve_cons. apply IH.
  destruct (request_frame request w) as (_ & _ & _ & _ & _ & _ & F). lia.
Qed.

Lemma bump_twice (o : option Z) (k n : Z) :
  0 <= k -> 0 <= n ->
  let v := match o with Some x => x | None => 0 end in
  let o1 := if k =? 0 then o else Some (v + k) in
  (if n =? 0 then o1
   else Some (match o1 with Some x => x | None => 0 end + n))
  = (if k + n =? 0 then o else Some (v + (k + n))).
Proof.
  intros Hk Hn. cbn zeta.
  destruct (Z.eqb_spec k 0) as [-> | Hk0]; destruct (Z.eqb_spec n 0) as [-> | Hn0];
    cbn [Z.add].
  - reflexivity.
  - destruct (Z.eqb_spec n 0); [lia | reflexivity].
  - destruct (Z.eqb_spec (k + 0) 0); [lia | f_equal; lia].
  - destruct (Z.eqb_spec (k + n) 0); [lia | f_equal; lia].
Qed.

Lemma serve_success_child (requests : list Request) (w : World) :
  0 <= total_success_increments requests w
  /\ Prom.counter_child (order_counter (snd (serve requests w))) "success"
     = (if total_success_increments requests w =? 0
        then Prom.counter_child (order_counter w) "success"
        else Some (Prom.counter_value (order_counter w) "success"
                   + total_success_increments requests w)).
Proof.
  revert w. induction requests as [| request rest IH]; intros w.
  - cbn. split; [lia | reflexivity].
  - rewrite serve_cons. cbn [total_success_increments].
    destruct (IH (snd (full_dispatch_request request w))) as [Hn ->].
    destruct (request_frame request w) as (-> & _).
    unfold success_increments.
    pose proof (successes_nonneg (counter_incs request w)) as Hk.
    split; [lia |].
    unfold Prom.counter_value. rewrite apply_incs_child.
    apply (bump_twice (Prom.counter_child (order_counter w) "success")); assumption.
Qed.

(** ** POST /api/orders *)

Lemma full_dispatch_returned (request : Request) (w w' : World) (resp : Response) :
  dispatch_request request w = (Returned resp, w') ->
  full_dispatch_request request w = (resp, w').
Proof. unfold full_dispatch_request. now intros ->. Qed.

Lemma order_succeeds_iff (w : World) :
  (order_succeeds w = true <-> (1 # 10 < order_draw w)%Q)
  /\ (order_succeeds w = true
      <-> 900719925474100 <= Z.of_N (next_raw 1 w) mod 2 ^ 53).
Proof.
  unfold order_succeeds, order_draw. rewrite order_threshold.
  rewrite Z.leb_le. split; [| reflexivity].
  unfold unit_draw, Qlt; cbn [Qnum Qden].
  pose proof (Z.mod_pos_bound (Z.of_N (next_raw 1 w)) (2 ^ 53) eq_refl).
  change (2 ^ 53) with 9007199254740992 in *. lia.
Qed.

(** C2.  A POST to /api/orders carrying [{"amount":100,"customer":"alice"}]
    is answered 201 or 400.  It is answered 201 exactly when the outcome
    draw of the request exceeds 0.1, which happens for the draws
    [k / 2^53] with [k >= 900719925474100], a share of 0.9 of the
    [2^53] equally likely draws up to [10^-16]; the 201 body is
    [{"status":"success","order_id":n}] with [n] an integer between 1000
    and 9999, and the 400 body is exactly
    [{"status":"error","message":"Payment declined"}]. *)
Theorem create_order_alice (ua : option string) (w : World) :
  fst (full_dispatch_request (post_orders ua (Json alice_order)) w)
  = (if order_succeeds w then order_created (returned_order_id w)
     else payment_declined)
  /\ status_code (order_created (returned_order_id w)) = 201
  /\ status_code payment_declined = 400
  /\ 1000 <= returned_order_id w <= 9999
  /\ (order_succeeds w = true <-> (1 # 10 < order_draw w)%Q)
  /\ (order_succeeds w = true
      <-> 900719925474100 <= Z.of_N (next_raw 1 w) mod 2 ^ 53)
  /\ 9 * 2 ^ 53 - 10 < 10 * (2 ^ 53 - 900719925474100) <= 9 * 2 ^ 53.
Proof.
  split; [| repeat split; try reflexivity;
            try apply order_id_range; try apply order_succeeds_iff; lia ].
  destruct (order_succeeds w) eqn:Hs.
  - destruct (create_order_accepted (post_orders ua (Json alice_order))
                [ ("amount", VInt 100); ("customer", VStr "alice") ]
                (inject_Z 100) w eq_refl Hs eq_refl) as (w' & E & _).
    now rewrite (full_dispatch_returned
                   (post_orders ua (Json alice_order)) w w' _ E).
  - destruct (create_order_declined (post_orders ua (Json alice_order))
                [ ("amount", VInt 100); ("customer", VStr "alice") ]
                w eq_refl Hs) as (w' & E & _).
    now rewrite (full_dispatch_returned
                   (post_orders ua (Json alice_order)) w w' _ E).
Qed.

(** C1, as amended.  When the body of a POST to /api/orders is a JSON
    object without an [amount] field, the handler completes with its
    usual response, 201 or 400, and on the 201 branch the value observed
    into [order_value_dollars] is 0. *)
Theorem create_order_absent_amount (ua : option string)
  (d : list (string * value)) (w : World) :
  assoc_get "amount" d = None ->
  exists w',
    full_dispatch_request (post_orders ua (Json (VDict d))) w
    = (if order_succeeds w then order_created (returned_order_id w)
       else payment_declined, w')
    /\ Prom.histogram_obs (order_value w') ""
       = (if order_succeeds w then Prom.histogram_obs (order_value w) "" ++ [0%Q]
          else Prom.histogram_obs (order_value w) "").
Proof.
  intros Hd.
  assert (Ha : Prom.to_float (order_amount d) = inl 0%Q).
  { unfold order_amount. now rewrite Hd. }
  destruct (order_succeeds w) eqn:Hs.
  - destruct (create_order_accepted (post_orders ua (Json (VDict d))) d 0%Q w
                eq_refl Hs Ha) as (w' & E & V & _).
    exists w'.
    rewrite (full_dispatch_returned
               (post_orders ua (Json (VDict d))) w w' _ E), V.
    split; [reflexivity | apply histogram_obs_observe_same].
  - destruct (create_order_declined (post_orders ua (Json (VDict d))) d w
                eq_refl Hs) as (w' & E & V & _).
    exists w'.
    rewrite (full_dispatch_returned
               (post_orders ua (Json (VDict d))) w w' _ E), V. auto.
Qed.

Lemma create_order_absent_amount_witness :
  exists w',
    full_dispatch_request
      (post_orders None (Json (VDict [ ("customer", VStr "bob") ])))
      accepting_world
    = (if order_succeeds accepting_world
       then order_created (returned_order_id accepting_world)
       else payment_declined, w')
    /\ Prom.histogram_obs (order_value w') ""
       = (if order_succeeds accepting_world
          then Prom.histogram_obs (order_value accepting_world) "" ++ [0%Q]
          else Prom.histogram_obs (order_value accepting_world) "").
Proof.
  apply (create_order_absent_amount None [ ("customer", VStr "bob") ]
           accepting_world).
  reflexivity.
Defined.

(** C1, counterexample.  With the accepting draw, a body whose [amount]
    is the string ["abc"] makes the handler raise [TypeError] inside
    [observe], after the counter has been incremented, and the client
    receives the 500 of the registered error handler; a request without a
    JSON body is turned away with 415 by [get_json]; the JSON document
    [null] raises [AttributeError].  None of them ends in 201 or 400. *)
Lemma create_order_amount_not_defaulted :
  is_number (VStr "abc") = false
  /\ order_succeeds accepting_world = true
  /\ fst (create_order (post_orders None (Json (VDict [ ("amount", VStr "abc") ])))
            accepting_world) = Raised TypeError
  /\ status_code
       (fst (full_dispatch_request
               (post_orders None (Json (VDict [ ("amount", VStr "abc") ])))
               accepting_world)) = 500
  /\ fst (create_order (post_orders None NotJson) accepting_world)
     = Raised (HTTPException 415)
  /\ status_code
       (fst (full_dispatch_request (post_orders None NotJson) accepting_world))
     = 415
  /\ fst (create_order (post_orders None (Json VNone)) accepting_world)
     = Raised AttributeError.
Proof. repeat split; vm_compute; reflexivity. Qed.

(** ** The orders_total counter *)

(** C3, as amended.  After any sequence of requests served since start-up,
    let [n] be the number of successful-order increments performed: one for
    each [create_order] invocation that took the success branch, plus one
    for each loop iteration of each [metrics_demo] invocation.  If [n] is
    positive, the snapshot has a sample [orders_total{status="success"}]
    and its value is [n]; if [n] is zero, no child has been created yet and
    the snapshot has no such sample. *)
Theorem success_counter_exact (e o : nat -> N) (t0 : Q) (requests : list Request) :
  Prom.sample_value "orders_total" [("status", "success")]
    (generate_latest (snd (serve requests (startup e o t0))))
  = (if total_success_increments requests (startup e o t0) =? 0 then None
     else Some (inject_Z (total_success_increments requests (startup e o t0)))).
Proof.
  rewrite success_sample by apply declared_serve, declared_startup.
  destruct (serve_success_child requests (startup e o t0)) as [_ ->].
  destruct (_ =? 0); reflexivity.
Qed.

(** C3, counterexample.  Before any increment the snapshot has no value
    for [orders_total{status="success"}]: neither right after start-up, nor
    after a health check, nor after an order that was declined. *)
Lemma success_counter_absent_at_zero :
  total_success_increments [] accepting_world = 0
  /\ Prom.sample_value "orders_total" [("status", "success")]
       (generate_latest (snd (serve [] accepting_world))) = None
  /\ total_success_increments [get_path "/health"] accepting_world = 0
  /\ Prom.sample_value "orders_total" [("status", "success")]
       (generate_latest (snd (serve [get_path "/health"] accepting_world)))
     = None
  /\ total_success_increments [post_orders None (Json alice_order)]
       declining_world = 0
  /\ Prom.sample_value "orders_total" [("status", "success")]
       (generate_latest
          (snd (serve [post_orders None (Json alice_order)] declining_world)))
     = None.
Proof. repeat split; vm_compute; reflexivity. Qed.

(** C7.  Counters never go down.  Every change a request makes to
    [orders_total] is a sequence of [inc()] calls, each adding 1 to one
    child; the library's [inc] never lowers a child, whatever amount it is
    given (a negative amount is refused); hence along any sequence of
    requests the value of every label combination, [status="success"] and
    [status="failed"] among them, is non-decreasing. *)
Theorem counters_never_decrease :
  (forall request w,
     order_counter (snd (full_dispatch_request request w))
     = fold_left (fun c lv => fst (Prom.counter_inc c lv 1))
         (counter_incs request w) (order_counter w))
  /\ (forall c lv lv0 amount,
        Prom.counter_value c lv0
        <= Prom.counter_value (fst (Prom.counter_inc c lv amount)) lv0)
  /\ (forall before after w lv,
        Prom.counter_value (order_counter (snd (serve before w))) lv
        <= Prom.counter_value
             (order_counter (snd (serve (before ++ after) w))) lv).
Proof.
  split; [| split].
  - intros request w. apply (request_frame request w).
  - intros. apply counter_inc_monotone.
  - intros before after w lv. rewrite serve_app.
    generalize (snd (serve before w)). clear before w.
    induction after as [| request rest IH]; intros w; [reflexivity |].
    rewrite serve_cons. etransitivity; [| apply IH].
    destruct (request_frame request w) as (-> & _). apply apply_incs_monotone.
Qed.

(** ** GET /api/metrics-demo *)

Lemma demo_delta_range (w : World) : -5 <= demo_delta w <= 10.
Proof.
  unfold demo_delta. pose proof (Z.mod_pos_bound (Z.of_N (next_raw 0 w)) 16 eq_refl).
  lia.
Qed.

Lemma metrics_demo_served (ua : option string) (p : payload) (w : World) :
  exists w',
    full_dispatch_request (mkRequest GET "/api/metrics-demo" ua p) w
    = (metrics_generated (_active_users_count w + demo_delta w), w')
    /\ _active_users_count w' = _active_users_count w + demo_delta w
    /\ Prom.g_value (active_users w')
       = Prom.g_value (active_users w) + demo_delta w.
Proof.
  destruct (metrics_demo_run (mkRequest GET "/api/metrics-demo" ua p) w)
    as (w' & E & _ & C & G & _).
  exists w'.
  rewrite (full_dispatch_returned
             (mkRequest GET "/api/metrics-demo" ua p) w w' _ E). auto.
Qed.

Lemma metrics_demo_repeated (ua : option string) (p : payload) (n : nat) (w : World) :
  Prom.g_value (active_users w) = _active_users_count w ->
  Forall (fun d => -5 <= d <= 10)
    (demo_deltas (mkRequest GET "/api/metrics-demo" ua p) n w)
  /\ List.length (demo_deltas (mkRequest GET "/api/metrics-demo" ua p) n w) = n
  /\ Prom.g_value
       (active_users
          (snd (serve (repeat (mkRequest GET "/api/metrics-demo" ua p) n) w)))
     = Prom.g_value (active_users w)
       + Zsum (demo_deltas (mkRequest GET "/api/metrics-demo" ua p) n w)
  /\ fst (serve (repeat (mkRequest GET "/api/metrics-demo" ua p) n) w)
     = map metrics_generated
         (running_totals (Prom.g_value (active_users w))
            (demo_deltas (mkRequest GET "/api/metrics-demo" ua p) n w)).
Proof.
  revert w. induction n as [| n IH]; intros w Hw.
  - cbn [repeat serve demo_deltas fst snd List.length Zsum fold_right
         running_totals map].
    repeat split; try constructor; lia.
  - cbn [repeat serve demo_deltas].
    destruct (metrics_demo_served ua p w) as (w1 & E & C & G).
    rewrite E. cbn [snd].
    assert (Hw1 : Prom.g_value (active_users w1) = _active_users_count w1)
      by (rewrite C, G, Hw; reflexivity).
    destruct (IH w1 Hw1) as (R & L & S & T).
    destruct (serve (repeat (mkRequest GET "/api/metrics-demo" ua p) n) w1)
      as [resps w2] eqn:Es.
    cbn [fst snd] in *.
    split; [constructor; [apply demo_delta_range | exact R] |].
    split; [cbn [List.length]; now rewrite L |].
    split; [rewrite S, G; cbn [Zsum fold_right]; fold (Zsum (demo_deltas
              (mkRequest GET "/api/metrics-demo" ua p) n w1)); lia |].
    cbn [running_totals map]. rewrite T, G, Hw. reflexivity.
Qed.

(** C4.  In a running service, each GET of /api/metrics-demo samples an
    integer delta between -5 and 10 and adds it to the [active_users]
    gauge; after [n] such calls the gauge has changed by the sum of the
    [n] sampled deltas; and the calls are answered 200 with, each time, the
    new active-user total, which is the value the gauge then has. *)
Theorem metrics_demo_accumulates (e o : nat -> N) (t0 : Q)
  (earlier : list Request) (ua : option string) (p : payload) (n : nat) :
  Forall (fun d => -5 <= d <= 10)
    (demo_deltas (mkRequest GET "/api/metrics-demo" ua p) n
       (snd (serve earlier (startup e o t0))))
  /\ List.length
       (demo_deltas (mkRequest GET "/api/metrics-demo" ua p) n
          (snd (serve earlier (startup e o t0)))) = n
  /\ Prom.g_value
       (active_users
          (snd (serve (repeat (mkRequest GET "/api/metrics-demo" ua p) n)
                  (snd (serve earlier (startup e o t0))))))
     = Prom.g_value (active_users (snd (serve earlier (startup e o t0))))
       + Zsum (demo_deltas (mkRequest GET "/api/metrics-demo" ua p) n
                 (snd (serve earlier (startup e o t0))))
  /\ fst (serve (repeat (mkRequest GET "/api/metrics-demo" ua p) n)
            (snd (serve earlier (startup e o t0))))
     = map metrics_generated
         (running_totals
            (Prom.g_value (active_users (snd (serve earlier (startup e o t0)))))
            (demo_deltas (mkRequest GET "/api/metrics-demo" ua p) n
               (snd (serve earlier (startup e o t0)))))
  /\ (forall total, status_code (metrics_generated total) = 200).
Proof.
  pose proof (metrics_demo_repeated ua p n _ (gauge_tracks_count earlier e o t0))
    as (R & L & S & T).
  repeat split; assumption.
Qed.

(** ** GET /api/error *)

(** C5.  A GET of /api/error is answered with one of the three fixed
    triples: the handler indexes [error_types] with [randbelow(3)], so each
    of the three equally likely values selects one triple, and the three
    are distinct.  The status is 500, 503 or 429, and the [error] and
    [reason] fields are those of the triple with that status. *)
Theorem error_endpoint_table (ua : option string) (p : payload) (w : World) :
  let r := Z.of_N (next_raw 0 w) mod 3 in
  let resp := fst (full_dispatch_request (mkRequest GET "/api/error" ua p) w) in
  ((r = 0 /\ resp = error_response 500 "Internal Server Error"
                      "database_connection_failed")
   \/ (r = 1 /\ resp = error_response 503 "Service Unavailable"
                         "downstream_service_timeout")
   \/ (r = 2 /\ resp = error_response 429 "Too Many Requests"
                         "rate_limit_exceeded"))
  /\ error_types
     = [ (500, "Internal Server Error", "database_connection_failed");
         (503, "Service Unavailable", "downstream_service_timeout");
         (429, "Too Many Requests", "rate_limit_exceeded") ]
  /\ NoDup (map (fun t => fst (fst t)) error_types).
Proof.
  cbn zeta. split; [| split; [reflexivity |]].
  2: { cbn. repeat constructor; cbn; intuition discriminate. }
  unfold full_dispatch_request.
  change (dispatch_request (mkRequest GET "/api/error" ua p) w)
    with (error_endpoint (mkRequest GET "/api/error" ua p) w).
  unfold error_endpoint, error_types. exec.
  change (entropy w (entropy_pos w)) with (next_raw 0 w).
  cbn [List.length Z.of_nat Pos.of_succ_nat Pos.succ].
  pose proof (Z.mod_pos_bound (Z.of_N (next_raw 0 w)) 3 eq_refl) as Hr.
  set (r := Z.of_N (next_raw 0 w) mod 3) in *.
  assert (Hc : r = 0 \/ r = 1 \/ r = 2) by lia.
  destruct Hc as [-> | [-> | ->]]; cbn; auto.
Qed.

(** ** The query-duration histogram *)

Lemma handle_user_exception_log (e : exn) (request : Request) (w : World) :
  exists l, snd (handle_user_exception e request w) = set_log l w.
Proof.
  unfold handle_user_exception, not_found, internal_error.
  destruct e as [code | | | | |]; try (eexists; reflexivity).
  destruct (code =? 404); [eexists; reflexivity |].
  destruct (code =? 500); [eexists; reflexivity |].
  exists (log w). destruct w; reflexivity.
Qed.

Lemma full_dispatch_database_query_duration (request : Request) (w : World) :
  database_query_duration (snd (full_dispatch_request request w))
  = database_query_duration (snd (dispatch_request request w)).
Proof.
  unfold full_dispatch_request.
  destruct (dispatch_request request w) as [[resp | e] w1]; [reflexivity |].
  destruct (handle_user_exception_log e request w1) as [l Hl].
  destruct (handle_user_exception e request w1) as [[resp | e'] w2];
    cbn [snd] in *; now rewrite Hl.
Qed.

Lemma get_user_observes_select (user_id : string) (request : Request) (w : World) :
  database_query_duration (snd (get_user user_id request w))
  = Prom.histogram_observe (database_query_duration w) "select"
      (elapsed_over_sleep (select_secs w) w).
Proof.
  unfold get_user. exec.
  rewrite sleep_allowed by (unfold Qle; simpl; lia). exec. reflexivity.
Qed.

Lemma dispatch_user_lookup (user_id : string) (ua : option string) (p : payload)
  (w : World) :
  user_id <> "" -> has_slash user_id = false ->
  dispatch_request
    (mkRequest GET (String.append "/api/users/" user_id) ua p) w
  = get_user user_id
      (mkRequest GET (String.append "/api/users/" user_id) ua p) w.
Proof.
  intros Hne Hs. unfold dispatch_request, url_map.
  cbn [path method match_path match_rule rule_prefix rule_variable
       strip_prefix String.append Ascii.eqb Bool.eqb String.eqb].
  rewrite Hs. destruct user_id as [| a s]; [contradiction |].
  reflexivity.
Qed.

Lemma secs_range (a b : Q) (r : N) :
  (a <= b)%Q ->
  (a <= a + (b - a) * unit_draw r <= b)%Q.
Proof. apply uniform_range. Qed.

(** C6, as amended.  In a running service the histogram that receives the
    simulated query latencies is named [database_query_duration_seconds]
    and has the single label [query_type].  A POST to /api/orders that
    carries a JSON document appends to its [insert] series the time
    measured around a sleep of between 10 ms and 100 ms, which is at least
    the slept time, and leaves the [select] series alone; a GET of
    /api/users/{user_id} does the same to the [select] series with a sleep
    of between 50 ms and 300 ms. *)
Theorem query_latency_recorded (e o : nat -> N) (t0 : Q)
  (earlier : list Request) (ua : option string) (v : value) (user_id : string) :
  user_id <> "" ->
  has_slash user_id = false ->
  let w := snd (serve earlier (startup e o t0)) in
  let w1 := snd (full_dispatch_request (post_orders ua (Json v)) w) in
  let w2 :=
    snd (full_dispatch_request
           (mkRequest GET (String.append "/api/users/" user_id) ua NotJson) w) in
  histogram_named "database_query_duration_seconds" w1
  = Some (database_query_duration w1)
  /\ Prom.h_labelnames (database_query_duration w1) = ["query_type"]
  /\ Prom.histogram_obs (database_query_duration w1) "insert"
     = Prom.histogram_obs (database_query_duration w) "insert"
       ++ [elapsed_over_sleep (insert_secs w) w]
  /\ Prom.histogram_obs (database_query_duration w1) "select"
     = Prom.histogram_obs (database_query_duration w) "select"
  /\ (1 # 100 <= insert_secs w <= 1 # 10)%Q
  /\ (insert_secs w <= elapsed_over_sleep (insert_secs w) w)%Q
  /\ histogram_named "database_query_duration_seconds" w2
     = Some (database_query_duration w2)
  /\ Prom.h_labelnames (database_query_duration w2) = ["query_type"]
  /\ Prom.histogram_obs (database_query_duration w2) "select"
     = Prom.histogram_obs (database_query_duration w) "select"
       ++ [elapsed_over_sleep (select_secs w) w]
  /\ Prom.histogram_obs (database_query_duration w2) "insert"
     = Prom.histogram_obs (database_query_duration w) "insert"
  /\ (5 # 100 <= select_secs w <= 3 # 10)%Q
  /\ (select_secs w <= elapsed_over_sleep (select_secs w) w)%Q.
Proof.
  intros Hne Hs w w1 w2.
  assert (Hw : instruments_declared w) by apply declared_serve, declared_startup.
  assert (Hw1 : instruments_declared w1)
    by (eapply declared_step; [exact Hw | apply request_frame]).
  assert (Hw2 : instruments_declared w2)
    by (eapply declared_step; [exact Hw | apply request_frame]).
  assert (Hnamed : forall x, instruments_declared x ->
            histogram_named "database_query_duration_seconds" x
            = Some (database_query_duration x)
            /\ Prom.h_labelnames (database_query_duration x) = ["query_type"]).
  { intros x (_ & _ & N2 & _ & _ & N4 & L4). split; [| exact L4].
    unfold histogram_named. cbn [find]. rewrite N2, N4. reflexivity. }
  assert (E1 : database_query_duration w1
               = Prom.histogram_observe (database_query_duration w) "insert"
                   (elapsed_over_sleep (insert_secs w) w)).
  { subst w1. rewrite full_dispatch_database_query_duration.
    change (dispatch_request (post_orders ua (Json v)) w)
      with (create_order (post_orders ua (Json v)) w).
    now apply create_order_observes_insert with (v := v). }
  assert (E2 : database_query_duration w2
               = Prom.histogram_observe (database_query_duration w) "select"
                   (elapsed_over_sleep (select_secs w) w)).
  { subst w2. rewrite full_dispatch_database_query_duration.
    rewrite dispatch_user_lookup by assumption.
    apply get_user_observes_select. }
  destruct (Hnamed w1 Hw1) as [A1 B1]. destruct (Hnamed w2 Hw2) as [A2 B2].
  split; [exact A1 |]. split; [exact B1 |].
  split; [rewrite E1; apply histogram_obs_observe_same |].
  split; [rewrite E1; apply histogram_obs_observe_other; discriminate |].
  split; [apply secs_range; unfold Qle; cbn; lia |].
  split; [apply elapsed_covers_sleep |].
  split; [exact A2 |]. split; [exact B2 |].
  split; [rewrite E2; apply histogram_obs_observe_same |].
  split; [rewrite E2; apply histogram_obs_observe_other; discriminate |].
  split; [apply secs_range; unfold Qle; cbn; lia |].
  apply elapsed_covers_sleep.
Qed.

Lemma query_latency_recorded_witness :
  histogram_named "database_query_duration_seconds"
    (snd (full_dispatch_request (post_orders None (Json alice_order))
            accepting_world))
  = Some (database_query_duration
            (snd (full_dispatch_request (post_orders None (Json alice_order))
                    accepting_world))).
Proof.
  refine (proj1 (query_latency_recorded counting_tape (steady_tape 1000) 0 []
                   None alice_order "42" _ _)).
  - discriminate.
  - reflexivity.
Defined.

(** C6, counterexample.  After an accepted order and after a user lookup
    the registry has no histogram named [database_query_duration], and the
    snapshot has no sample under that name: the latency went to
    [database_query_duration_seconds].  A POST without a JSON body records
    no latency at all. *)
Lemma query_histogram_is_named_seconds :
  histogram_named "database_query_duration"
    (snd (full_dispatch_request (post_orders None (Json alice_order))
            accepting_world)) = None
  /\ histogram_named "database_query_duration"
       (snd (full_dispatch_request (get_path "/api/users/42") accepting_world))
     = None
  /\ Prom.sample_value "database_query_duration_count"
       [("query_type", "insert")]
       (generate_latest
          (snd (full_dispatch_request (post_orders None (Json alice_order))
                  accepting_world))) = None
  /\ Prom.sample_value "database_query_duration_seconds_count"
       [("query_type", "insert")]
       (generate_latest
          (snd (full_dispatch_request (post_orders None (Json alice_order))
                  accepting_world))) = Some 1%Q
  /\ database_query_duration
       (snd (full_dispatch_request (post_orders None NotJson) accepting_world))
     = database_query_duration accepting_world.
Proof. repeat split; vm_compute; reflexivity. Qed.

(** ** The two order ids *)

Lemma create_order_not_object (request : Request) (v : value) (w : World) :
  data request = Json v ->
  (forall d, v <> VDict d) ->
  fst (create_order request w) = Raised AttributeError.
Proof.
  intros H Hv. create_order_prefix H.
  destruct (order_succeeds w); exec; rewrite counter_inc_one; exec;
    destruct v; try reflexivity; exfalso; eapply Hv; reflexivity.
Qed.

Lemma create_order_no_document (request : Request) (w : World) :
  (forall v, data request <> Json v) ->
  exists e, create_order request w = (Raised e, w).
Proof.
  intros H. unfold create_order, get_json.
  destruct (data request) as [| | v]; [| | now elim (H v)];
    eexists; reflexivity.
Qed.

Lemma ids_reachable (a b : Z) :
  1000 <= a <= 9999 -> 1000 <= b <= 9999 ->
  order_succeeds (boot (tape_with_ids a b) (steady_tape 0) 0) = true
  /\ logged_order_id (boot (tape_with_ids a b) (steady_tape 0) 0) = a
  /\ returned_order_id (boot (tape_with_ids a b) (steady_tape 0) 0) = b.
Proof.
  intros Ha Hb. split; [vm_compute; reflexivity |].
  unfold logged_order_id, returned_order_id, next_raw, boot, tape_with_ids,
    tape_of.
  cbn [entropy entropy_pos Nat.add nth]. rewrite !Z2N.id by lia.
  rewrite !Z.mod_small by lia. lia.
Qed.

(** C10.  Whenever [create_order] answers 201, the order id written to the
    log and the order id returned to the client are two separate calls of
    [random.randint(1000, 9999)], the third and the fourth draw of the
    request: the log record carries the one, the response body the other.
    Every pair of ids between 1000 and 9999 occurs for some randomness, so
    in particular the logged id and the returned id can differ. *)
Theorem order_ids_drawn_twice :
  (forall request w resp w',
     create_order request w = (Returned resp, w') ->
     status_code resp = 201 ->
     exists d,
       data request = Json (VDict d)
       /\ resp = order_created (returned_order_id w)
       /\ log w' = log w ++ [order_created_record w d]
       /\ 1000 <= logged_order_id w <= 9999
       /\ 1000 <= returned_order_id w <= 9999)
  /\ (forall a b,
        1000 <= a <= 9999 -> 1000 <= b <= 9999 ->
        exists w,
          order_succeeds w = true
          /\ logged_order_id w = a /\ returned_order_id w = b)
  /\ (exists request w resp w',
        create_order request w = (Returned resp, w')
        /\ status_code resp = 201
        /\ logged_order_id w <> returned_order_id w).
Proof.
  split; [| split].
  - intros request w resp w' E Hst.
    destruct (data request) as [| | v] eqn:Hd.
    1,2: destruct (create_order_no_document request w) as [e He];
         [intros v; rewrite Hd; discriminate | rewrite He in E; discriminate].
    assert (Hv : exists d, v = VDict d).
    { destruct v; try (pose proof (create_order_not_object request _ w Hd) as Hn;
                       rewrite E in Hn; cbn in Hn;
                       discriminate Hn; intros d; discriminate).
      eexists; reflexivity. }
    destruct Hv as [d ->]. exists d. split; [reflexivity |].
    destruct (order_succeeds w) eqn:Hs.
    + destruct (Prom.to_float (order_amount d)) as [x | e] eqn:Hx.
      * destruct (create_order_accepted request d x w Hd Hs Hx)
          as (w1 & E1 & _ & L1 & _).
        rewrite E in E1. injection E1 as -> ->.
        repeat split; try assumption; apply order_id_range.
      * pose proof (create_order_bad_amount request d e w Hd Hs Hx) as Hn.
        rewrite E in Hn. discriminate.
    + destruct (create_order_declined request d w Hd Hs) as (w1 & E1 & _).
      rewrite E in E1. injection E1 as -> _. discriminate.
  - intros a b Ha Hb. eexists. apply (ids_reachable a b Ha Hb).
  - exists (post_orders None (Json alice_order)), accepting_world.
    destruct (create_order_accepted (post_orders None (Json alice_order))
                [ ("amount", VInt 100); ("customer", VStr "alice") ]
                (inject_Z 100) accepting_world eq_refl eq_refl eq_refl)
      as (w' & E & _).
    exists (order_created (returned_order_id accepting_world)), w'.
    split; [exact E |]. split; [reflexivity |]. vm_compute. discriminate.
Qed.

Lemma order_ids_drawn_twice_witness :
  exists d,
    data (post_orders None (Json alice_order)) = Json (VDict d)
    /\ order_created (returned_order_id accepting_world)
       = order_created (returned_order_id accepting_world)
    /\ log (snd (create_order (post_orders None (Json alice_order))
                   accepting_world))
       = log accepting_world ++ [order_created_record accepting_world d]
    /\ 1000 <= logged_order_id accepting_world <= 9999
    /\ 1000 <= returned_order_id accepting_world <= 9999.
Proof.
  apply (proj1 order_ids_drawn_twice (post_orders None (Json alice_order))
           accepting_world (order_created (returned_order_id accepting_world))
           (snd (create_order (post_orders None (Json alice_order))
                   accepting_world))).
  - vm_compute. reflexivity.
  - reflexivity.
Defined.

(** * Further properties *)

(** ** What a request does to the registry, beyond the counter *)

Ltac registry :=
  unfold registry_step, observe_query;
  cbn [order_counter order_value active_users database_query_duration
       _active_users_count log clock entropy entropy_pos overrun overrun_pos
       set_order_counter set_order_value set_active_users
       set_database_query_duration set_active_users_count set_log
       next_entropy advance_clock fst snd];
  repeat match goal with
  | |- _ /\ _ => split
  | |- context [Prom.histogram_obs (Prom.histogram_observe ?h ?lv ?x) ?lv] =>
      rewrite (histogram_obs_observe_same h lv x)
  end;
  rewrite ?app_nil_r; try reflexivity; try lia.

Lemma registry_step_trans (d1 d2 : Z) (v1 v2 : list Q) (q : option (string * Q))
  (w w1 w2 : World) :
  registry_step d1 v1 q w w1 -> registry_step d2 v2 None w1 w2 ->
  registry_step (d1 + d2) (v1 ++ v2) q w w2.
Proof.
  unfold registry_step, observe_query.
  intros (A1 & A2 & A3 & A4) (B1 & B2 & B3 & B4).
  rewrite B1, B2, B3, B4, A1, A2, A3, A4, app_assoc.
  repeat split; try reflexivity; lia.
Qed.

Lemma home_registry (request : Request) (w : World) :
  registry_step 0 [] None w (snd (home request w)).
Proof. unfold home. exec. registry. Qed.

Lemma health_registry (request : Request) (w : World) :
  registry_step 0 [] None w (snd (health request w)).
Proof. unfold health. exec. registry. Qed.

Lemma metrics_endpoint_registry (request : Request) (w : World) :
  registry_step 0 [] None w (snd (metrics_endpoint request w)).
Proof. unfold metrics_endpoint. exec. registry. Qed.

Lemma get_user_registry (user_id : string) (request : Request) (w : World) :
  registry_step 0 []
    (Some ("select", elapsed_over_sleep (select_secs w) w))
    w (snd (get_user user_id request w)).
Proof.
  unfold get_user. exec.
  rewrite sleep_allowed by (unfold Qle; simpl; lia). exec. registry.
Qed.

Lemma slow_endpoint_registry (request : Request) (w : World) :
  registry_step 0 [] None w (snd (slow_endpoint request w)).
Proof.
  unfold slow_endpoint. exec.
  rewrite sleep_allowed by (unfold Qle; simpl; lia). exec. registry.
Qed.

Lemma error_endpoint_registry (request : Request) (w : World) :
  registry_step 0 [] None w (snd (error_endpoint request w)).
Proof.
  unfold error_endpoint, error_types. exec.
  match goal with |- context [nth ?i ?l ?d] => destruct (nth i l d) as [[s m] r] end.
  registry.
Qed.

Lemma create_order_registry (request : Request) (w : World) :
  registry_step 0
    match data request with
    | Json (VDict d) =>
        if order_succeeds w then
          match Prom.to_float (order_amount d) with
          | inl x => [x]
          | inr _ => []
          end
        else []
    | _ => []
    end
    match data request with
    | Json _ => Some ("insert", elapsed_over_sleep (insert_secs w) w)
    | _ => None
    end
    w (snd (create_order request w)).
Proof.
  unfold create_order, get_json.
  destruct (data request) as [| | v]; exec; try (registry; fail).
  rewrite sleep_allowed by (unfold Qle; simpl; lia). exec.
  change (Qgt_bool (unit_draw (entropy w (S (entropy_pos w)))) float_0_1)
    with (order_succeeds w).
  destruct (order_succeeds w); exec; rewrite counter_inc_one.
  - destruct v; exec; try (registry; fail).
    fold (order_amount d).
    destruct (Prom.to_float (order_amount d)); exec; registry.
  - destruct v; exec; registry.
Qed.

(* The loop of [metrics_demo] again, now with what it observes and how it
   moves the entropy cursor. *)
Lemma demo_loop_values (n : nat) (w : World) :
  exists w',
    for_range n metrics_demo_iteration w = (Returned tt, w')
    /\ Prom.histogram_obs (order_value w') ""
       = Prom.histogram_obs (order_value w) ""
         ++ map (fun k => (10 + (1000 - 10)
                             * unit_draw (entropy w (k + entropy_pos w)%nat))%Q)
              (seq 0 n)
    /\ entropy w' = entropy w
    /\ entropy_pos w' = (n + entropy_pos w)%nat.
Proof.
  revert w. induction n as [| n IH]; intros w.
  - exists w. cbn. rewrite app_nil_r. auto.
  - cbn [for_range]. unfold bind at 1.
    assert (Hbody : exists w1,
              metrics_demo_iteration w = (Returned tt, w1)
              /\ Prom.histogram_obs (order_value w1) ""
                 = Prom.histogram_obs (order_value w) ""
                   ++ [(10 + (1000 - 10) * unit_draw (entropy w (entropy_pos w)))%Q]
              /\ entropy w1 = entropy w
              /\ entropy_pos w1 = S (entropy_pos w)).
    { unfold metrics_demo_iteration. exec. rewrite counter_inc_one. exec.
      eexists; split; [reflexivity |].
      cbn [order_value set_order_value entropy entropy_pos next_entropy
           set_order_counter].
      rewrite histogram_obs_observe_same. auto. }
    destruct Hbody as (w1 & E1 & V1 & T1 & P1). rewrite E1.
    destruct (IH w1) as (w' & E' & V' & T' & P').
    exists w'. split; [exact E' |].
    split; [| split; [congruence | rewrite P', P1; lia]].
    rewrite V', V1, <- app_assoc. f_equal.
    cbn [seq map app Nat.add]. f_equal.
    rewrite <- seq_shift, map_map. apply map_ext. intros k.
    rewrite T1, P1.
    replace (k + S (entropy_pos w))%nat with (S k + entropy_pos w)%nat by lia.
    reflexivity.
Qed.

Lemma metrics_demo_registry (request : Request) (w : World) :
  registry_step (demo_delta w) (demo_values w) None w
    (snd (metrics_demo request w)).
Proof.
  unfold metrics_demo. exec.
  match goal with
  | |- context [for_range ?n ?b ?w0] =>
      destruct (demo_loop_values n w0) as (w' & E & V & T & P);
      destruct (demo_loop n w0) as (w'' & E'' & _ & C & _ & _ & D)
  end.
  rewrite E in E''. injection E'' as <-.
  rewrite E. exec. cbn in V, T, C, D.
  unfold registry_step, observe_query. cbn [snd].
  rewrite C, V, T, D. repeat split.
  f_equal. unfold demo_values, demo_value, demo_iterations, next_raw.
  apply map_ext. intros k. cbn [Nat.add].
  replace (k + S (S (entropy_pos w)))%nat with (S (S (k + entropy_pos w))) by lia.
  reflexivity.
Qed.

Lemma head_registry (d : Z) (v : list Q) (q : option (string * Q))
  (m : M Response) (w : World) :
  registry_step d v q w (snd (m w)) ->
  registry_step d v q w
    (snd ((resp <- m ;; ret (mkResponse (status_code resp) NoBody)) w)).
Proof. unfold bind, ret. destruct (m w) as [[resp | e] w1]; auto. Qed.

Ltac handler_registry :=
  lazymatch goal with
  | |- registry_step _ _ _ _ (snd (bind _ _ _)) =>
      apply head_registry; handler_registry
  | |- registry_step _ _ _ _ (snd (home _ _)) => apply home_registry
  | |- registry_step _ _ _ _ (snd (health _ _)) => apply health_registry
  | |- registry_step _ _ _ _ (snd (metrics_endpoint _ _)) =>
      apply metrics_endpoint_registry
  | |- registry_step _ _ _ _ (snd (create_order _ _)) =>
      apply create_order_registry
  | |- registry_step _ _ _ _ (snd (get_user _ _ _)) => apply get_user_registry
  | |- registry_step _ _ _ _ (snd (slow_endpoint _ _)) =>
      apply slow_endpoint_registry
  | |- registry_step _ _ _ _ (snd (error_endpoint _ _)) =>
      apply error_endpoint_registry
  | |- registry_step _ _ _ _ (snd (metrics_demo _ _)) =>
      apply metrics_demo_registry
  | |- registry_step _ _ _ _ (snd (ret _ _)) => unfold ret; registry
  | |- registry_step _ _ _ _ (snd (raise _ _)) => unfold raise; registry
  end.

Lemma dispatch_request_registry (request : Request) (w : World) :
  registry_step (gauge_delta request w) (value_observations request w)
    (query_observation request w) w (snd (dispatch_request request w)).
Proof.
  unfold dispatch_request, gauge_delta, value_observations, query_observation,
    endpoint_run.
  destruct (match_path url_map (path request)) as [[r arg] |] eqn:E.
  2: { handler_registry. }
  apply match_path_in in E. destruct E as [Hin _].
  unfold url_map in Hin. cbn [In] in Hin.
  repeat (destruct Hin as [<- | Hin]); try contradiction;
    destruct (method request); route_tests; handler_registry.
Qed.

Lemma request_registry (request : Request) (w : World) :
  registry_step (gauge_delta request w) (value_observations request w)
    (query_observation request w) w (snd (full_dispatch_request request w)).
Proof.
  pose proof (dispatch_request_registry request w) as H.
  unfold full_dispatch_request.
  destruct (dispatch_request request w) as [[resp | e] w1]; [exact H |].
  destruct (handle_user_exception_log e request w1) as [l Hl].
  destruct (handle_user_exception e request w1) as [[resp | e'] w2];
    cbn [snd] in *; subst w2; exact H.
Qed.

(** ** Log records and status codes *)

Ltac outcome :=
  unfold view_outcome;
  cbn [order_counter order_value active_users database_query_duration
       _active_users_count log clock entropy entropy_pos overrun overrun_pos
       set_order_counter set_order_value set_active_users
       set_database_query_duration set_active_users_count set_log
       next_entropy advance_clock fst snd status_code jsonify];
  repeat match goal with
  | |- _ /\ _ => split
  | |- exists l, ?a ++ ?b = ?a ++ l /\ _ => exists b
  | |- exists l, ?a = ?a ++ l /\ _ => exists []; rewrite app_nil_r
  end;
  try reflexivity; cbn [List.length In]; try lia; auto 12.

Lemma home_outcome (request : Request) (w : World) :
  view_outcome w (home request w).
Proof. unfold home. exec. outcome. Qed.

Lemma health_outcome (request : Request) (w : World) :
  view_outcome w (health request w).
Proof. unfold health. exec. outcome. Qed.

Lemma metrics_endpoint_outcome (request : Request) (w : World) :
  view_outcome w (metrics_endpoint request w).
Proof. unfold metrics_endpoint. exec. outcome. Qed.

Lemma get_user_outcome (user_id : string) (request : Request) (w : World) :
  view_outcome w (get_user user_id request w).
Proof.
  unfold get_user. exec.
  rewrite sleep_allowed by (unfold Qle; simpl; lia). exec. outcome.
Qed.

Lemma slow_endpoint_outcome (request : Request) (w : World) :
  view_outcome w (slow_endpoint request w).
Proof.
  unfold slow_endpoint. exec.
  rewrite sleep_allowed by (unfold Qle; simpl; lia). exec. outcome.
Qed.

Lemma error_endpoint_outcome (request : Request) (w : World) :
  view_outcome w (error_endpoint request w).
Proof.
  unfold error_endpoint, error_types. exec.
  cbn [List.length Z.of_nat Pos.of_succ_nat Pos.succ].
  pose proof (Z.mod_pos_bound (Z.of_N (entropy w (entropy_pos w))) 3 eq_refl) as Hr.
  set (r := Z.of_N (entropy w (entropy_pos w)) mod 3) in *.
  assert (Hc : r = 0 \/ r = 1 \/ r = 2) by lia.
  destruct Hc as [-> | [-> | ->]];
    [ change (Z.to_nat 0) with 0%nat | change (Z.to_nat 1) with 1%nat
    | change (Z.to_nat 2) with 2%nat ];
    cbn [nth]; outcome.
Qed.

Lemma metrics_demo_outcome (request : Request) (w : World) :
  view_outcome w (metrics_demo request w).
Proof.
  destruct (metrics_demo_run request w) as (w' & E & _ & _ & _ & L & _).
  rewrite E. unfold view_outcome. cbn [fst snd]. rewrite L. outcome.
Qed.

Lemma to_float_errors (v : value) (e : exn) :
  Prom.to_float v = inr e -> e = TypeError \/ e = OverflowError.
Proof.
  unfold Prom.to_float. intros H.
  destruct v; try discriminate H; try (injection H as <-; auto; fail).
  destruct (Z.abs n <? Prom.float_max_int); [discriminate H |].
  injection H as <-; auto.
Qed.

Lemma create_order_outcome (request : Request) (w : World) :
  view_outcome w (create_order request w).
Proof.
  unfold create_order, get_json.
  destruct (data request) as [| | v]; exec; try (outcome; fail).
  rewrite sleep_allowed by (unfold Qle; simpl; lia). exec.
  destruct (Qgt_bool _ float_0_1); exec; rewrite counter_inc_one.
  - destruct v; exec; try (outcome; fail).
    destruct (Prom.to_float _) as [x | e] eqn:Hx; exec; [outcome |].
    destruct (to_float_errors _ _ Hx) as [-> | ->]; outcome.
  - destruct v; exec; outcome.
Qed.

Lemma head_outcome (m : M Response) (w : World) :
  view_outcome w (m w) ->
  view_outcome w ((resp <- m ;; ret (mkResponse (status_code resp) NoBody)) w).
Proof.
  unfold view_outcome, bind, ret. destruct (m w) as [[resp | e] w1]; auto.
Qed.

Ltac handler_outcome :=
  lazymatch goal with
  | |- view_outcome _ (bind _ _ _) => apply head_outcome; handler_outcome
  | |- view_outcome _ (home _ _) => apply home_outcome
  | |- view_outcome _ (health _ _) => apply health_outcome
  | |- view_outcome _ (metrics_endpoint _ _) => apply metrics_endpoint_outcome
  | |- view_outcome _ (create_order _ _) => apply create_order_outcome
  | |- view_outcome _ (get_user _ _ _) => apply get_user_outcome
  | |- view_outcome _ (slow_endpoint _ _) => apply slow_endpoint_outcome
  | |- view_outcome _ (error_endpoint _ _) => apply error_endpoint_outcome
  | |- view_outcome _ (metrics_demo _ _) => apply metrics_demo_outcome
  | |- view_outcome _ (ret _ _) => unfold ret; outcome
  | |- view_outcome _ (raise _ _) => unfold raise; outcome
  end.

Lemma dispatch_request_outcome (request : Request) (w : World) :
  view_outcome w (dispatch_request request w).
Proof.
  unfold dispatch_request.
  destruct (match_path url_map (path request)) as [[r arg] |] eqn:E.
  2: { handler_outcome. }
  apply match_path_in in E. destruct E as [Hin _].
  unfold url_map in Hin. cbn [In] in Hin.
  repeat (destruct Hin as [<- | Hin]); try contradiction;
    destruct (method request); route_tests; handler_outcome.
Qed.

Lemma request_outcome (request : Request) (w : World) :
  exists l,
    log (snd (full_dispatch_request request w)) = log w ++ l
    /\ (List.length l <= 1)%nat
    /\ In (status_code (fst (full_dispatch_request request w))) possible_statuses.
Proof.
  pose proof (dispatch_request_outcome request w) as H.
  unfold full_dispatch_request, view_outcome in *.
  destruct (dispatch_request request w) as [[resp | e] w1]; cbn [fst snd] in *.
  - destruct H as [(l & Hl & Hn) Hs]. exists l. repeat split; auto.
    unfold possible_statuses. cbn [In] in *. intuition.
  - destruct H as [Hl He]. unfold possible_statuses. cbn [In] in He.
    destruct He as [<- | [<- | [<- | [<- | [<- | [<- | [<- | []]]]]]]];
      unfold handle_user_exception; cbn [Z.eqb Pos.eqb];
      unfold not_found, internal_error; exec;
      cbn [fst snd log set_log status_code jsonify]; rewrite ?Hl;
      first [ exists []; rewrite app_nil_r; split; [reflexivity |]
            | eexists; split; [reflexivity |] ];
      cbn [List.length In]; auto 12.
Qed.

(** ** Extras: status codes and the log *)

(** X2.  The log only grows, and by at most one record per request: after
    any sequence of requests the old log is a prefix of the new one and
    the records added are no more than the requests served. *)
Theorem log_grows_by_at_most_one (requests : list Request) (w : World) :
  exists l,
    log (snd (serve requests w)) = log w ++ l
    /\ (List.length l <= List.length requests)%nat.
Proof.
  revert w. induction requests as [| request rest IH]; intros w.
  - exists []. cbn. now rewrite app_nil_r.
  - rewrite serve_cons.
    destruct (request_outcome request w) as (l1 & H1 & N1 & _).
    destruct (IH (snd (full_dispatch_request request w))) as (l2 & H2 & N2).
    exists (l1 ++ l2). rewrite H2, H1, app_assoc. split; [reflexivity |].
    rewrite length_app. cbn [List.length]. lia.
Qed.

(** ** Extras: the children of orders_total *)

Lemma label_increments_nonneg (lv : string) (incs : list string) :
  0 <= label_increments lv incs.
Proof. unfold label_increments. lia. Qed.

Lemma label_increments_cons (lv lv0 : string) (incs : list string) :
  label_increments lv (lv0 :: incs)
  = (if String.eqb lv lv0 then 1 else 0) + label_increments lv incs.
Proof.
  unfold label_increments. cbn [filter].
  destruct (String.eqb lv lv0); cbn [List.length]; lia.
Qed.

Lemma apply_incs_label (lv : string) (incs : list string) (c : Prom.Counter) :
  Prom.counter_child (apply_incs incs c) lv
  = (if label_increments lv incs =? 0 then Prom.counter_child c lv
     else Some (Prom.counter_value c lv + label_increments lv incs)).
Proof.
  revert c. induction incs as [| lv0 incs IH]; intros c; [reflexivity |].
  change (apply_incs (lv0 :: incs) c)
    with (apply_incs incs (fst (Prom.counter_inc c lv0 1))).
  rewrite IH, label_increments_cons.
  pose proof (label_increments_nonneg lv incs) as Hn.
  clear IH. set (s := label_increments lv incs) in *.
  destruct (String.eqb_spec lv lv0) as [<- | Hne].
  - rewrite counter_child_inc_same, counter_value_inc_same.
    destruct (Z.eqb_spec s 0); destruct (Z.eqb_spec (1 + s) 0);
      try lia; f_equal; lia.
  - rewrite counter_child_inc_other, counter_value_inc_other by assumption.
    reflexivity.
Qed.

Lemma serve_label_child (lv : string) (requests : list Request) (w : World) :
  0 <= total_label_increments lv requests w
  /\ Prom.counter_child (order_counter (snd (serve requests w))) lv
     = (if total_label_increments lv requests w =? 0
        then Prom.counter_child (order_counter w) lv
        else Some (Prom.counter_value (order_counter w) lv
                   + total_label_increments lv requests w)).
Proof.
  revert w. induction requests as [| request rest IH]; intros w.
  - cbn. split; [lia | reflexivity].
  - rewrite serve_cons. cbn [total_label_increments].
    destruct (IH (snd (full_dispatch_request request w))) as [Hn ->].
    destruct (request_frame request w) as (-> & _).
    pose proof (label_increments_nonneg lv (counter_incs request w)) as Hk.
    split; [lia |].
    unfold Prom.counter_value. rewrite apply_incs_label.
    apply (bump_twice (Prom.counter_child (order_counter w) lv)); assumption.
Qed.

Lemma label_sample (lv : string) (w : World) :
  instruments_declared w ->
  Prom.sample_value "orders_total" [("status", lv)] (generate_latest w)
  = option_map inject_Z (Prom.counter_child (order_counter w) lv).
Proof.
  intros (N1 & L1 & N2 & _ & N3 & N4 & _).
  unfold generate_latest. rewrite sample_value_app.
  rewrite <- N1 at 1. rewrite (sample_value_counter _ "status" lv L1).
  destruct (Prom.counter_child (order_counter w) lv); [reflexivity |].
  cbn [option_map]. apply sample_value_absent. intros nm lb v H.
  apply in_app_or in H. destruct H as [H | H].
  { apply histogram_sample_names in H. rewrite N2 in H.
    destruct H as [-> | [-> | ->]]; reflexivity. }
  apply in_app_or in H. destruct H as [H | H].
  { unfold Prom.collect_gauge in H. rewrite N3 in H. cbn in H.
    destruct H as [H | [[= <- _ _] | []]]; [discriminate | reflexivity]. }
  apply histogram_sample_names in H. rewrite N4 in H.
  destruct H as [-> | [-> | ->]]; reflexivity.
Qed.

Lemma counter_incs_labels (request : Request) (w : World) (lv : string) :
  In lv (counter_incs request w) -> lv = "success" \/ lv = "failed".
Proof.
  unfold counter_incs. destruct (endpoint_run request) as [ep |]; [| intros []].
  destruct (String.eqb ep "create_order").
  - destruct (data request); try (intros []).
    destruct (order_succeeds w); intros [<- | []]; auto.
  - destruct (String.eqb ep "metrics_demo"); [| intros []].
    intros H. apply repeat_spec in H. auto.
Qed.

Lemma filter_nothing {A : Type} (f : A -> bool) (l : list A) :
  (forall x, In x l -> f x = false) -> filter f l = [].
Proof.
  induction l as [| x l IH]; intros H; [reflexivity |].
  cbn [filter]. rewrite (H x) by (left; reflexivity).
  apply IH. intros y Hy. apply H. now right.
Qed.

Lemma other_labels_never_incremented (lv : string) (requests : list Request)
  (w : World) :
  lv <> "success" -> lv <> "failed" ->
  total_label_increments lv requests w = 0.
Proof.
  intros H1 H2. revert w.
  induction requests as [| request rest IH]; intros w; [reflexivity |].
  cbn [total_label_increments]. rewrite IH.
  unfold label_increments. rewrite filter_nothing; [reflexivity |].
  intros x Hx. apply counter_incs_labels in Hx.
  destruct (String.eqb_spec lv x); [| reflexivity].
  subst x. tauto.
Qed.

(** X6.  After any sequence of requests served since start-up, and for
    every value [lv] of the [status] label: the snapshot has a sample
    [orders_total{status=lv}] exactly when the child has been incremented
    at least once, and its value is then the number of increments.  The
    handlers only ever increment [success] and [failed]; a declined order
    counts under [failed], and no other child is ever created. *)
Theorem label_counter_exact (e o : nat -> N) (t0 : Q) (requests : list Request)
  (lv : string) :
  Prom.sample_value "orders_total" [("status", lv)]
    (generate_latest (snd (serve requests (startup e o t0))))
  = (if total_label_increments lv requests (startup e o t0) =? 0 then None
     else Some (inject_Z (total_label_increments lv requests (startup e o t0))))
  /\ (lv = "success" \/ lv = "failed"
      \/ total_label_increments lv requests (startup e o t0) = 0).
Proof.
  split.
  - rewrite label_sample by apply declared_serve, declared_startup.
    destruct (serve_label_child lv requests (startup e o t0)) as [_ ->].
    destruct (_ =? 0); reflexivity.
  - destruct (string_dec lv "success") as [-> | H1]; [auto |].
    destruct (string_dec lv "failed") as [-> | H2]; [auto |].
    right; right. now apply other_labels_never_incremented.
Qed.

(** ** Extras: the order-value histogram *)

Lemma serve_value_observations (requests : list Request) (w : World) :
  Prom.histogram_obs (order_value (snd (serve requests w))) ""
  = Prom.histogram_obs (order_value w) "" ++ total_value_observations requests w.
Proof.
  revert w. induction requests as [| request rest IH]; intros w.
  - cbn. now rewrite app_nil_r.
  - rewrite serve_cons, IH. cbn [total_value_observations].
    destruct (request_registry request w) as (_ & -> & _).
    now rewrite app_assoc.
Qed.

Lemma successes_repeat (n : nat) : successes (repeat "success" n) = Z.of_nat n.
Proof.
  unfold successes. induction n as [| n IH]; [reflexivity |].
  cbn [repeat filter String.eqb Ascii.eqb Bool.eqb List.length] in *. lia.
Qed.

Lemma value_observations_bounded (request : Request) (w : World) :
  Z.of_nat (List.length (value_observations request w))
  <= success_increments request w.
Proof.
  unfold value_observations, success_increments, counter_incs.
  destruct (endpoint_run request) as [ep |]; [| reflexivity].
  destruct (String.eqb ep "create_order").
  - destruct (data request) as [| | v]; try reflexivity.
    destruct (order_succeeds w).
    + destruct v; try (cbn; lia).
      destruct (Prom.to_float (order_amount d)); cbn; lia.
    + destruct v; cbn; lia.
  - destruct (String.eqb ep "metrics_demo"); [| reflexivity].
    unfold demo_values. rewrite length_map, length_seq, successes_repeat. lia.
Qed.

Lemma total_value_observations_bounded (requests : list Request) (w : World) :
  Z.of_nat (List.length (total_value_observations requests w))
  <= total_success_increments requests w.
Proof.
  revert w. induction requests as [| request rest IH]; intros w; [reflexivity |].
  cbn [total_value_observations total_success_increments].
  rewrite length_app, Nat2Z.inj_add.
  pose proof (value_observations_bounded request w).
  specialize (IH (snd (full_dispatch_request request w))). lia.
Qed.

(** X7.  In a running service the number of values observed into
    [order_value_dollars] never exceeds [orders_total{status="success"}]:
    every observation comes right after an increment.  The two can differ,
    because an accepted order whose amount cannot be observed has already
    been counted when [observe] raises. *)
Theorem observations_never_exceed_successes (e o : nat -> N) (t0 : Q)
  (requests : list Request) :
  Z.of_nat
    (List.length
       (Prom.histogram_obs
          (order_value (snd (serve requests (startup e o t0)))) ""))
  <= Prom.counter_value
       (order_counter (snd (serve requests (startup e o t0)))) "success"
  /\ Prom.histogram_obs (order_value (snd (serve requests (startup e o t0)))) ""
     = total_value_observations requests (startup e o t0)
  /\ (exists request w,
        Z.of_nat
          (List.length
             (Prom.histogram_obs
                (order_value (snd (full_dispatch_request request w))) ""))
        < Prom.counter_value
            (order_counter (snd (full_dispatch_request request w))) "success").
Proof.
  split; [| split].
  - rewrite serve_value_observations.
    change (Prom.histogram_obs (order_value (startup e o t0)) "") with (@nil Q).
    cbn [app].
    pose proof (total_value_observations_bounded requests (startup e o t0)) as Hb.
    destruct (serve_success_child requests (startup e o t0)) as [Hn Hc].
    unfold Prom.counter_value. rewrite Hc.
    destruct (Z.eqb_spec (total_success_increments requests (startup e o t0)) 0)
      as [E0 | E0].
    + change (Prom.counter_child (order_counter (startup e o t0)) "success")
        with (@None Z). lia.
    + change (Prom.counter_value (order_counter (startup e o t0)) "success")
        with 0. lia.
  - rewrite serve_value_observations. reflexivity.
  - exists (post_orders None (Json (VDict [ ("amount", VStr "abc") ]))),
      accepting_world.
    vm_compute. reflexivity.
Qed.

Lemma demo_value_range (w : World) (k : nat) :
  (10 <= demo_value w k <= 1000)%Q.
Proof. unfold demo_value. apply uniform_range. unfold Qle; cbn; lia. Qed.

Lemma demo_iterations_range (w : World) : 1 <= demo_iterations w <= 5.
Proof.
  unfold demo_iterations.
  pose proof (Z.mod_pos_bound (Z.of_N (next_raw 1 w)) 5 eq_refl). lia.
Qed.

(** X8.  Each GET of /api/metrics-demo runs its loop between one and five
    times; each iteration adds 1 to [orders_total{status="success"}] and
    observes one value between 10 and 1000 into [order_value_dollars], so
    the counter and the number of observations grow by the same amount. *)
Theorem metrics_demo_observations (ua : option string) (p : payload) (w : World) :
  1 <= demo_iterations w <= 5
  /\ Prom.counter_value
       (order_counter
          (snd (full_dispatch_request (mkRequest GET "/api/metrics-demo" ua p) w)))
       "success"
     = Prom.counter_value (order_counter w) "success" + demo_iterations w
  /\ Prom.histogram_obs
       (order_value
          (snd (full_dispatch_request (mkRequest GET "/api/metrics-demo" ua p) w)))
       ""
     = Prom.histogram_obs (order_value w) "" ++ demo_values w
  /\ Z.of_nat (List.length (demo_values w)) = demo_iterations w
  /\ Forall (fun x => (10 <= x <= 1000)%Q) (demo_values w).
Proof.
  pose proof (demo_iterations_range w) as Hr.
  split; [exact Hr |]. split; [| split; [| split]].
  - destruct (request_frame (mkRequest GET "/api/metrics-demo" ua p) w) as (-> & _).
    change (counter_incs (mkRequest GET "/api/metrics-demo" ua p) w)
      with (repeat "success" (Z.to_nat (demo_iterations w))).
    unfold Prom.counter_value at 1. rewrite apply_incs_child, successes_repeat.
    rewrite Z2Nat.id by lia.
    destruct (Z.eqb_spec (demo_iterations w) 0); [lia | reflexivity].
  - destruct (request_registry (mkRequest GET "/api/metrics-demo" ua p) w)
      as (_ & -> & _). reflexivity.
  - unfold demo_values. rewrite length_map, length_seq. lia.
  - unfold demo_values. apply Forall_forall. intros x Hx.
    apply in_map_iff in Hx. destruct Hx as (k & <- & _). apply demo_value_range.
Qed.

(** ** Extras: the active-user gauge *)

Lemma serve_gauge (requests : list Request) (w : World) :
  _active_users_count (snd (serve requests w))
  = _active_users_count w + total_gauge_delta requests w
  /\ Prom.g_value (active_users (snd (serve requests w)))
     = Prom.g_value (active_users w) + total_gauge_delta requests w
  /\ entropy (snd (serve requests w)) = entropy w.
Proof.
  revert w. induction requests as [| request rest IH]; intros w.
  - cbn. repeat split; lia.
  - rewrite serve_cons. cbn [total_gauge_delta].
    destruct (IH (snd (full_dispatch_request request w))) as (-> & -> & ->).
    destruct (request_registry request w) as (C & _ & _ & T).
    destruct (request_frame request w) as (_ & _ & _ & _ & _ & _ & F).
    repeat split; [lia | lia | exact T].
Qed.

(** X9.  In a running service the gauge always equals the start-up value
    plus the deltas of all /api/metrics-demo invocations so far, in
    whatever order they were mixed with other requests, and it equals the
    module-level count; no other request moves either of them. *)
Theorem gauge_follows_deltas (e o : nat -> N) (t0 : Q) (requests : list Request) :
  Prom.g_value (active_users (snd (serve requests (startup e o t0))))
  = Prom.g_value (active_users (startup e o t0))
    + total_gauge_delta requests (startup e o t0)
  /\ _active_users_count (snd (serve requests (startup e o t0)))
     = Prom.g_value (active_users (snd (serve requests (startup e o t0))))
  /\ (forall request w,
        endpoint_run request <> Some "metrics_demo" ->
        Prom.g_value (active_users (snd (full_dispatch_request request w)))
        = Prom.g_value (active_users w)
        /\ _active_users_count (snd (full_dispatch_request request w))
           = _active_users_count w).
Proof.
  destruct (serve_gauge requests (startup e o t0)) as (C & G & _).
  split; [exact G |]. split.
  - rewrite C, G. reflexivity.
  - intros request w Hep.
    destruct (request_registry request w) as (C1 & _).
    destruct (request_frame request w) as (_ & _ & _ & _ & _ & _ & F).
    assert (H0 : gauge_delta request w = 0).
    { unfold gauge_delta. destruct (endpoint_run request) as [ep |]; [| reflexivity].
      destruct (String.eqb_spec ep "metrics_demo"); [| reflexivity].
      subst ep. now elim Hep. }
    lia.
Qed.

Lemma steady_deltas (request : Request) (n : nat) (w : World) :
  entropy w = steady_tape 0 ->
  Zsum (demo_deltas request n w) = -5 * Z.of_nat n.
Proof.
  revert w. induction n as [| n IH]; intros w Hw; [reflexivity |].
  cbn [demo_deltas Zsum fold_right]. fold (Zsum (demo_deltas request n
    (snd (full_dispatch_request request w)))).
  rewrite IH.
  - unfold demo_delta, next_raw. rewrite Hw. unfold steady_tape.
    change (Z.of_N 0 mod 16) with 0. lia.
  - destruct (request_registry request w) as (_ & _ & _ & T). now rewrite T.
Qed.

(** X10.  Nothing bounds the gauge from below: for every integer there
    are draws and a run of /api/metrics-demo calls after which the gauge
    lies below it; in particular it can become negative. *)
Theorem gauge_unbounded_below (m : Z) :
  exists e o t0 n,
    Prom.g_value
      (active_users
         (snd (serve (repeat (get_path "/api/metrics-demo") n) (startup e o t0))))
    < m.
Proof.
  exists (steady_tape 0), (steady_tape 0), 0%Q, (Z.to_nat (Z.abs m) + 3)%nat.
  destruct (metrics_demo_repeated None NotJson (Z.to_nat (Z.abs m) + 3)
              (startup (steady_tape 0) (steady_tape 0) 0) eq_refl)
    as (_ & _ & S & _).
  unfold get_path. rewrite S, steady_deltas by reflexivity.
  change (Prom.g_value (active_users (startup (steady_tape 0) (steady_tape 0) 0)))
    with 10.
  lia.
Qed.

(** ** Extras: the query-duration histogram *)

Lemma observe_query_series (lv : string) (q : option (string * Q))
  (h : Prom.Histogram) :
  Prom.histogram_obs (observe_query q h) lv
  = Prom.histogram_obs h lv ++ query_series lv q.
Proof.
  unfold observe_query, query_series. destruct q as [[lv' x] |].
  - destruct (String.eqb_spec lv lv') as [<- | Hne].
    + apply histogram_obs_observe_same.
    + rewrite histogram_obs_observe_other by assumption. now rewrite app_nil_r.
  - now rewrite app_nil_r.
Qed.

Lemma serve_query_series (lv : string) (requests : list Request) (w : World) :
  Prom.histogram_obs (database_query_duration (snd (serve requests w))) lv
  = Prom.histogram_obs (database_query_duration w) lv
    ++ total_query_series lv requests w.
Proof.
  revert w. induction requests as [| request rest IH]; intros w.
  - cbn. now rewrite app_nil_r.
  - rewrite serve_cons, IH. cbn [total_query_series].
    destruct (request_registry request w) as (_ & _ & -> & _).
    now rewrite observe_query_series, app_assoc.
Qed.

Lemma query_series_floor (request : Request) (w : World) :
  Forall (fun x => (1 # 100 <= x)%Q)
    (query_series "insert" (query_observation request w))
  /\ Forall (fun x => (5 # 100 <= x)%Q)
       (query_series "select" (query_observation request w))
  /\ (forall lv, lv <> "insert" -> lv <> "select" ->
        query_series lv (query_observation request w) = []).
Proof.
  assert (Hi : (1 # 100 <= elapsed_over_sleep (insert_secs w) w)%Q).
  { eapply Qle_trans; [| apply elapsed_covers_sleep].
    apply uniform_range. unfold Qle; cbn; lia. }
  assert (Hs : (5 # 100 <= elapsed_over_sleep (select_secs w) w)%Q).
  { eapply Qle_trans; [| apply elapsed_covers_sleep].
    apply uniform_range. unfold Qle; cbn; lia. }
  unfold query_observation, query_series.
  destruct (endpoint_run request) as [ep |]; [| repeat split; auto].
  destruct (String.eqb ep "create_order").
  - destruct (data request); repeat split; auto; cbn; auto.
    intros lv H1 H2. destruct (String.eqb_spec lv "insert"); congruence.
  - destruct (String.eqb ep "get_user"); repeat split; auto; cbn; auto.
    intros lv H1 H2. destruct (String.eqb_spec lv "select"); congruence.
Qed.

Lemma total_query_series_floor (requests : list Request) (w : World) :
  Forall (fun x => (1 # 100 <= x)%Q) (total_query_series "insert" requests w)
  /\ Forall (fun x => (5 # 100 <= x)%Q) (total_query_series "select" requests w)
  /\ (forall lv, lv <> "insert" -> lv <> "select" ->
        total_query_series lv requests w = []).
Proof.
  revert w. induction requests as [| request rest IH]; intros w.
  - cbn. repeat split; auto.
  - cbn [total_query_series].
    destruct (IH (snd (full_dispatch_request request w))) as (A & B & C).
    destruct (query_series_floor request w) as (A1 & B1 & C1).
    repeat split.
    + apply Forall_app; auto.
    + apply Forall_app; auto.
    + intros lv H1 H2. now rewrite C1, C by assumption.
Qed.

(** X11.  In a running service the query-duration histogram has only the
    series [insert] and [select]; the [insert] series holds one latency for
    each [create_order] invocation that got a JSON document, the [select]
    series one for each [get_user] invocation, in order; and no recorded
    latency is below the shortest sleep of its kind, 10 ms for inserts and
    50 ms for lookups. *)
Theorem query_series_exact (e o : nat -> N) (t0 : Q) (requests : list Request) :
  (forall lv,
     Prom.histogram_obs
       (database_query_duration (snd (serve requests (startup e o t0)))) lv
     = total_query_series lv requests (startup e o t0))
  /\ Forall (fun x => (1 # 100 <= x)%Q)
       (Prom.histogram_obs
          (database_query_duration (snd (serve requests (startup e o t0))))
          "insert")
  /\ Forall (fun x => (5 # 100 <= x)%Q)
       (Prom.histogram_obs
          (database_query_duration (snd (serve requests (startup e o t0))))
          "select")
  /\ (forall lv, lv <> "insert" -> lv <> "select" ->
        Prom.histogram_obs
          (database_query_duration (snd (serve requests (startup e o t0)))) lv
        = []).
Proof.
  assert (H : forall lv,
            Prom.histogram_obs
              (database_query_duration (snd (serve requests (startup e o t0)))) lv
            = total_query_series lv requests (startup e o t0)).
  { intros lv. rewrite serve_query_series. reflexivity. }
  destruct (total_query_series_floor requests (startup e o t0)) as (A & B & C).
  split; [exact H |]. rewrite !H. repeat split; auto.
  intros lv H1 H2. rewrite H. now apply C.
Qed.

(** ** Extras: POST /api/orders, case by case *)

Lemma full_dispatch_raised (request : Request) (w w1 : World) (e : exn) :
  dispatch_request request w = (Raised e, w1) ->
  is_http e = false ->
  full_dispatch_request request w
  = (internal_error_response,
     set_log (log w1 ++ [internal_error_record e request]) w1).
Proof.
  intros H He. unfold full_dispatch_request. rewrite H.
  destruct e; [discriminate He | reflexivity ..].
Qed.

(** X12.  When the body of a POST to /api/orders is a JSON object whose
    [amount] is a number (or is absent, which counts as 0), the request is
    answered 201 or 400 according to the outcome draw; on 201 exactly that
    amount is observed into [order_value_dollars] and the success record,
    with the amount and the customer (or ['unknown']), is logged; on 400
    nothing is observed and the failure record is logged. *)
Theorem create_order_numeric_amount (ua : option string)
  (d : list (string * value)) (x : Q) (w : World) :
  Prom.to_float (order_amount d) = inl x ->
  exists w',
    full_dispatch_request (post_orders ua (Json (VDict d))) w
    = (if order_succeeds w then order_created (returned_order_id w)
       else payment_declined, w')
    /\ Prom.histogram_obs (order_value w') ""
       = (if order_succeeds w then Prom.histogram_obs (order_value w) "" ++ [x]
          else Prom.histogram_obs (order_value w) "")
    /\ log w'
       = log w ++ [if order_succeeds w then order_created_record w d
                   else order_failed_record d].
Proof.
  intros Hx. destruct (order_succeeds w) eqn:Hs.
  - destruct (create_order_accepted (post_orders ua (Json (VDict d))) d x w
                eq_refl Hs Hx) as (w' & E & V & L & _).
    exists w'.
    rewrite (full_dispatch_returned
               (post_orders ua (Json (VDict d))) w w' _ E), V, L.
    repeat split; [apply histogram_obs_observe_same].
  - destruct (create_order_declined (post_orders ua (Json (VDict d))) d w
                eq_refl Hs) as (w' & E & V & L & _).
    exists w'.
    rewrite (full_dispatch_returned
               (post_orders ua (Json (VDict d))) w w' _ E), V, L.
    repeat split.
Qed.

Lemma create_order_numeric_amount_witness :
  exists w',
    full_dispatch_request (post_orders None (Json alice_order)) accepting_world
    = (if order_succeeds accepting_world
       then order_created (returned_order_id accepting_world)
       else payment_declined, w')
    /\ Prom.histogram_obs (order_value w') ""
       = (if order_succeeds accepting_world
          then Prom.histogram_obs (order_value accepting_world) ""
               ++ [inject_Z 100]
          else Prom.histogram_obs (order_value accepting_world) "")
    /\ log w'
       = log accepting_world
         ++ [if order_succeeds accepting_world
             then order_created_record accepting_world
                    [ ("amount", VInt 100); ("customer", VStr "alice") ]
             else order_failed_record
                    [ ("amount", VInt 100); ("customer", VStr "alice") ]].
Proof.
  apply (create_order_numeric_amount None
           [ ("amount", VInt 100); ("customer", VStr "alice") ]
           (inject_Z 100) accepting_world).
  reflexivity.
Defined.

(** X13.  A declined order never uses the amount for anything but the log:
    whatever the type of [amount] in the JSON object, the answer is the 400
    body, [orders_total{status="failed"}] grows by one, nothing is observed
    into [order_value_dollars], and the amount is logged as it came. *)
Theorem declined_order_ignores_amount (ua : option string)
  (d : list (string * value)) (w : World) :
  order_succeeds w = false ->
  exists w',
    full_dispatch_request (post_orders ua (Json (VDict d))) w
    = (payment_declined, w')
    /\ order_value w' = order_value w
    /\ log w' = log w ++ [order_failed_record d]
    /\ Prom.counter_value (order_counter w') "failed"
       = Prom.counter_value (order_counter w) "failed" + 1
    /\ Prom.counter_value (order_counter w') "success"
       = Prom.counter_value (order_counter w) "success".
Proof.
  intros Hs.
  destruct (create_order_declined (post_orders ua (Json (VDict d))) d w
              eq_refl Hs) as (w' & E & V & L & _).
  exists w'.
  pose proof (request_frame (post_orders ua (Json (VDict d))) w) as (F & _).
  rewrite (full_dispatch_returned
             (post_orders ua (Json (VDict d))) w w' _ E) in *.
  cbn [snd] in F.
  change (counter_incs (post_orders ua (Json (VDict d))) w)
    with (if order_succeeds w then ["success"] else ["failed"]) in F.
  rewrite Hs in F. cbn [apply_incs fold_left] in F.
  rewrite F, counter_value_inc_same, counter_value_inc_other by discriminate.
  auto.
Qed.

Lemma declined_order_ignores_amount_witness :
  exists w',
    full_dispatch_request
      (post_orders None (Json (VDict [ ("amount", VStr "abc") ])))
      declining_world
    = (payment_declined, w')
    /\ order_value w' = order_value declining_world
    /\ log w'
       = log declining_world
         ++ [order_failed_record [ ("amount", VStr "abc") ]]
    /\ Prom.counter_value (order_counter w') "failed"
       = Prom.counter_value (order_counter declining_world) "failed" + 1
    /\ Prom.counter_value (order_counter w') "success"
       = Prom.counter_value (order_counter declining_world) "success".
Proof.
  apply (declined_order_ignores_amount None [ ("amount", VStr "abc") ]
           declining_world).
  vm_compute. reflexivity.
Defined.

(** ** Extras: the read-only views *)

(** X15.  For every user id that the route accepts (not empty, without a
    slash) GET /api/users/{user_id} is answered 200 with the id, the
    username [user_] followed by the id, and [active] true; one info
    record with the id and the measured duration is logged, the duration
    being at least the slept time of 50 ms or more; orders and gauge are
    left alone. *)
Theorem get_user_response (user_id : string) (ua : option string) (p : payload)
  (w : World) :
  user_id <> "" ->
  has_slash user_id = false ->
  exists w' q,
    full_dispatch_request
      (mkRequest GET (String.append "/api/users/" user_id) ua p) w
    = (user_response user_id, w')
    /\ log w'
       = log w ++ [mkLog INFO "User lookup"
                     [ ("user_id", VStr user_id);
                       ("query_duration", VFloat q) ]]
    /\ (5 # 100 <= select_secs w)%Q
    /\ (select_secs w <= q)%Q
    /\ order_counter w' = order_counter w
    /\ order_value w' = order_value w
    /\ active_users w' = active_users w.
Proof.
  intros Hne Hs. unfold full_dispatch_request.
  rewrite dispatch_user_lookup by assumption.
  unfold get_user. exec.
  rewrite sleep_allowed by (unfold Qle; simpl; lia). exec.
  eexists. eexists. split; [reflexivity |].
  cbn [log set_log order_counter order_value active_users
       set_database_query_duration advance_clock next_entropy].
  split; [reflexivity |].
  split; [apply uniform_range; unfold Qle; cbn; lia |].
  split; [| auto].
  change (entropy w (entropy_pos w)) with (next_raw 0 w).
  fold (select_secs w).
  pose proof (nanoseconds_nonneg (overrun w (S (overrun_pos w)))).
  pose proof (nanoseconds_nonneg (overrun w (S (S (overrun_pos w))))).
  pose proof (nanoseconds_nonneg (overrun w (S (S (S (overrun_pos w)))))).
  lra.
Qed.

Lemma get_user_response_witness :
  exists w' q,
    full_dispatch_request
      (mkRequest GET (String.append "/api/users/" "42") None NotJson)
      accepting_world
    = (user_response "42", w')
    /\ log w'
       = log accepting_world
         ++ [mkLog INFO "User lookup"
               [ ("user_id", VStr "42"); ("query_duration", VFloat q) ]]
    /\ (5 # 100 <= select_secs accepting_world)%Q
    /\ (select_secs accepting_world <= q)%Q
    /\ order_counter w' = order_counter accepting_world
    /\ order_value w' = order_value accepting_world
    /\ active_users w' = active_users accepting_world.
Proof.
  apply (get_user_response "42" None NotJson accepting_world).
  - discriminate.
  - reflexivity.
Defined.

(** X16.  GET /api/slow is answered 200 with the duration it slept, a
    value between 1 and 3 seconds; the warning logged before the sleep
    announces the same duration; the clock has advanced by at least that
    much when the response is produced. *)
Theorem slow_endpoint_response (ua : option string) (p : payload) (w : World) :
  exists w' msg,
    full_dispatch_request (mkRequest GET "/api/slow" ua p) w
    = (jsonify [ ("message", VStr "This was intentionally slow");
                 ("duration", VFloat (slow_duration w)) ] 200, w')
    /\ log w'
       = log w ++ [mkLog WARNING msg
                     [ ("endpoint", VStr "/api/slow");
                       ("expected_duration", VFloat (slow_duration w)) ]]
    /\ (1 <= slow_duration w <= 3)%Q
    /\ (clock w + slow_duration w <= clock w')%Q.
Proof.
  unfold full_dispatch_request.
  change (dispatch_request (mkRequest GET "/api/slow" ua p) w)
    with (slow_endpoint (mkRequest GET "/api/slow" ua p) w).
  unfold slow_endpoint. exec.
  rewrite sleep_allowed by (unfold Qle; simpl; lia). exec.
  eexists. eexists. split; [reflexivity |].
  cbn [log set_log clock advance_clock next_entropy overrun overrun_pos
       entropy entropy_pos].
  split; [reflexivity |].
  split; [apply uniform_range; unfold Qle; cbn; lia |].
  unfold slow_duration, next_raw. cbn [Nat.add].
  pose proof (nanoseconds_nonneg (overrun w (overrun_pos w))). lra.
Qed.

(** X17.  The record that /api/error logs agrees with what it answers: it
    carries the status code and the reason of the very triple that is
    returned. *)
Theorem error_log_matches_response (ua : option string) (p : payload) (w : World) :
  exists status msg reason w',
    full_dispatch_request (mkRequest GET "/api/error" ua p) w
    = (error_response status msg reason, w')
    /\ In (status, msg, reason) error_types
    /\ log w'
       = log w ++ [mkLog ERROR "Error endpoint triggered"
                     [ ("status_code", VInt status); ("reason", VStr reason) ]].
Proof.
  unfold full_dispatch_request.
  change (dispatch_request (mkRequest GET "/api/error" ua p) w)
    with (error_endpoint (mkRequest GET "/api/error" ua p) w).
  unfold error_endpoint, error_types. exec.
  match goal with
  | |- context [nth ?i ?l ?d] =>
      assert (Hin : In (nth i l d) l)
        by (apply nth_In;
            pose proof (Z.mod_pos_bound (Z.of_N (entropy w (entropy_pos w)))
                          (Z.of_nat (List.length l)) eq_refl);
            cbn [List.length] in *; lia);
      destruct (nth i l d) as [[status msg] reason]
  end.
  exists status, msg, reason. eexists. split; [reflexivity |].
  split; [exact Hin | reflexivity].
Qed.

(** ** Extras: HEAD *)



(** * The serving process *)

(** ** One request through the process *)

Lemma wsgi_app_world (environ : Request) (P : Process) :
  world (snd (wsgi_app environ P))
  = snd (debug_dispatch (make_request environ) (world P)).
Proof.
  unfold wsgi_app, default_timer. cbn [world].
  destruct (debug_dispatch (make_request environ) (world P)) as [[resp | e] w1];
    reflexivity.
Qed.

Lemma wsgi_app_reply (environ : Request) (P : Process) :
  fst (wsgi_app environ P)
  = match fst (debug_dispatch (make_request environ) (world P)) with
    | Answer resp =>
        Answer (sent (make_request environ) (whole_registry P resp))
    | Debugger e => Debugger e
    end.
Proof.
  unfold wsgi_app, default_timer. cbn [world].
  destruct (debug_dispatch (make_request environ) (world P)) as [[resp | e] w1];
    reflexivity.
Qed.

Lemma wsgi_app_exporter (environ : Request) (P : Process) :
  exporter (snd (wsgi_app environ P))
  = match fst (debug_dispatch (make_request environ) (world P)) with
    | Answer resp =>
        Exporter.after_request (method_name (method environ))
          (request_path (path environ)) (str_of_int (status_code resp))
          (measured P) (exporter P)
    | Debugger e =>
        Exporter.teardown_request (method_name (method environ))
          (request_path (path environ)) (measured P) (exporter P)
    end.
Proof.
  unfold wsgi_app, default_timer. cbn [world].
  destruct (debug_dispatch (make_request environ) (world P)) as [[resp | e] w1];
    reflexivity.
Qed.

Lemma wsgi_app_status (environ : Request) (P : Process) :
  reply_status (fst (wsgi_app environ P))
  = reply_status (fst (debug_dispatch (make_request environ) (world P))).
Proof.
  rewrite wsgi_app_reply.
  destruct (fst (debug_dispatch (make_request environ) (world P)))
    as [resp | e]; [| reflexivity].
  unfold sent, whole_registry, reply_status.
  destruct (method_eqb _ HEAD); destruct (response_body resp); reflexivity.
Qed.

Lemma debugged_application_reached (environ : Request) (P : Process) :
  String.eqb (request_path (path environ)) console_path = false ->
  debugged_application environ P
  = (Some (fst (wsgi_app environ P)), snd (wsgi_app environ P)).
Proof.
  intros H. unfold debugged_application. rewrite H.
  now destruct (wsgi_app environ P).
Qed.

Lemma run_cons (environ : Request) (rest : list Request) (P : Process) :
  run (environ :: rest) P
  = (fst (debugged_application environ P)
     :: fst (run rest (snd (debugged_application environ P))),
     snd (run rest (snd (debugged_application environ P)))).
Proof.
  cbn [run]. destruct (debugged_application environ P) as [r P1].
  cbn [fst snd]. destruct (run rest P1) as [rs P2]. reflexivity.
Qed.

Lemma run_app (r1 r2 : list Request) (P : Process) :
  run (r1 ++ r2) P
  = (fst (run r1 P) ++ fst (run r2 (snd (run r1 P))),
     snd (run r2 (snd (run r1 P)))).
Proof.
  revert P. induction r1 as [| environ r1 IH]; intros P.
  - cbn. now destruct (run r2 P).
  - rewrite <- app_comm_cons, !run_cons, IH. reflexivity.
Qed.

(* What a run does to the application state depends on that state alone:
   not on the exporter, its timer or the other collectors. *)
Lemma run_world (environs : list Request) (P P' : Process) :
  world P = world P' ->
  world (snd (run environs P)) = world (snd (run environs P')).
Proof.
  revert P P'. induction environs as [| environ rest IH]; intros P P' H.
  - exact H.
  - rewrite !run_cons. cbn [snd]. apply IH. unfold debugged_application.
    destruct (String.eqb _ console_path) eqn:E; [exact H |].
    pose proof (wsgi_app_world environ P) as W.
    pose proof (wsgi_app_world environ P') as W'.
    destruct (wsgi_app environ P), (wsgi_app environ P'). cbn [snd] in *.
    now rewrite W, W', H.
Qed.

(** ** Routing *)

Lemma lookup_none (m : http_method) (p : string) :
  path_has_rule p = false -> lookup m p = None.
Proof.
  unfold path_has_rule, lookup.
  destruct (static_filename p); [discriminate |].
  destruct (match_path url_map p) as [[r arg] |]; [discriminate | reflexivity].
Qed.

Lemma route_request_unrouted (request : Request) :
  unrouted (path request) = true -> route_request request = Abort 404.
Proof.
  unfold unrouted. intros H.
  apply andb_true_iff in H. destruct H as [H H2].
  apply andb_true_iff in H. destruct H as [_ H1].
  apply negb_true_iff in H1, H2. unfold route_request.
  now rewrite (lookup_none _ _ H1), (lookup_none _ _ H2).
Qed.

Lemma route_request_abort (request : Request) (code : Z) :
  route_request request = Abort code -> code = 404 \/ code = 405.
Proof.
  unfold route_request.
  destruct (lookup (method request) (path request)) as [[t |] |];
    try discriminate;
    destruct (lookup (method request) (merge_slashes (path request)))
      as [[t' |] |]; try discriminate; intros [= <-]; auto.
Qed.

Lemma strip_prefix_app (p s rest : string) :
  strip_prefix p s = Some rest -> s = String.append p rest.
Proof.
  revert s. induction p as [| a p IH]; intros s; cbn.
  - now intros [= ->].
  - destruct s as [| b s]; [discriminate |].
    destruct (Ascii.eqb_spec a b) as [-> |]; [| discriminate].
    intros H. now rewrite (IH s H).
Qed.

(** ** What the application answers *)

Lemma flask_dispatch_outcome (request : Request) (w : World) :
  match fst (flask_dispatch request w) with
  | Returned resp => In (status_code resp) [200; 201; 400; 429; 500; 503]
  | Raised e =>
      log (snd (flask_dispatch request w)) = log w
      /\ In e [ HTTPException 404; HTTPException 405; HTTPException 415;
                HTTPException 400; HTTPException 308;
                AttributeError; TypeError; OverflowError ]
  end.
Proof.
  unfold flask_dispatch.
  destruct (route_request request) as [[| f] | loc | code] eqn:E.
  - pose proof (dispatch_request_outcome request w) as H.
    unfold view_outcome in H.
    destruct (dispatch_request request w) as [[resp | e] w1]; cbn [fst snd] in *.
    + apply H.
    + destruct H as [Hl He]. split; [exact Hl |]. cbn [In] in *. intuition.
  - destruct (method_eqb (method request) OPTIONS); cbn; auto 12.
  - cbn. auto 12.
  - destruct (route_request_abort request code E) as [-> | ->]; cbn; auto 12.
Qed.

Lemma debug_dispatch_status (request : Request) (w : World) :
  In (reply_status (fst (debug_dispatch request w))) served_statuses.
Proof.
  pose proof (flask_dispatch_outcome request w) as H.
  unfold debug_dispatch.
  destruct (flask_dispatch request w) as [[resp | e] w1]; cbn [fst snd] in *.
  - unfold served_statuses. cbn [In reply_status] in *. intuition.
  - destruct H as [_ He]. cbn [In] in He.
    destruct He as [<- | [<- | [<- | [<- | [<- | [<- | [<- | [<- | []]]]]]]]];
      cbn; auto 12.
Qed.





(** ** The application does not read its log *)

Lemma forget_log_set (w w' : World) :
  forget_log w' = forget_log w -> w' = set_log (log w') w.
Proof.
  destruct w, w'. unfold forget_log, set_log. cbn.
  now intros [= -> -> -> -> -> -> -> -> -> ->].
Qed.

Lemma blind_ret {A : Type} (a : A) : blind (ret a).
Proof. intros w l. split; reflexivity. Qed.

Lemma blind_raise {A : Type} (e : exn) : blind (@raise A e).
Proof. intros w l. split; reflexivity. Qed.

Lemma blind_bind {A B : Type} (m : M A) (k : A -> M B) :
  blind m -> (forall a, blind (k a)) -> blind (bind m k).
Proof.
  intros Hm Hk w l. unfold bind.
  destruct (Hm w l) as [F S].
  destruct (m (set_log l w)) as [[a | e] w1'], (m w) as [[a0 | e0] w1];
    cbn [fst snd] in *; try discriminate.
  - injection F as ->. rewrite (forget_log_set _ _ S). apply Hk.
  - injection F as ->. split; [reflexivity | exact S].
Qed.

Lemma blind_modify (f : World -> World) :
  (forall w l, forget_log (f (set_log l w)) = forget_log (f w)) ->
  blind (modify f).
Proof. intros H w l. split; [reflexivity | apply H]. Qed.

Lemma blind_gets {A : Type} (f : World -> A) :
  (forall w l, f (set_log l w) = f w) -> blind (gets f).
Proof. intros H w l. unfold gets. cbn [fst snd]. now rewrite H. Qed.

Lemma blind_getrandraw : blind getrandraw.
Proof. intros w l. split; reflexivity. Qed.

Lemma blind_logger_log (lv : level) (msg : string) (ex : list (string * value)) :
  blind (logger_log lv msg ex).
Proof. intros w l. split; reflexivity. Qed.

Lemma blind_order_counter_inc (lv : string) : blind (order_counter_inc lv).
Proof.
  intros w l. unfold order_counter_inc. cbn [order_counter set_log].
  destruct (Prom.counter_inc (order_counter w) lv 1) as [c [x |]];
    split; reflexivity.
Qed.

Lemma blind_for_range (n : nat) (body : M unit) :
  blind body -> blind (for_range n body).
Proof.
  intros H. induction n as [| n IH]; cbn [for_range].
  - apply blind_ret.
  - apply blind_bind; [exact H | intros _; exact IH].
Qed.

Ltac blindness :=
  repeat first
    [ apply blind_ret | apply blind_raise | apply blind_getrandraw
    | apply blind_logger_log | apply blind_order_counter_inc
    | apply blind_modify; intros; reflexivity
    | apply blind_gets; intros; reflexivity
    | apply blind_bind; [| intros ?]
    | apply blind_for_range
    | match goal with
      | |- blind (if ?c then _ else _) => destruct c
      | |- blind (match ?x with _ => _ end) => destruct x
      end ].

Lemma blind_home (request : Request) : blind (home request).
Proof.
  unfold home, logger_info, datetime_utcnow, time_time. blindness.
Qed.

Lemma blind_health (request : Request) : blind (health request).
Proof. unfold health. blindness. Qed.

Lemma blind_metrics_endpoint (request : Request) :
  blind (metrics_endpoint request).
Proof. unfold metrics_endpoint. blindness. Qed.

Lemma blind_create_order (request : Request) : blind (create_order request).
Proof.
  unfold create_order, get_json, time_time, time_sleep, random_uniform,
    random_random, random_randint, database_query_duration_observe,
    order_value_observe, dict_get, logger_info, logger_error.
  ground_tests. blindness.
Qed.

Lemma blind_get_user (user_id : string) (request : Request) :
  blind (get_user user_id request).
Proof.
  unfold get_user, time_time, time_sleep, random_uniform, random_random,
    database_query_duration_observe, logger_info.
  blindness.
Qed.

Lemma blind_slow_endpoint (request : Request) : blind (slow_endpoint request).
Proof.
  unfold slow_endpoint, time_sleep, random_uniform, random_random,
    logger_warning.
  blindness.
Qed.

Lemma blind_error_endpoint (request : Request) : blind (error_endpoint request).
Proof.
  unfold error_endpoint, error_types, random_choice, logger_error.
  apply blind_bind; [blindness |]. intros [[status msg] reason]. blindness.
Qed.

Lemma blind_metrics_demo (request : Request) : blind (metrics_demo request).
Proof.
  unfold metrics_demo, metrics_demo_iteration, random_randint, random_uniform,
    random_random, active_users_inc, order_value_observe.
  ground_tests. blindness.
Qed.

Lemma blind_handle_user_exception (e : exn) (request : Request) :
  blind (handle_user_exception e request).
Proof.
  unfold handle_user_exception, not_found, internal_error, logger_warning,
    logger_error.
  blindness.
Qed.

Ltac handler_blind :=
  lazymatch goal with
  | |- blind (bind _ _) =>
      apply blind_bind; [handler_blind | intros ?; apply blind_ret]
  | |- blind (home _) => apply blind_home
  | |- blind (health _) => apply blind_health
  | |- blind (metrics_endpoint _) => apply blind_metrics_endpoint
  | |- blind (create_order _) => apply blind_create_order
  | |- blind (get_user _ _) => apply blind_get_user
  | |- blind (slow_endpoint _) => apply blind_slow_endpoint
  | |- blind (error_endpoint _) => apply blind_error_endpoint
  | |- blind (metrics_demo _) => apply blind_metrics_demo
  | |- blind (ret _) => apply blind_ret
  | |- blind (raise _) => apply blind_raise
  end.

Lemma blind_dispatch_request (request : Request) :
  blind (dispatch_request request).
Proof.
  unfold dispatch_request.
  destruct (match_path url_map (path request)) as [[r arg] |] eqn:E.
  2: { handler_blind. }
  apply match_path_in in E. destruct E as [Hin _].
  unfold url_map in Hin. cbn [In] in Hin.
  repeat (destruct Hin as [<- | Hin]); try contradiction;
    destruct (method request); route_tests; handler_blind.
Qed.

(** ** The application inside the serving process *)

Lemma static_not_app (p f : string) :
  static_filename p = Some f -> match_path url_map p = None.
Proof.
  unfold static_filename.
  destruct (strip_prefix "/static/" p) as [[| a rest] |] eqn:S;
    try discriminate.
  intros _. rewrite (strip_prefix_app _ _ _ S). reflexivity.
Qed.

Lemma handle_user_exception_forget (e : exn) (request : Request) (w : World) :
  forget_log (snd (handle_user_exception e request w)) = forget_log w.
Proof.
  destruct (handle_user_exception_log e request w) as [l ->]. reflexivity.
Qed.

Lemma dispatch_not_allowed (request : Request) (r : Rule) (arg : string)
  (w : World) :
  match_path url_map (path request) = Some (r, arg) ->
  rule_allows r (method request) = false ->
  dispatch_request request w = (Raised (HTTPException 405), w).
Proof.
  intros E A. unfold dispatch_request. rewrite E. unfold rule_allows in A.
  apply orb_false_iff in A. destruct A as [A A3].
  apply orb_false_iff in A. destruct A as [A1 A2].
  now rewrite A1, A2, A3.
Qed.

(* Whatever the route, the serving process and the application by itself
   leave the same state behind, the log apart. *)
Lemma debug_dispatch_agrees (request : Request) (w : World) :
  forget_log (snd (debug_dispatch request w))
  = forget_log (snd (full_dispatch_request request w)).
Proof.
  assert (App : route_request request = Dispatch AppRule ->
                forget_log (snd (debug_dispatch request w))
                = forget_log (snd (full_dispatch_request request w))).
  { intros E. unfold debug_dispatch, full_dispatch_request, flask_dispatch.
    rewrite E.
    destruct (dispatch_request request w) as [[resp | e] w1]; [reflexivity |].
    destruct (is_http e) eqn:H.
    - destruct (handle_user_exception e request w1) as [[resp | e'] w2];
        reflexivity.
    - cbn [snd]. symmetry.
      pose proof (handle_user_exception_forget e request w1) as F.
      destruct (handle_user_exception e request w1) as [[resp | e'] w2];
        exact F. }
  assert (Idle : forget_log (snd (debug_dispatch request w)) = forget_log w
                 \/ route_request request = Dispatch AppRule).
  { unfold debug_dispatch, flask_dispatch.
    destruct (route_request request) as [[| f] | loc | code] eqn:E.
    - right. reflexivity.
    - left. destruct (method_eqb (method request) OPTIONS); reflexivity.
    - left. reflexivity.
    - left.
      destruct (route_request_abort request code E) as [-> | ->]; reflexivity. }
  destruct Idle as [I | A]; [| exact (App A)].
  rewrite I. symmetry.
  destruct (static_filename (path request)) as [f |] eqn:S.
  { unfold full_dispatch_request, dispatch_request.
    rewrite (static_not_app _ _ S). reflexivity. }
  destruct (match_path url_map (path request)) as [[r arg] |] eqn:M.
  2: { unfold full_dispatch_request, dispatch_request. rewrite M. reflexivity. }
  destruct (rule_allows r (method request)) eqn:A.
  - rewrite <- I. symmetry. apply App.
    unfold route_request, lookup. now rewrite S, M, A.
  - unfold full_dispatch_request.
    now rewrite (dispatch_not_allowed request r arg w M A).
Qed.

Lemma blind_full_dispatch (request : Request) (w : World) (l : list LogRecord) :
  forget_log (snd (full_dispatch_request request (set_log l w)))
  = forget_log (snd (full_dispatch_request request w)).
Proof.
  unfold full_dispatch_request.
  destruct (blind_dispatch_request request w l) as [F S].
  destruct (dispatch_request request (set_log l w)) as [[a | e] w1'],
    (dispatch_request request w) as [[a0 | e0] w1];
    cbn [fst snd] in *; try discriminate; [exact S |].
  injection F as ->. rewrite (forget_log_set _ _ S).
  destruct (blind_handle_user_exception e0 request w1 (log w1')) as [_ S'].
  destruct (handle_user_exception e0 request (set_log (log w1') w1))
    as [[a | e] w2'],
    (handle_user_exception e0 request w1) as [[a0 | e1] w2]; exact S'.
Qed.

(* After any sequence of requests the instruments of [app.py], the count
   behind the gauge, the clock and the random draws consumed are, in the
   serving process, what the application by itself computes for the
   requests that reached it. *)
Lemma run_agrees (environs : list Request) (P : Process) (w : World) :
  forget_log (world P) = forget_log w ->
  forget_log (world (snd (run environs P)))
  = forget_log (snd (serve (map make_request (filter reaches environs)) w)).
Proof.
  revert P w. induction environs as [| environ rest IH]; intros P w H.
  - exact H.
  - rewrite run_cons. cbn [snd filter]. unfold reaches at 1.
    unfold debugged_application.
    destruct (String.eqb _ console_path); cbn [negb].
    + apply IH, H.
    + cbn [map]. rewrite serve_cons. cbn [snd].
      pose proof (wsgi_app_world environ P) as W.
      destruct (wsgi_app environ P) as [r P1]. cbn [snd] in *.
      apply IH. rewrite W, debug_dispatch_agrees.
      rewrite (forget_log_set _ _ H). apply blind_full_dispatch.
Qed.

Lemma forget_log_instruments (w w' : World) :
  forget_log w' = forget_log w -> same_instruments w w'.
Proof.
  intros H. rewrite (forget_log_set _ _ H). repeat split.
Qed.

(* Both layers leave the same instruments behind. *)
Lemma served_instruments (environs : list Request) (P : Process) :
  same_instruments
    (snd (serve (map make_request (filter reaches environs)) (world P)))
    (world (snd (run environs P))).
Proof. apply forget_log_instruments, run_agrees. reflexivity. Qed.

(** ** The exporter's counters *)

Lemma tuple_eqb_refl (k : list string) : tuple_eqb k k = true.
Proof.
  induction k as [| x k IH]; [reflexivity |].
  cbn. now rewrite String.eqb_refl, IH.
Qed.

Lemma tuple_get_set_same {A : Type} (k : list string) (v : A)
  (d : list (list string * A)) :
  tuple_get k (tuple_set k v d) = Some v.
Proof.
  induction d as [| [k' v'] d IH]; cbn.
  - now rewrite tuple_eqb_refl.
  - destruct (tuple_eqb k k') eqn:E; cbn.
    + now rewrite tuple_eqb_refl.
    + now rewrite E.
Qed.

Lemma count_inc (k : list string) (d : list (list string * Z)) :
  Exporter.count k (Exporter.inc k d) = Exporter.count k d + 1.
Proof.
  unfold Exporter.count at 1, Exporter.inc. now rewrite tuple_get_set_same.
Qed.

Lemma Ztotal_inc (k : list string) (d : list (list string * Z)) :
  Ztotal (Exporter.inc k d) = Ztotal d + 1.
Proof.
  unfold Exporter.inc, Exporter.count, Ztotal.
  induction d as [| [k' v'] d IH];
    cbn [tuple_get tuple_set map snd Zsum fold_right].
  - lia.
  - destruct (tuple_eqb k k'); cbn [map snd Zsum fold_right].
    + unfold Zsum. lia.
    + unfold Zsum in *. cbn [tuple_get] in IH. rewrite IH. lia.
Qed.

(** ** GET /metrics in the serving process *)

Lemma metrics_read_step (ua : option string) (p : payload) (P : Process) :
  debugged_application (mkRequest GET "/metrics" ua p) P
  = (Some (Answer (mkResponse 200 (Exposition (registry_text P)))),
     next_request
       (set_exporter
          (Exporter.after_request "GET" "/metrics" "200" (measured P)
             (exporter P))
          (snd (default_timer (snd (default_timer P)))))).
Proof. reflexivity. Qed.

(** C8, as amended.  A GET of /metrics answers with the text of the whole
    registry, and it leaves the application state as it was: every
    counter, histogram and gauge that [app.py] creates keeps its value.
    In the next read, therefore, the part of the text that comes from
    these instruments is the same; what precedes it is not, for the
    exporter has counted the read: its request counter for GET and 200 is
    one higher.  A read inserted anywhere into a sequence of requests
    does not change the application state the sequence ends in. *)
Theorem metrics_read_keeps_instruments (ua : option string) (p : payload)
  (P : Process) (before after : list Request) :
  fst (debugged_application (mkRequest GET "/metrics" ua p) P)
  = Some (Answer (mkResponse 200 (Exposition (registry_text P))))
  /\ world (snd (debugged_application (mkRequest GET "/metrics" ua p) P))
     = world P
  /\ fst (debugged_application (mkRequest GET "/metrics" ua p)
            (snd (debugged_application (mkRequest GET "/metrics" ua p) P)))
     = Some (Answer (mkResponse 200
               (Exposition
                  (platform P (S (served P))
                   ++ Exporter.collect
                        (Exporter.after_request "GET" "/metrics" "200"
                           (measured P) (exporter P))
                   ++ generate_latest (world P)))))
  /\ Exporter.count ["GET"; "200"]
       (Exporter.request_total_metric
          (exporter
             (snd (debugged_application (mkRequest GET "/metrics" ua p) P))))
     = Exporter.count ["GET"; "200"]
         (Exporter.request_total_metric (exporter P)) + 1
  /\ world (snd (run (before ++ mkRequest GET "/metrics" ua p :: after) P))
     = world (snd (run (before ++ after) P)).
Proof.
  split; [rewrite metrics_read_step; reflexivity |].
  split; [rewrite metrics_read_step; reflexivity |].
  split; [rewrite !metrics_read_step; reflexivity |].
  split.
  - rewrite metrics_read_step. apply (count_inc ["GET"; "200"]).
  - rewrite !run_app. cbn [snd]. rewrite run_cons. cbn [snd].
    apply run_world. rewrite metrics_read_step. reflexivity.
Qed.

(** C8, counterexample.  Two consecutive reads of /metrics right after
    start-up give different texts: the first has no sample
    [flask_http_request_total{method="GET",status="200"}], the second
    shows it with value 1, because the read itself has incremented that
    counter of the exporter. *)
Lemma metrics_read_is_counted :
  Prom.sample_value "flask_http_request_total"
    [("method", "GET"); ("status", "200")]
    (exposition_of (fst (debugged_application get_metrics accepting_process)))
  = None
  /\ Prom.sample_value "flask_http_request_total"
       [("method", "GET"); ("status", "200")]
       (exposition_of
          (fst (debugged_application get_metrics
                  (snd (debugged_application get_metrics accepting_process)))))
     = Some 1%Q
  /\ fst (debugged_application get_metrics
            (snd (debugged_application get_metrics accepting_process)))
     <> fst (debugged_application get_metrics accepting_process)
  /\ Exporter.request_total_metric
       (exporter (snd (debugged_application get_metrics accepting_process)))
     <> Exporter.request_total_metric (exporter accepting_process).
Proof.
  split; [vm_compute; reflexivity |].
  split; [vm_compute; reflexivity |].
  split.
  - intros H.
    apply (f_equal (fun r => Prom.sample_value "flask_http_request_total"
                               [("method", "GET"); ("status", "200")]
                               (exposition_of r))) in H.
    vm_compute in H. discriminate H.
  - vm_compute. discriminate.
Qed.

(** ** Unmatched routes *)

(** C9, as amended.  When the path of a request is taken by no URL rule,
    neither one of the eight of [app.py] nor the static rule, neither as
    it is nor with its doubled slashes merged, and is not the console path
    of the debugger, then, whatever the method, the response is 404 with
    body exactly [{"error":"Not found"}] (to HEAD, as always, no body is
    sent), and one warning record carrying the requested path and method
    is appended to the log; nothing else of the application state
    changes. *)
Theorem unrouted_path_is_404 (environ : Request) (P : Process) :
  unrouted (request_path (path environ)) = true ->
  fst (debugged_application environ P)
  = Some (Answer (mkResponse 404 (not_found_body environ)))
  /\ world (snd (debugged_application environ P))
     = set_log (log (world P) ++ [not_found_record (make_request environ)])
         (world P).
Proof.
  intros H.
  assert (C : String.eqb (request_path (path environ)) console_path = false).
  { unfold unrouted in H. apply andb_true_iff in H. destruct H as [H _].
    apply andb_true_iff in H. destruct H as [H _].
    now apply negb_true_iff in H. }
  assert (E : debug_dispatch (make_request environ) (world P)
              = (Answer not_found_response,
                 set_log (log (world P)
                          ++ [not_found_record (make_request environ)])
                   (world P))).
  { unfold debug_dispatch, flask_dispatch.
    rewrite (route_request_unrouted (make_request environ) H). reflexivity. }
  rewrite (debugged_application_reached environ P C). cbn [fst snd].
  rewrite wsgi_app_reply, wsgi_app_world, E. cbn [fst snd].
  split; [| reflexivity].
  unfold sent, not_found_body, make_request. cbn [method].
  destruct (method_eqb (method environ) HEAD); reflexivity.
Qed.

Lemma unrouted_path_is_404_witness :
  fst (debugged_application (get_path "/nope") accepting_process)
  = Some (Answer (mkResponse 404 (not_found_body (get_path "/nope"))))
  /\ world (snd (debugged_application (get_path "/nope") accepting_process))
     = set_log (log (world accepting_process)
                ++ [not_found_record (make_request (get_path "/nope"))])
         (world accepting_process).
Proof.
  apply (unrouted_path_is_404 (get_path "/nope") accepting_process).
  reflexivity.
Defined.

(** C9, counterexample.  None of these requests matches a route by method
    and path, and none is answered as the claim says.  GET /api/orders,
    whose rule allows POST only, is answered 405 by the framework, without
    [not_found] and without a log record; so is POST /static/app.css, on
    the static rule.  GET /api//slow is redirected with 308 to /api/slow.
    HEAD /nope is answered 404 without a body.  GET /console is answered
    by the debugger and does not reach the application. *)
Lemma unmatched_requests_not_404 :
  (endpoint_run (mkRequest GET "/api/orders" None NotJson) = None
   /\ fst (debugged_application (mkRequest GET "/api/orders" None NotJson)
             accepting_process)
      = Some (Answer (mkResponse 405 DefaultPage))
   /\ log (world (snd (debugged_application
                         (mkRequest GET "/api/orders" None NotJson)
                         accepting_process)))
      = log (world accepting_process))
  /\ (endpoint_run (mkRequest POST "/static/app.css" None NotJson) = None
      /\ fst (debugged_application
                (mkRequest POST "/static/app.css" None NotJson)
                accepting_process)
         = Some (Answer (mkResponse 405 DefaultPage)))
  /\ (endpoint_run (mkRequest GET "/api//slow" None NotJson) = None
      /\ fst (debugged_application (mkRequest GET "/api//slow" None NotJson)
                accepting_process)
         = Some (Answer (mkResponse 308 DefaultPage))
      /\ log (world (snd (debugged_application
                            (mkRequest GET "/api//slow" None NotJson)
                            accepting_process)))
         = log (world accepting_process))
  /\ (endpoint_run (mkRequest HEAD "/nope" None NotJson) = None
      /\ fst (debugged_application (mkRequest HEAD "/nope" None NotJson)
                accepting_process)
         = Some (Answer (mkResponse 404 NoBody)))
  /\ (endpoint_run (mkRequest GET "/console" None NotJson) = None
      /\ debugged_application (mkRequest GET "/console" None NotJson)
           accepting_process
         = (None, accepting_process)).
Proof. repeat split; vm_compute; reflexivity. Qed.

(** ** Status codes *)

(** X1.  Whatever the requests, the application answers only with the
    status codes 200, 201, 308, 400, 404, 405, 415, 429, 500 and 503. *)
Theorem only_served_statuses (environs : list Request) (P : Process) :
  Forall (fun o => forall r, o = Some r -> In (reply_status r) served_statuses)
    (fst (run environs P)).
Proof.
  revert P. induction environs as [| environ rest IH]; intros P.
  - constructor.
  - rewrite run_cons. cbn [fst]. constructor; [| apply IH].
    unfold debugged_application.
    destruct (String.eqb _ console_path); [discriminate |].
    pose proof (wsgi_app_status environ P) as S.
    destruct (wsgi_app environ P) as [r0 P1]. cbn [fst] in *.
    intros r [= <-]. rewrite S. apply debug_dispatch_status.
Qed.

(** ** Every request is counted *)

(** X20.  The exporter counts every request that reaches the application
    exactly once: over any sequence of requests the children of
    [flask_http_request_total] grow, together, by the number of requests
    that reached the application, whatever their paths, methods and
    results, the reads of /metrics included; and those of
    [flask_http_request_exceptions_total] by the number of requests that
    ended in the debugger. *)
Theorem every_request_counted_once (environs : list Request) (P : Process) :
  Ztotal (Exporter.request_total_metric (exporter (snd (run environs P))))
  = Ztotal (Exporter.request_total_metric (exporter P))
    + Z.of_nat (List.length (filter reached (fst (run environs P))))
  /\ Ztotal (Exporter.request_exceptions_metric
               (exporter (snd (run environs P))))
     = Ztotal (Exporter.request_exceptions_metric (exporter P))
       + Z.of_nat (List.length (filter faulted (fst (run environs P)))).
Proof.
  revert P. induction environs as [| environ rest IH]; intros P.
  - cbn. lia.
  - rewrite run_cons. cbn [fst snd filter].
    destruct (IH (snd (debugged_application environ P))) as [T X].
    rewrite T, X. clear IH T X. unfold debugged_application.
    destruct (String.eqb _ console_path).
    { cbn [fst snd reached faulted]. lia. }
    pose proof (wsgi_app_exporter environ P) as E.
    pose proof (wsgi_app_reply environ P) as R.
    destruct (wsgi_app environ P) as [r P1]. cbn [fst snd] in *.
    rewrite E, R.
    destruct (fst (debug_dispatch (make_request environ) (world P)))
      as [resp | e]; cbn [reached faulted List.length];
      unfold Exporter.after_request, Exporter.teardown_request;
      cbn [Exporter.request_total_metric Exporter.request_exceptions_metric];
      rewrite ?Ztotal_inc; lia.
Qed.

(** ** Faults *)



(** ** POST /api/orders with a body that is not an object *)

Lemma create_order_non_object (ua : option string) (v : value) (w : World) :
  (forall d, v <> VDict d) ->
  exists w1,
    create_order (post_orders ua (Json v)) w = (Raised AttributeError, w1)
    /\ order_counter w1
       = fst (Prom.counter_inc (order_counter w)
                (if order_succeeds w then "success" else "failed") 1)
    /\ database_query_duration w1
       = Prom.histogram_observe (database_query_duration w) "insert"
           (elapsed_over_sleep (insert_secs w) w)
    /\ order_value w1 = order_value w
    /\ log w1 = log w.
Proof.
  intros Hv.
  pose proof (create_order_not_object (post_orders ua (Json v)) v w eq_refl Hv)
    as Hr.
  pose proof (create_order_outcome (post_orders ua (Json v)) w) as Ho.
  destruct (create_order (post_orders ua (Json v)) w) as [o w1] eqn:E.
  cbn [fst] in Hr. subst o. exists w1. split; [reflexivity |].
  unfold view_outcome in Ho. cbn [fst snd] in Ho. destruct Ho as [Hl _].
  pose proof (request_frame (post_orders ua (Json v)) w) as (F & _).
  pose proof (request_registry (post_orders ua (Json v)) w) as (_ & V & D & _).
  rewrite (full_dispatch_raised (post_orders ua (Json v)) w w1 AttributeError E
             eq_refl) in *.
  cbn [fst snd order_counter database_query_duration order_value set_log] in *.
  change (counter_incs (post_orders ua (Json v)) w)
    with (if order_succeeds w then ["success"] else ["failed"]) in F.
  split; [rewrite F; destruct (order_succeeds w); reflexivity |].
  split; [exact D |]. split; [| exact Hl].
  clear F D. revert V E. unfold create_order, get_json. cbn [data post_orders].
  exec. rewrite sleep_allowed by (unfold Qle; simpl; lia). exec.
  destruct (Qgt_bool _ float_0_1); exec; rewrite counter_inc_one; exec;
    destruct v; try (now elim (Hv d)); intros _ [= <-]; reflexivity.
Qed.

(** X14.  A JSON body that is not an object (null, a number, a string, a
    list) makes [create_order] raise [AttributeError], which the debugger
    answers with 500, but only after the query latency has been recorded
    and the counter chosen by the outcome draw has been incremented: the
    order is counted although the request failed.  Nothing is observed
    into [order_value_dollars] and nothing is logged. *)
Theorem non_object_body_counts_then_fails (ua : option string) (v : value)
  (P : Process) :
  (forall d, v <> VDict d) ->
  fst (debugged_application (post_orders ua (Json v)) P)
  = Some (Debugger AttributeError)
  /\ order_counter
       (world (snd (debugged_application (post_orders ua (Json v)) P)))
     = fst (Prom.counter_inc (order_counter (world P))
              (if order_succeeds (world P) then "success" else "failed") 1)
  /\ database_query_duration
       (world (snd (debugged_application (post_orders ua (Json v)) P)))
     = Prom.histogram_observe (database_query_duration (world P)) "insert"
         (elapsed_over_sleep (insert_secs (world P)) (world P))
  /\ order_value
       (world (snd (debugged_application (post_orders ua (Json v)) P)))
     = order_value (world P)
  /\ log (world (snd (debugged_application (post_orders ua (Json v)) P)))
     = log (world P).
Proof.
  intros Hv.
  destruct (create_order_non_object ua v (world P) Hv)
    as (w1 & E & C & D & V & L).
  assert (X : debug_dispatch (make_request (post_orders ua (Json v))) (world P)
              = (Debugger AttributeError, w1)).
  { unfold debug_dispatch.
    change (flask_dispatch (make_request (post_orders ua (Json v))) (world P))
      with (create_order (post_orders ua (Json v)) (world P)).
    now rewrite E. }
  rewrite (debugged_application_reached (post_orders ua (Json v)) P eq_refl).
  cbn [fst snd]. rewrite wsgi_app_reply, wsgi_app_world, X. cbn [fst snd].
  repeat split; assumption.
Qed.

Lemma non_object_body_counts_then_fails_witness :
  fst (debugged_application (post_orders None (Json VNone)) accepting_process)
  = Some (Debugger AttributeError).
Proof.
  refine (proj1 (non_object_body_counts_then_fails None VNone
                   accepting_process _)).
  intros d. discriminate.
Defined.

(** ** GET / *)

(** X18.  GET / is answered 200 with the service name, the status
    [running] and the UTC time of the moment the body is built, which is
    not earlier than the arrival of the request; one info record is
    logged with the User-Agent header, or with [None] when the request has
    none; no instrument of [app.py] is touched, while the exporter counts
    the request under GET and 200. *)
Theorem home_response (ua : option string) (p : payload) (P : Process) :
  exists t,
    fst (debugged_application (mkRequest GET "/" ua p) P)
    = Some (Answer (jsonify [ ("service", VStr "Flask Observability Demo");
                              ("status", VStr "running");
                              ("timestamp", VIsoTime t) ] 200))
    /\ (clock (world P) <= t)%Q
    /\ log (world (snd (debugged_application (mkRequest GET "/" ua p) P)))
       = log (world P)
         ++ [mkLog INFO "Home endpoint accessed"
               [ ("endpoint", VStr "/");
                 ("user_agent",
                  match ua with Some s => VStr s | None => VNone end) ]]
    /\ same_instruments (world P)
         (world (snd (debugged_application (mkRequest GET "/" ua p) P)))
    /\ Exporter.count ["GET"; "200"]
         (Exporter.request_total_metric
            (exporter (snd (debugged_application (mkRequest GET "/" ua p) P))))
       = Exporter.count ["GET"; "200"]
           (Exporter.request_total_metric (exporter P)) + 1.
Proof.
  rewrite (debugged_application_reached (mkRequest GET "/" ua p) P eq_refl).
  cbn [fst snd]. rewrite wsgi_app_reply, wsgi_app_world, wsgi_app_exporter.
  unfold debug_dispatch.
  change (flask_dispatch (make_request (mkRequest GET "/" ua p)) (world P))
    with (home (mkRequest GET "/" ua p) (world P)).
  unfold home. exec. cbn [user_agent].
  eexists. split; [reflexivity |].
  cbn [log set_log clock advance_clock].
  split; [pose proof (nanoseconds_nonneg
                        (overrun (world P) (overrun_pos (world P)))); lra |].
  split; [destruct ua; reflexivity |].
  split; [repeat split |].
  unfold Exporter.after_request. cbn [Exporter.request_total_metric].
  apply (count_inc ["GET"; "200"]).
Qed.

(** ** Requests the framework refuses *)


Ltac handler_keeps :=
  lazymatch goal with
  | |- raise _ _ = _ -> _ => unfold raise; intros [= _ <-]; reflexivity
  | |- ret _ _ = _ -> _ => unfold ret; discriminate
  | |- bind (metrics_demo ?r) _ ?w = _ -> _ =>
      unfold bind, ret; destruct (metrics_demo_run r w) as (? & -> & _);
      discriminate
  | |- metrics_demo ?r ?w = _ -> _ =>
      destruct (metrics_demo_run r w) as (? & -> & _); discriminate
  | |- create_order _ _ = _ -> _ => idtac
  | |- bind _ _ _ = _ -> _ =>
      unfold bind, ret;
      unfold home, health, metrics_endpoint, get_user, slow_endpoint,
        error_endpoint, error_types; exec;
      rewrite ?sleep_allowed by (unfold Qle; simpl; lia); exec;
      try match goal with
          | |- context [nth ?i ?l ?x] => destruct (nth i l x) as [[s m] rs]
          end;
      discriminate
  | |- _ =>
      unfold home, health, metrics_endpoint, get_user, slow_endpoint,
        error_endpoint, error_types; exec;
      rewrite ?sleep_allowed by (unfold Qle; simpl; lia); exec;
      try match goal with
          | |- context [nth ?i ?l ?x] => destruct (nth i l x) as [[s m] rs]
          end;
      discriminate
  end.

Lemma create_order_http (request : Request) (w w1 : World) (c : Z) :
  create_order request w = (Raised (HTTPException c), w1) -> w1 = w.
Proof.
  unfold create_order, get_json.
  destruct (data request) as [| | v]; exec;
    try (intros [= _ <-]; reflexivity).
  rewrite sleep_allowed by (unfold Qle; simpl; lia). exec.
  destruct (Qgt_bool _ float_0_1); exec; rewrite counter_inc_one.
  - destruct v; exec; try discriminate.
    destruct (Prom.to_float _) as [x | e] eqn:Hx; exec; [discriminate |].
    destruct (to_float_errors _ _ Hx) as [-> | ->]; discriminate.
  - destruct v; exec; discriminate.
Qed.

(* A view that ends in an HTTP exception has done nothing before. *)
Lemma dispatch_request_http (request : Request) (w w1 : World) (c : Z) :
  dispatch_request request w = (Raised (HTTPException c), w1) -> w1 = w.
Proof.
  unfold dispatch_request.
  destruct (match_path url_map (path request)) as [[r arg] |] eqn:E.
  2: { handler_keeps. }
  apply match_path_in in E. destruct E as [Hin Hm].
  unfold url_map in Hin. cbn [In] in Hin.
  repeat (destruct Hin as [<- | Hin]); try contradiction;
    destruct (method request); route_tests; handler_keeps.
  apply create_order_http.
Qed.

Lemma flask_dispatch_http (request : Request) (w w1 : World) (c : Z) :
  flask_dispatch request w = (Raised (HTTPException c), w1) -> w1 = w.
Proof.
  unfold flask_dispatch.
  destruct (route_request request) as [[| f] | loc | code].
  - apply dispatch_request_http.
  - destruct (method_eqb (method request) OPTIONS);
      [discriminate | unfold send_static_file, raise; now intros [= _ <-]].
  - unfold raise. now intros [= _ <-].
  - unfold raise. now intros [= _ <-].
Qed.

Lemma debug_dispatch_refused (request : Request) (w : World) (r : reply) :
  fst (debug_dispatch request w) = r ->
  refused r = true ->
  debug_dispatch request w
  = (Answer (mkResponse (reply_status r) DefaultPage), w).
Proof.
  pose proof (flask_dispatch_outcome request w) as H.
  pose proof (flask_dispatch_http request w) as K.
  unfold debug_dispatch.
  destruct (flask_dispatch request w) as [[resp | e] w1]; cbn [fst snd] in *.
  - intros <-. unfold refused. cbn [reply_status existsb].
    cbn [In] in H.
    destruct H as [<- | [<- | [<- | [<- | [<- | [<- | []]]]]]]; discriminate.
  - destruct H as [_ He]. cbn [In] in He.
    destruct He as [<- | [<- | [<- | [<- | [<- | [<- | [<- | [<- | []]]]]]]]];
      cbn; intros <-; try discriminate; intros _;
      rewrite (K w1 _ eq_refl); reflexivity.
Qed.

(** X4.  An answer 405, 308 or 415 comes without any effect on the
    application: when a request is refused with one of these codes (a
    method the rule does not allow, a path with doubled slashes, a body
    that is not JSON), the application state, log included, is the same
    as before; the answer is the framework's own page (no body to HEAD);
    and the exporter counts the request under its method and that
    status. *)
Theorem refusals_have_no_effect (environ : Request) (P : Process) (r : reply) :
  fst (debugged_application environ P) = Some r ->
  refused r = true ->
  world (snd (debugged_application environ P)) = world P
  /\ r = Answer (mkResponse (reply_status r)
                   (if method_eqb (method environ) HEAD then NoBody
                    else DefaultPage))
  /\ Exporter.count
       [method_name (method environ); str_of_int (reply_status r)]
       (Exporter.request_total_metric
          (exporter (snd (debugged_application environ P))))
     = Exporter.count
         [method_name (method environ); str_of_int (reply_status r)]
         (Exporter.request_total_metric (exporter P)) + 1.
Proof.
  unfold debugged_application.
  destruct (String.eqb _ console_path); [discriminate |].
  pose proof (wsgi_app_exporter environ P) as X.
  pose proof (wsgi_app_reply environ P) as R.
  pose proof (wsgi_app_world environ P) as W.
  pose proof (wsgi_app_status environ P) as S.
  destruct (wsgi_app environ P) as [r0 P1]. cbn [fst snd] in *.
  intros [= ->] Hr.
  assert (Hr' : refused (fst (debug_dispatch (make_request environ) (world P)))
                = true).
  { unfold refused in *. now rewrite <- S. }
  rewrite (debug_dispatch_refused _ _ _ eq_refl Hr') in *.
  cbn [fst snd reply_status status_code] in *. rewrite <- S in *.
  split; [exact W |]. split.
  - rewrite R. unfold sent, whole_registry, make_request.
    cbn [method response_body status_code].
    destruct (method_eqb (method environ) HEAD); reflexivity.
  - rewrite X. unfold Exporter.after_request.
    cbn [Exporter.request_total_metric]. apply count_inc.
Qed.

Lemma refusals_have_no_effect_witness :
  world (snd (debugged_application (mkRequest GET "/api/orders" None NotJson)
                accepting_process))
  = world accepting_process.
Proof.
  refine (proj1 (refusals_have_no_effect
                   (mkRequest GET "/api/orders" None NotJson)
                   accepting_process (Answer (mkResponse 405 DefaultPage))
                   _ _)).
  - vm_compute. reflexivity.
  - reflexivity.
Defined.

(** ** Start-up *)

